(** * Status synchronisation of the work-api controllers

    A shallow embedding of the status engine of [sigs.k8s.io/work-api]:
    - [pkg/statussync/rules/rule.go]: the built-in common-fields table;
    - the status reader ([GetValuesByRule], [getValueByJsonPath]);
    - [pkg/controllers/status_sync_controller.go]: the polling controller
      ([syncWork], [aggregateManifestConditions], [getSyncValues],
      [buildAvailableStatusCondition]);
    - the event-driven status-feedback reconciler ([Reconcile]).

    Go values are modelled as the code has them: [int] and [int64] as [Z],
    strings as [string], slices as lists, a [(value, error)] result as a pair
    whose error component is an [option], a run-time panic as a value of
    [Panic].
    Libraries the repository calls but does not contain (the JSONPath
    evaluator, the dynamic client, the REST mapper, the clock) are fields of
    explicit collaborator records, so every statement below holds for any
    behaviour of theirs. *)

From stdpp Require Import base strings list gmap pretty.

#[local] Set Warnings "-register-all".

(** ** k8s.io/apimachinery/pkg/apis/meta/v1 *)

Module metav1.
(** [type ConditionStatus string] with its three declared constants. *)
Abbreviation ConditionStatus := string (only parsing).
Definition ConditionTrue : ConditionStatus := "True".
Definition ConditionFalse : ConditionStatus := "False".
Definition ConditionUnknown : ConditionStatus := "Unknown".

(** [metav1.Time]: an instant, counted from Go's zero time, so that
    [IsZero] is the test against [0]. *)
Abbreviation Time := Z (only parsing).
Definition IsZero (t : Time) : bool := bool_decide (t = 0%Z).
End metav1.

Module Condition.
(** [metav1.Condition]. *)
Record t := mk {
  Type_ : string;
  Status : metav1.ConditionStatus;
  ObservedGeneration : Z;
  LastTransitionTime : metav1.Time;
  Reason : string;
  Message : string
}.

Global Instance eq_dec : EqDecision t.
Proof. solve_decision. Defined.
End Condition.
Abbreviation Condition := Condition.t.

(** ** k8s.io/apimachinery/pkg/api/meta: condition sets *)

Module meta.
(** [FindStatusCondition]: the first condition of the given type, with
    its position. *)
Definition FindStatusCondition (conditions : list Condition) (conditionType : string)
  : option (nat * Condition) :=
  list_find (λ c, Condition.Type_ c = conditionType) conditions.

(** [SetStatusCondition(&conditions, newCondition)]; [now] is the reading
    of [time.Now()] the call would make. *)
Definition SetStatusCondition (now : metav1.Time) (conditions : list Condition)
    (newCondition : Condition) : list Condition :=
  match FindStatusCondition conditions (Condition.Type_ newCondition) with
  | None =>
      conditions ++
        [ if metav1.IsZero (Condition.LastTransitionTime newCondition)
          then Condition.mk (Condition.Type_ newCondition) (Condition.Status newCondition)
                 (Condition.ObservedGeneration newCondition) now
                 (Condition.Reason newCondition) (Condition.Message newCondition)
          else newCondition ]
  | Some (i, existingCondition) =>
      let transition :=
        if bool_decide (Condition.Status existingCondition = Condition.Status newCondition)
        then Condition.LastTransitionTime existingCondition
        else if metav1.IsZero (Condition.LastTransitionTime newCondition)
             then now
             else Condition.LastTransitionTime newCondition in
      <[ i := Condition.mk (Condition.Type_ existingCondition) (Condition.Status newCondition)
                (Condition.ObservedGeneration newCondition) transition
                (Condition.Reason newCondition) (Condition.Message newCondition) ]> conditions
  end.
End meta.

(** ** Errors *)

(** Go [error] values that occur in the controllers: a plain message
    ([fmt.Errorf], [errors.New]), an API status error with its reason
    ([k8s.io/apimachinery/pkg/api/errors]), and an aggregate
    ([k8s.io/apimachinery/pkg/util/errors]). *)
Inductive error :=
  | ErrorString (msg : string)
  | StatusError (reason : string) (msg : string)
  | Aggregate (errs : list error).

Module errors.
(** [errors.IsNotFound]: the reason of the error is [NotFound]. *)
Definition IsNotFound (err : error) : bool :=
  match err with
  | StatusError reason _ => bool_decide (reason = "NotFound")
  | _ => false
  end.
End errors.

Module utilerrors.
(** [NewAggregate]: [nil] for an empty list, the aggregate otherwise.
    (A Go slice of errors may hold [nil] entries, which [NewAggregate]
    drops; a [list error] has none.) *)
Definition NewAggregate (errlist : list error) : option error :=
  match errlist with
  | [] => None
  | _ => Some (Aggregate errlist)
  end.

(** The messages [aggregate.visit] walks through: nested aggregates are
    flattened. *)
Fixpoint visit (err : error) : list string :=
  match err with
  | ErrorString msg => [msg]
  | StatusError _ msg => [msg]
  | Aggregate errs =>
      (fix go (l : list error) : list string :=
         match l with
         | [] => []
         | e :: l' => visit e ++ go l'
         end) errs
  end.

(** Messages already seen are skipped. *)
Fixpoint dedup (seen msgs : list string) : list string :=
  match msgs with
  | [] => []
  | m :: msgs' =>
      if bool_decide (m ∈ seen) then dedup seen msgs' else m :: dedup (m :: seen) msgs'
  end.

Fixpoint join (msgs : list string) : string :=
  match msgs with
  | [] => ""
  | [m] => m
  | m :: msgs' => m +:+ ", " +:+ join msgs'
  end.
End utilerrors.

(** [err.Error()], which is also what [%v] prints for an error. *)
Fixpoint Error (err : error) : string :=
  match err with
  | ErrorString msg => msg
  | StatusError _ msg => msg
  | Aggregate errs =>
      match errs with
      | [] => ""
      | [e] => Error e
      | _ =>
          match utilerrors.dedup [] (utilerrors.visit err) with
          | [m] => m
          | msgs => "[" +:+ utilerrors.join msgs +:+ "]"
          end
      end
  end.

(** ** Run-time panics *)

(** The two panics the controllers can raise: an index past the end of a
    slice, and a method call on a [nil] pointer. A computation that may
    panic returns [Panic + A]. *)
Inductive Panic :=
  | IndexOutOfRange (index : nat) (len : nat)
  | NilDereference.

Global Instance panic_bind : MBind (sum Panic) :=
  λ A B f m, match m with inl p => inl p | inr a => f a end.

Global Instance panic_ret : MRet (sum Panic) := λ A a, inr a.

(** ** k8s.io/apimachinery/pkg/runtime/schema *)

Module GroupVersionKind.
Record t := mk { Group : string; Version : string; Kind : string }.

Global Instance eq_dec : EqDecision t.
Proof. solve_decision. Defined.

Definition to_tuple (gvk : t) : string * string * string :=
  (Group gvk, Version gvk, Kind gvk).
Definition of_tuple (p : string * string * string) : t :=
  mk p.1.1 p.1.2 p.2.

Lemma of_to_tuple gvk : of_tuple (to_tuple gvk) = gvk.
Proof. by destruct gvk. Qed.

Global Instance countable : Countable t :=
  inj_countable' to_tuple of_tuple of_to_tuple.

(** [gvk.String()]. *)
Definition String (gvk : t) : string :=
  Group gvk +:+ "/" +:+ Version gvk +:+ ", Kind=" +:+ Kind gvk.
End GroupVersionKind.
Abbreviation GroupVersionKind := GroupVersionKind.t.

Module GroupVersionResource.
Record t := mk { Group : string; Version : string; Resource : string }.
End GroupVersionResource.
Abbreviation GroupVersionResource := GroupVersionResource.t.

(** ** Status documents *)

(** The dynamic values of an unstructured object: what [interface{}] holds
    after JSON decoding. A [float64] is kept as an uninterpreted payload. *)
Inductive Value :=
  | VNil
  | VInt64 (i : Z)
  | VFloat64 (bits : Z)
  | VString (s : string)
  | VBool (b : bool)
  | VMap (fields : list (string * Value))
  | VSlice (items : list Value).

(** [reflect.TypeOf(value)] as [%v] prints it. *)
Definition TypeOf (value : Value) : string :=
  match value with
  | VNil => "<nil>"
  | VInt64 _ => "int64"
  | VFloat64 _ => "float64"
  | VString _ => "string"
  | VBool _ => "bool"
  | VMap _ => "map[string]interface {}"
  | VSlice _ => "[]interface {}"
  end.

Module Unstructured.
(** [unstructured.Unstructured]: the content with the accessors the
    controllers call on it. *)
Record t := mk {
  GroupVersionKind : GroupVersionKind;
  GetNamespace : string;
  GetName : string;
  UnstructuredContent : Value
}.
End Unstructured.
Abbreviation Unstructured := Unstructured.t.

(** ** k8s.io/client-go/util/jsonpath *)

(** The JSONPath evaluator, with [AllowMissingKeys(true)] set: [Parse]
    turns the template text into a parsed path or fails, [FindResults]
    evaluates it on the content and gives the result sets, whose entries are
    read with [Interface()]. *)
Record JSONPathLib := {
  JSONPath : Type;
  Parse : string → error + JSONPath;
  FindResults : JSONPath → Value → error + list (list Value)
}.


(** ** sigs.k8s.io/work-api/pkg/apis/v1alpha1: declarations both generations share *)

Module JsonPath.
(** [JsonPath]: a named path, with an optional version constraint. *)
Record t := mk { Name : string; Version : string; Path : string }.

Global Instance eq_dec : EqDecision t.
Proof. solve_decision. Defined.
End JsonPath.
Abbreviation JsonPath := JsonPath.t.

Module ResourceIdentifier.
Record t := mk {
  Ordinal : Z;
  Group : string;
  Version : string;
  Kind : string;
  Resource : string;
  Namespace : string;
  Name : string
}.

Global Instance eq_dec : EqDecision t.
Proof. solve_decision. Defined.
End ResourceIdentifier.
Abbreviation ResourceIdentifier := ResourceIdentifier.t.

Module ValueType.
(** [type ValueType string]. *)
Definition Integer : string := "Integer".
Definition String : string := "String".
Definition Boolean : string := "Boolean".
Definition ByteArray : string := "ByteArray".
End ValueType.

(** ** pkg/statussync/rules/rule.go *)

Module rules.

(** [interface CommonFieldsStatusRuleResolver]. *)
Class CommonFieldsStatusRuleResolver (R : Type) :=
  GetPathsByKind : R → GroupVersionKind → list JsonPath.

Record DefaultCommonFieldsStatusResolver := {
  rules : gmap GroupVersionKind (list JsonPath)
}.

(** The double quote, which the path predicates contain. *)
Definition quote : string := String (Ascii.ascii_of_nat 34) EmptyString.

Definition deploymentRule : list JsonPath :=
  [ JsonPath.mk "ReadyReplicas" "" ".status.readyReplicas";
    JsonPath.mk "Replicas" "" ".status.replicas";
    JsonPath.mk "AvailableReplicas" "" ".status.availableReplicas" ].

Definition jobRule : list JsonPath :=
  [ JsonPath.mk "JobComplete" ""
      (".status.conditions[?(@.type==" +:+ quote +:+ "Complete" +:+ quote +:+ ")].status");
    JsonPath.mk "JobSucceeded" "" ".status.succeeded" ].

Definition podRule : list JsonPath :=
  [ JsonPath.mk "PodReady" ""
      (".status.conditions[?(@.type==" +:+ quote +:+ "Ready" +:+ quote +:+ ")].status");
    JsonPath.mk "PodPhase" "" ".status.phase" ].

Definition DefaultCommonFieldsStatusRule : DefaultCommonFieldsStatusResolver :=
  {| rules :=
       <[ GroupVersionKind.mk "apps" "v1" "Deployment" := deploymentRule ]>
         (<[ GroupVersionKind.mk "batch" "v1" "Job" := jobRule ]>
            (<[ GroupVersionKind.mk "" "v1" "Pod" := podRule ]> ∅)) |}.

(** Indexing a Go map at a missing key gives the zero value, a [nil]
    slice. *)
Global Instance DefaultCommonFieldsStatusResolver_resolver :
  CommonFieldsStatusRuleResolver DefaultCommonFieldsStatusResolver :=
  λ w gvk, default [] (rules w !! gvk).

End rules.

(** ** The status-feedback generation: API types, reader, reconciler *)

Module statusfeedback.

Module FieldValue.
(** [FieldValue]: the discriminant and one pointer field per variant. *)
Record t := mk {
  Type_ : string;
  Integer : option Z;
  String : option string;
  Boolean : option bool
}.

Global Instance eq_dec : EqDecision t.
Proof. solve_decision. Defined.
End FieldValue.
Abbreviation FieldValue := FieldValue.t.

Module FeedbackValue.
Record t := mk { Name : string; Value : FieldValue }.

Global Instance eq_dec : EqDecision t.
Proof. solve_decision. Defined.
End FeedbackValue.
Abbreviation FeedbackValue := FeedbackValue.t.

Module StatusFeedbackRule.
(** [type FeedBackType string]. *)
Definition CommonFieldsType : string := "CommonFields".
Definition JSONPathsType : string := "JSONPaths".

Record t := mk { Type_ : string; JsonPaths : list JsonPath }.
End StatusFeedbackRule.
Abbreviation StatusFeedbackRule := StatusFeedbackRule.t.

(** [StatusReader]: it holds a value of the resolver interface. *)
Record StatusReader := {
  Resolver : Type;
  Resolver_impl : rules.CommonFieldsStatusRuleResolver Resolver;
  CommonFieldsStatus : Resolver
}.

Definition NewStatusReader : StatusReader :=
  {| Resolver := rules.DefaultCommonFieldsStatusResolver;
     Resolver_impl := rules.DefaultCommonFieldsStatusResolver_resolver;
     CommonFieldsStatus := rules.DefaultCommonFieldsStatusRule |}.

(** [s.CommonFieldsStatus.GetPathsByKind(gvk)]. *)
Definition GetPathsByKind (s : StatusReader) (gvk : GroupVersionKind) : list JsonPath :=
  @rules.GetPathsByKind _ (Resolver_impl s) (CommonFieldsStatus s) gvk.

(** [getValueByJsonPath]: the pair of a pointer to a [FeedbackValue] and an
    error that the Go function returns. *)
Definition getValueByJsonPath (J : JSONPathLib) (name path : string) (obj : Unstructured)
  : option FeedbackValue * option error :=
  match Parse J ("{" +:+ path +:+ "}") with
  | inl err =>
      (None, Some (ErrorString ("failed to parse json path " +:+ path +:+ " of " +:+ name
                                  +:+ " with error: " +:+ Error err)))
  | inr j =>
      match FindResults J j (Unstructured.UnstructuredContent obj) with
      | inl err =>
          (None, Some (ErrorString ("failed to find value for " +:+ name
                                      +:+ " with error: " +:+ Error err)))
      | inr [] => (None, None)
      | inr ([] :: _) => (None, None)
      | inr ((value :: _) :: _) =>
          match value with
          | VNil => (None, None)
          | VInt64 t =>
              (Some (FeedbackValue.mk name (FieldValue.mk ValueType.Integer (Some t) None None)),
               None)
          | VString t =>
              (Some (FeedbackValue.mk name (FieldValue.mk ValueType.String None (Some t) None)),
               None)
          | VBool t =>
              (Some (FeedbackValue.mk name (FieldValue.mk ValueType.Boolean None None (Some t))),
               None)
          | _ =>
              (None, Some (ErrorString ("the type " +:+ TypeOf value +:+ " of the value for "
                                          +:+ name +:+ " is not found")))
          end
      end
  end.

(** One turn of the loop over the paths of a rule: an error is recorded
    and the loop goes on, an absent value is skipped, a value is appended. *)
Definition readPath (J : JSONPathLib) (obj : Unstructured)
    (acc : list error * list FeedbackValue) (path : JsonPath)
  : list error * list FeedbackValue :=
  match getValueByJsonPath J (JsonPath.Name path) (JsonPath.Path path) obj with
  | (_, Some err) => (acc.1 ++ [err], acc.2)
  | (None, None) => acc
  | (Some value, None) => (acc.1, acc.2 ++ [value])
  end.

(** The same turn for a [JSONPaths] rule, which first checks the version
    the path declares. *)
Definition readVersionedPath (J : JSONPathLib) (obj : Unstructured)
    (acc : list error * list FeedbackValue) (path : JsonPath)
  : list error * list FeedbackValue :=
  if bool_decide (String.length (JsonPath.Version path) ≠ 0)
     && bool_decide (GroupVersionKind.Version (Unstructured.GroupVersionKind obj)
                       ≠ JsonPath.Version path)
  then (acc.1 ++ [ErrorString ("version set in the path " +:+ JsonPath.Name path
                                 +:+ " is not matched for the related resource")],
        acc.2)
  else readPath J obj acc path.

(** [GetValuesByRule]: the values and the aggregated error. *)
Definition GetValuesByRule (J : JSONPathLib) (s : StatusReader) (obj : Unstructured)
    (rule : StatusFeedbackRule) : list FeedbackValue * option error :=
  if bool_decide (StatusFeedbackRule.Type_ rule = StatusFeedbackRule.CommonFieldsType) then
    let paths := GetPathsByKind s (Unstructured.GroupVersionKind obj) in
    if bool_decide (length paths = 0) then
      ([], Some (ErrorString ("cannot find the CommonFields statuses for resrouce with gvk "
                                +:+ GroupVersionKind.String (Unstructured.GroupVersionKind obj))))
    else
      let acc := fold_left (readPath J obj) paths ([], []) in
      (acc.2, utilerrors.NewAggregate acc.1)
  else if bool_decide (StatusFeedbackRule.Type_ rule = StatusFeedbackRule.JSONPathsType) then
    let acc := fold_left (readVersionedPath J obj) (StatusFeedbackRule.JsonPaths rule) ([], []) in
    (acc.2, utilerrors.NewAggregate acc.1)
  else ([], utilerrors.NewAggregate []).

(** *** The first declaration of the Work types *)

Module Manifest.
(** [Manifest]: the raw resource with its feedback rules; a [nil] slice of
    rules is [None]. *)
Record t := mk {
  Raw : string;
  StatusFeedbackRules : option (list StatusFeedbackRule)
}.
End Manifest.
Abbreviation Manifest := Manifest.t.

Module StatusFeedbackResult.
Record t := mk { Values : list FeedbackValue }.

Global Instance eq_dec : EqDecision t.
Proof. solve_decision. Defined.
End StatusFeedbackResult.
Abbreviation StatusFeedbackResult := StatusFeedbackResult.t.

Module ManifestCondition.
Record t := mk {
  Identifier : ResourceIdentifier;
  Conditions : list Condition;
  StatusFeedbacks : StatusFeedbackResult
}.

Global Instance eq_dec : EqDecision t.
Proof. solve_decision. Defined.
End ManifestCondition.
Abbreviation ManifestCondition := ManifestCondition.t.

Module WorkStatus.
Record t := mk {
  Conditions : list Condition;
  ManifestConditions : list ManifestCondition
}.
End WorkStatus.
Abbreviation WorkStatus := WorkStatus.t.

Module WorkloadTemplate.
Record t := mk { Manifests : list Manifest }.
End WorkloadTemplate.

Module WorkSpec.
Record t := mk { Workload : WorkloadTemplate.t }.
End WorkSpec.

Module Work.
(** [Work], with the fields of its [ObjectMeta] that the reconciler reads. *)
Record t := mk {
  Name : string;
  Namespace : string;
  Generation : Z;
  Spec : WorkSpec.t;
  Status : WorkStatus
}.
End Work.
Abbreviation Work := Work.t.

(** *** The reconciler *)

Definition statusFeedbackConditionType : string := "StatusFeedbackSynced".

(** [StatusFeedbackReconciler]: the collaborators behind its fields.
    [client_Get] and [client_Status_Update] are the hub client,
    [decodeUnstructured] is the decoding of a manifest with the REST mapper,
    [spokeDynamicClient_Get] the fetch of a resource by its coordinates, and
    [now i] the reading of the clock when the condition of the manifest at
    position [i] is set. *)
Record StatusFeedbackReconciler := {
  client_Get : string → string → error + Work;
  client_Status_Update : Work → option error;
  decodeUnstructured : Manifest → error + (GroupVersionResource * Unstructured);
  spokeDynamicClient_Get : GroupVersionResource → string → string → error + Unstructured;
  statusSyncInterval : Z;
  statusReader : StatusReader;
  jsonpath : JSONPathLib;
  now : nat → metav1.Time
}.

(** [getResourceObject]. *)
Definition getResourceObject (c : StatusFeedbackReconciler) (manifest : Manifest)
  : error + Unstructured :=
  match decodeUnstructured c manifest with
  | inl err => inl err
  | inr (gvr, unstructuredObj) =>
      spokeDynamicClient_Get c gvr (Unstructured.GetNamespace unstructuredObj)
        (Unstructured.GetName unstructuredObj)
  end.

(** [getFeedbackValues]. *)
Definition getFeedbackValues (c : StatusFeedbackReconciler) (obj : Unstructured)
    (statusFeedbackRules : list StatusFeedbackRule) : list FeedbackValue * Condition :=
  let acc :=
    fold_left
      (λ (acc : list error * list FeedbackValue) rule,
         let r := GetValuesByRule (jsonpath c) (statusReader c) obj rule in
         (match r.2 with Some err => acc.1 ++ [err] | None => acc.1 end,
          if bool_decide (0 < length r.1) then acc.2 ++ r.1 else acc.2))
      statusFeedbackRules ([], []) in
  let values := acc.2 in
  match utilerrors.NewAggregate acc.1 with
  | Some err =>
      (values,
       {| Condition.Type_ := statusFeedbackConditionType;
          Condition.Status := metav1.ConditionFalse;
          Condition.ObservedGeneration := 0;
          Condition.LastTransitionTime := 0;
          Condition.Reason := "StatusFeedbackSyncFailed";
          Condition.Message := "Sync status feedback failed with error " +:+ Error err |})
  | None =>
      if bool_decide (length values = 0) then
        (values,
         {| Condition.Type_ := statusFeedbackConditionType;
            Condition.Status := metav1.ConditionTrue;
            Condition.ObservedGeneration := 0;
            Condition.LastTransitionTime := 0;
            Condition.Reason := "NoStatusFeedbackSynced";
            Condition.Message := "" |})
      else
        (values,
         {| Condition.Type_ := statusFeedbackConditionType;
            Condition.Status := metav1.ConditionTrue;
            Condition.ObservedGeneration := 0;
            Condition.LastTransitionTime := 0;
            Condition.Reason := "StatusFeedbackSynced";
            Condition.Message := "" |})
  end.

(** The test of the inner loop: the identifier names the fetched resource. *)
Definition identifies (resource : Unstructured) (manifestCondition : ManifestCondition) : Prop :=
  let identifier := ManifestCondition.Identifier manifestCondition in
  let gvk := Unstructured.GroupVersionKind resource in
  ResourceIdentifier.Namespace identifier = Unstructured.GetNamespace resource
  ∧ ResourceIdentifier.Name identifier = Unstructured.GetName resource
  ∧ ResourceIdentifier.Group identifier = GroupVersionKind.Group gvk
  ∧ ResourceIdentifier.Version identifier = GroupVersionKind.Version gvk
  ∧ ResourceIdentifier.Kind identifier = GroupVersionKind.Kind gvk.

Global Instance identifies_dec resource manifestCondition :
  Decision (identifies resource manifestCondition).
Proof. unfold identifies; apply _. Defined.

(** The inner loop: the first manifest condition that names the resource
    receives the condition and the values. *)
Definition recordFeedback (now : metav1.Time) (resource : Unstructured)
    (values : list FeedbackValue) (statusFeedbackCondition : Condition)
    (manifestConditions : list ManifestCondition) : list ManifestCondition :=
  match list_find (identifies resource) manifestConditions with
  | None => manifestConditions
  | Some (index, manifestCondition) =>
      <[ index :=
           ManifestCondition.mk (ManifestCondition.Identifier manifestCondition)
             (meta.SetStatusCondition now (ManifestCondition.Conditions manifestCondition)
                statusFeedbackCondition)
             (StatusFeedbackResult.mk values) ]> manifestConditions
  end.

(** The loop over the manifests, from position [i] on. [None] is the
    return from inside the loop, taken when a resource cannot be fetched. *)
Fixpoint feedbackManifests (c : StatusFeedbackReconciler) (i : nat) (manifests : list Manifest)
    (manifestConditions : list ManifestCondition) : option (list ManifestCondition) :=
  match manifests with
  | [] => Some manifestConditions
  | manifest :: manifests' =>
      match Manifest.StatusFeedbackRules manifest with
      | None => feedbackManifests c (S i) manifests' manifestConditions
      | Some statusFeedbackRules =>
          match getResourceObject c manifest with
          | inl _ => None
          | inr resource =>
              let '(values, statusFeedbackCondition) :=
                getFeedbackValues c resource statusFeedbackRules in
              feedbackManifests c (S i) manifests'
                (recordFeedback (now c i) resource values statusFeedbackCondition
                   manifestConditions)
          end
      end
  end.

(** The candidate that [Reconcile] builds from the work it read: the
    work with its manifest conditions rewritten by the loop. *)
Definition rebuild (c : StatusFeedbackReconciler) (originalWork : Work) : option Work :=
  match feedbackManifests c 0
          (WorkloadTemplate.Manifests (WorkSpec.Workload (Work.Spec originalWork)))
          (WorkStatus.ManifestConditions (Work.Status originalWork)) with
  | None => None
  | Some manifestConditions =>
      Some (Work.mk (Work.Name originalWork) (Work.Namespace originalWork)
              (Work.Generation originalWork) (Work.Spec originalWork)
              (WorkStatus.mk (WorkStatus.Conditions (Work.Status originalWork))
                 manifestConditions))
  end.

(** [equality.Semantic.DeepEqual] on the two parts of a status. *)
Definition statusEqual (a b : WorkStatus) : bool :=
  bool_decide (WorkStatus.Conditions a = WorkStatus.Conditions b)
  && bool_decide (WorkStatus.ManifestConditions a = WorkStatus.ManifestConditions b).

(** What one call of [Reconcile] does: the delay of the requeue, the
    error it returns, and the work it hands to [Status().Update], if any. *)
Record Outcome := {
  RequeueAfter : Z;
  returned : option error;
  written : option Work
}.

(** [Reconcile]. *)
Definition Reconcile (c : StatusFeedbackReconciler) (name namespace : string) : Outcome :=
  match client_Get c name namespace with
  | inl err =>
      if errors.IsNotFound err
      then {| RequeueAfter := 0; returned := None; written := None |}
      else {| RequeueAfter := 0; returned := Some err; written := None |}
  | inr originalWork =>
      match rebuild c originalWork with
      | None =>
          {| RequeueAfter := statusSyncInterval c; returned := None; written := None |}
      | Some work =>
          if statusEqual (Work.Status originalWork) (Work.Status work)
          then {| RequeueAfter := statusSyncInterval c; returned := None; written := None |}
          else {| RequeueAfter := statusSyncInterval c;
                  returned := client_Status_Update c work;
                  written := Some work |}
      end
  end.

End statusfeedback.

(** ** The status-sync generation: API types and the polling controller *)

Module statussync.

Global Instance byte_eq_dec : EqDecision Byte.byte := Byte.byte_eq_dec.

Module FieldValue.
(** The later declaration of [FieldValue], with the byte array. *)
Record t := mk {
  Type_ : string;
  Integer : option Z;
  String : option string;
  Boolean : option bool;
  ByteArray : option (list Byte.byte)
}.

Global Instance eq_dec : EqDecision t.
Proof. solve_decision. Defined.
End FieldValue.
Abbreviation FieldValue := FieldValue.t.

Module SyncValue.
Record t := mk { Name : string; Value : FieldValue }.

Global Instance eq_dec : EqDecision t.
Proof. solve_decision. Defined.
End SyncValue.
Abbreviation SyncValue := SyncValue.t.

Module StatusSyncResult.
Record t := mk { Values : list SyncValue }.

Global Instance eq_dec : EqDecision t.
Proof. solve_decision. Defined.
End StatusSyncResult.
Abbreviation StatusSyncResult := StatusSyncResult.t.

Module ManifestCondition.
Record t := mk {
  Identifier : ResourceIdentifier;
  Conditions : list Condition;
  StatusSync : StatusSyncResult
}.

Global Instance eq_dec : EqDecision t.
Proof. solve_decision. Defined.
End ManifestCondition.
Abbreviation ManifestCondition := ManifestCondition.t.

Module WorkStatus.
Record t := mk {
  Conditions : list Condition;
  ManifestConditions : list ManifestCondition
}.

Global Instance eq_dec : EqDecision t.
Proof. solve_decision. Defined.
End WorkStatus.
Abbreviation WorkStatus := WorkStatus.t.

Module Manifest.
(** [Manifest]: the embedded [runtime.RawExtension]. *)
Record t := mk { Raw : string }.
End Manifest.
Abbreviation Manifest := Manifest.t.

Module Script.
Record t := mk { Name : string; Language : string; Content : string }.
End Script.

Module StatusSyncRule.
(** [type SyncType string]. *)
Definition JSONPathsType : string := "JSONPaths".
Definition ScriptsType : string := "Scripts".

Record t := mk {
  Type_ : string;
  JsonPaths : list JsonPath;
  Scripts : list Script.t
}.
End StatusSyncRule.
Abbreviation StatusSyncRule := StatusSyncRule.t.

Module ResourceStatusSyncConfiguration.
(** [ResourceStatusSyncConfiguration]: the rules, the probe frequency
    and the stop threshold, both [int32]. *)
Record t := mk {
  Rules : list StatusSyncRule;
  FrequencySeconds : Z;
  StopSyncThreshold : Z
}.
End ResourceStatusSyncConfiguration.
Abbreviation ResourceStatusSyncConfiguration := ResourceStatusSyncConfiguration.t.

Module ManifestConfig.
(** Modelled from the spec: the declaration of the element type of
    [Spec.WorkloadConfig.ManifestConfigs] is not among the sources. The spec
    has a rule "supplied externally per manifest" for a resource's type
    identity; the record has the two fields [syncWork] reads, the identifier
    whose group, version and kind select the manifest, and the rules. *)
Record t := mk {
  ResourceIdentifier : ResourceIdentifier;
  StatusSyncRules : list StatusSyncRule
}.
End ManifestConfig.
Abbreviation ManifestConfig := ManifestConfig.t.

Module WorkloadTemplate.
Record t := mk { Manifests : list Manifest }.
End WorkloadTemplate.

Module WorkloadConfig.
(** Modelled from the spec: [Spec.WorkloadConfig], which [syncWork] reads
    and no source declares; it holds the per-manifest rule configurations. *)
Record t := mk { ManifestConfigs : list ManifestConfig }.
End WorkloadConfig.

Module WorkSpec.
Record t := mk {
  Workload : WorkloadTemplate.t;
  WorkloadConfig : WorkloadConfig.t
}.
End WorkSpec.

Module Work.
(** [Work], with the fields of its [ObjectMeta] that the controller reads. *)
Record t := mk {
  Name : string;
  Generation : Z;
  Spec : WorkSpec.t;
  Status : WorkStatus
}.
End Work.
Abbreviation Work := Work.t.

(** *** pkg/controllers/status_sync_controller.go *)

Definition statusSyncConditionType : string := "StatusSynced".
Definition resourceAvailableConditionType : string := "Available".

(** The places of [syncWork] where a condition is set, and so where the
    clock may be read: for the manifest at a position, its availability and
    its sync outcome; for the work, its aggregate. Each is reached at most
    once in a pass. *)
Inductive Site :=
  | AvailableSite (index : nat)
  | SyncSite (index : nat)
  | WorkSite.

(** [StatusSyncController]: the collaborators behind its fields.
    [client_Status_Update] is the hub client, [decodeUnstructured] the
    decoding of a manifest with the REST mapper, [spokeDynamicClient_Get]
    the fetch of a resource by its coordinates, [statusReader] the method
    [GetValuesByRule] of the reader (package [statussync], which is not among
    the sources), and [now] the reading of the clock at a site. *)
Record StatusSyncController := {
  client_Status_Update : Work → option error;
  decodeUnstructured : Manifest → error + (GroupVersionResource * Unstructured);
  spokeDynamicClient_Get : GroupVersionResource → string → string → error + Unstructured;
  statusReader : Unstructured → StatusSyncRule → list SyncValue * option error;
  now : Site → metav1.Time
}.

(** The inner loop of [aggregateManifestConditions]: one condition is
    counted as available, unavailable or unknown. The counters are Go
    [int]s; they count list entries and stay far from the 64-bit bound. *)
Definition countCondition (acc : Z * Z * Z) (condition : Condition) : Z * Z * Z :=
  let '(available, unavailable, unknown) := acc in
  if bool_decide (Condition.Type_ condition ≠ resourceAvailableConditionType) then acc
  else if bool_decide (Condition.Status condition = metav1.ConditionTrue)
       then (available + 1, unavailable, unknown)%Z
  else if bool_decide (Condition.Status condition = metav1.ConditionFalse)
       then (available, unavailable + 1, unknown)%Z
  else if bool_decide (Condition.Status condition = metav1.ConditionUnknown)
       then (available, unavailable, unknown + 1)%Z
  else acc.

(** [aggregateManifestConditions]. *)
Definition aggregateManifestConditions (generation : Z) (manifests : list ManifestCondition)
  : Condition :=
  let '(available, unavailable, unknown) :=
    fold_left (λ acc manifest, fold_left countCondition (ManifestCondition.Conditions manifest) acc)
      manifests (0, 0, 0)%Z in
  if bool_decide (0 < unavailable)%Z then
    {| Condition.Type_ := resourceAvailableConditionType;
       Condition.Status := metav1.ConditionFalse;
       Condition.ObservedGeneration := generation;
       Condition.LastTransitionTime := 0;
       Condition.Reason := "ResourcesNotAvailable";
       Condition.Message :=
         pretty unavailable +:+ " of " +:+ pretty (Z.of_nat (length manifests))
           +:+ " resources are not available" |}
  else if bool_decide (0 < unknown)%Z then
    {| Condition.Type_ := resourceAvailableConditionType;
       Condition.Status := metav1.ConditionUnknown;
       Condition.ObservedGeneration := generation;
       Condition.LastTransitionTime := 0;
       Condition.Reason := "ResourcesStatusUnknown";
       Condition.Message :=
         pretty unknown +:+ " of " +:+ pretty (Z.of_nat (length manifests))
           +:+ " resources have unknown status" |}
  else if bool_decide (available = 0)%Z then
    {| Condition.Type_ := resourceAvailableConditionType;
       Condition.Status := metav1.ConditionUnknown;
       Condition.ObservedGeneration := generation;
       Condition.LastTransitionTime := 0;
       Condition.Reason := "ResourcesStatusUnknown";
       Condition.Message := "cannot get any available resource" |}
  else
    {| Condition.Type_ := resourceAvailableConditionType;
       Condition.Status := metav1.ConditionTrue;
       Condition.ObservedGeneration := generation;
       Condition.LastTransitionTime := 0;
       Condition.Reason := "ResourcesAvailable";
       Condition.Message := "All resources are available" |}.

(** One turn of the loop of [getSyncValues]: the error of the rule, if
    any, is recorded, and its values, if any, are appended. *)
Definition readRule {Rule Value : Type}
    (GetValuesByRule : Unstructured → Rule → list Value * option error)
    (obj : Unstructured) (acc : list error * list Value) (rule : Rule)
  : list error * list Value :=
  let '(valuesByRule, err) := GetValuesByRule obj rule in
  (match err with Some e => acc.1 ++ [e] | None => acc.1 end,
   if bool_decide (0 < length valuesByRule) then acc.2 ++ valuesByRule else acc.2).

(** [getSyncValues], over the reader's [GetValuesByRule] and so over the
    types of its rules and values. *)
Definition getSyncValues {Rule Value : Type}
    (GetValuesByRule : Unstructured → Rule → list Value * option error)
    (obj : Unstructured) (statusSyncRules : list Rule) : list Value * Condition :=
  let acc := fold_left (readRule GetValuesByRule obj) statusSyncRules ([], []) in
  let values := acc.2 in
  match utilerrors.NewAggregate acc.1 with
  | Some err =>
      (values,
       {| Condition.Type_ := statusSyncConditionType;
          Condition.Status := metav1.ConditionFalse;
          Condition.ObservedGeneration := 0;
          Condition.LastTransitionTime := 0;
          Condition.Reason := "StatusSyncFailed";
          Condition.Message := "Sync status failed with error " +:+ Error err |})
  | None =>
      if bool_decide (length values = 0) then
        (values,
         {| Condition.Type_ := statusSyncConditionType;
            Condition.Status := metav1.ConditionTrue;
            Condition.ObservedGeneration := 0;
            Condition.LastTransitionTime := 0;
            Condition.Reason := "NoStatusSynced";
            Condition.Message := "" |})
      else
        (values,
         {| Condition.Type_ := statusSyncConditionType;
            Condition.Status := metav1.ConditionTrue;
            Condition.ObservedGeneration := 0;
            Condition.LastTransitionTime := 0;
            Condition.Reason := "StatusSynced";
            Condition.Message := "" |})
  end.

(** [buildAvailableStatusCondition]: the object, the condition and the
    error, as the Go function returns them. *)
Definition buildAvailableStatusCondition (c : StatusSyncController) (manifest : Manifest)
  : option Unstructured * Condition * option error :=
  match decodeUnstructured c manifest with
  | inl err =>
      (None,
       {| Condition.Type_ := resourceAvailableConditionType;
          Condition.Status := metav1.ConditionUnknown;
          Condition.ObservedGeneration := 0;
          Condition.LastTransitionTime := 0;
          Condition.Reason := "IncompletedResourceMeta";
          Condition.Message := "Resource meta is incompleted" |},
       Some err)
  | inr (gvr, unstructuredObj) =>
      match spokeDynamicClient_Get c gvr (Unstructured.GetNamespace unstructuredObj)
              (Unstructured.GetName unstructuredObj) with
      | inl err =>
          if errors.IsNotFound err then
            (None,
             {| Condition.Type_ := resourceAvailableConditionType;
                Condition.Status := metav1.ConditionFalse;
                Condition.ObservedGeneration := 0;
                Condition.LastTransitionTime := 0;
                Condition.Reason := "ResourceNotAvailable";
                Condition.Message := "Resource is not available" |},
             Some err)
          else
            (None,
             {| Condition.Type_ := resourceAvailableConditionType;
                Condition.Status := metav1.ConditionUnknown;
                Condition.ObservedGeneration := 0;
                Condition.LastTransitionTime := 0;
                Condition.Reason := "FetchingResourceFailed";
                Condition.Message := "Failed to fetch resource: " +:+ Error err |},
             Some err)
      | inr obj =>
          (Some obj,
           {| Condition.Type_ := resourceAvailableConditionType;
              Condition.Status := metav1.ConditionTrue;
              Condition.ObservedGeneration := 0;
              Condition.LastTransitionTime := 0;
              Condition.Reason := "ResourceAvailable";
              Condition.Message := "Resource is available" |},
           None)
      end
  end.

(** [&work.Status.ManifestConditions[index]]: the entry is rewritten in
    place; an index out of range panics. *)
Definition atIndex (index : nat) (f : ManifestCondition → ManifestCondition)
    (manifestConditions : list ManifestCondition) : Panic + list ManifestCondition :=
  match manifestConditions !! index with
  | None => inl (IndexOutOfRange index (length manifestConditions))
  | Some manifestCondition => inr (<[ index := f manifestCondition ]> manifestConditions)
  end.

(** [meta.SetStatusCondition(&entry.Conditions, condition)]. *)
Definition setCondition (now : metav1.Time) (condition : Condition)
    (manifestCondition : ManifestCondition) : ManifestCondition :=
  ManifestCondition.mk (ManifestCondition.Identifier manifestCondition)
    (meta.SetStatusCondition now (ManifestCondition.Conditions manifestCondition) condition)
    (ManifestCondition.StatusSync manifestCondition).

(** [entry.StatusSync.Values = values]. *)
Definition setValues (values : list SyncValue) (manifestCondition : ManifestCondition)
  : ManifestCondition :=
  ManifestCondition.mk (ManifestCondition.Identifier manifestCondition)
    (ManifestCondition.Conditions manifestCondition)
    (StatusSyncResult.mk values).

(** The test of the loop over the manifest configurations. *)
Definition configures (gvk : GroupVersionKind) (manifestConfig : ManifestConfig) : bool :=
  let identifier := ManifestConfig.ResourceIdentifier manifestConfig in
  bool_decide (ResourceIdentifier.Group identifier = GroupVersionKind.Group gvk)
  && bool_decide (ResourceIdentifier.Version identifier = GroupVersionKind.Version gvk)
  && bool_decide (ResourceIdentifier.Kind identifier = GroupVersionKind.Kind gvk).

(** The body of the loop of [syncWork] for the manifest at [index]. The
    availability condition is written first; on an error the turn ends
    there. Otherwise the first configuration of the resource's kind, if
    there is one, gives the rules, and the sync condition and the values are
    written. Calling [GroupVersionKind()] on a [nil] object panics. *)
Definition syncManifest (c : StatusSyncController) (manifestConfigs : list ManifestConfig)
    (index : nat) (manifest : Manifest) (manifestConditions : list ManifestCondition)
  : Panic + list ManifestCondition :=
  let '(obj, availableStatusCondition, err) := buildAvailableStatusCondition c manifest in
  manifestConditions ←
    atIndex index (setCondition (now c (AvailableSite index)) availableStatusCondition)
      manifestConditions;
  match err with
  | Some _ => inr manifestConditions
  | None =>
      match obj with
      | None => inl NilDereference
      | Some obj =>
          match find (configures (Unstructured.GroupVersionKind obj)) manifestConfigs with
          | None => inr manifestConditions
          | Some manifestConfig =>
              let '(values, statusSyncCondition) :=
                getSyncValues (statusReader c) obj
                  (ManifestConfig.StatusSyncRules manifestConfig) in
              manifestConditions ←
                atIndex index (setCondition (now c (SyncSite index)) statusSyncCondition)
                  manifestConditions;
              atIndex index (setValues values) manifestConditions
          end
      end
  end.

(** The loop of [syncWork] over the manifests, from position [index] on. *)
Fixpoint syncManifests (c : StatusSyncController) (manifestConfigs : list ManifestConfig)
    (index : nat) (manifests : list Manifest) (manifestConditions : list ManifestCondition)
  : Panic + list ManifestCondition :=
  match manifests with
  | [] => inr manifestConditions
  | manifest :: manifests' =>
      manifestConditions ← syncManifest c manifestConfigs index manifest manifestConditions;
      syncManifests c manifestConfigs (S index) manifests' manifestConditions
  end.

(** [equality.Semantic.DeepEqual] on the two parts of a status. *)
Definition statusEqual (a b : WorkStatus) : bool :=
  bool_decide (WorkStatus.Conditions a = WorkStatus.Conditions b)
  && bool_decide (WorkStatus.ManifestConditions a = WorkStatus.ManifestConditions b).

(** What one call of [syncWork] does when it does not panic: the
    candidate it built, the error it returns, and the work it hands to
    [Status().Update], if any. *)
Record Outcome := {
  candidate : Work;
  returned : option error;
  written : option Work
}.

(** [syncWork]. *)
Definition syncWork (c : StatusSyncController) (originalWork : Work) : Panic + Outcome :=
  manifestConditions ←
    syncManifests c
      (WorkloadConfig.ManifestConfigs (WorkSpec.WorkloadConfig (Work.Spec originalWork)))
      0
      (WorkloadTemplate.Manifests (WorkSpec.Workload (Work.Spec originalWork)))
      (WorkStatus.ManifestConditions (Work.Status originalWork));
  let workAvailableStatusCondition :=
    aggregateManifestConditions (Work.Generation originalWork) manifestConditions in
  let work :=
    Work.mk (Work.Name originalWork) (Work.Generation originalWork) (Work.Spec originalWork)
      (WorkStatus.mk
         (meta.SetStatusCondition (now c WorkSite)
            (WorkStatus.Conditions (Work.Status originalWork)) workAvailableStatusCondition)
         manifestConditions) in
  if statusEqual (Work.Status originalWork) (Work.Status work)
  then inr {| candidate := work; returned := None; written := None |}
  else inr {| candidate := work; returned := client_Status_Update c work; written := Some work |}.

(** The work the hub holds after a pass: the written work when the update
    was issued and accepted, the work as it was otherwise. *)
Definition persisted (originalWork : Work) (o : Outcome) : Work :=
  match written o, returned o with
  | Some work, None => work
  | _, _ => originalWork
  end.

(** *** The sweep over all works *)

(** A line of the controller's log. *)
Inductive LogLine :=
  | LogInfo (msg : string)
  | LogError (err : error) (msg : string).

(** The controller with its clock replaced: the view of it during one
    pass of a sweep. *)
Definition atTime (c : StatusSyncController) (now' : Site → metav1.Time)
  : StatusSyncController :=
  {| client_Status_Update := client_Status_Update c;
     decodeUnstructured := decodeUnstructured c;
     spokeDynamicClient_Get := spokeDynamicClient_Get c;
     statusReader := statusReader c;
     now := now' |}.

(** What a sweep does: the lines it logs, the outcomes of the passes it
    completed, in order, and the panic that ended it, if any. *)
Record Sweep := {
  logged : list LogLine;
  completed : list Outcome;
  panicked : option Panic
}.

(** The loop of [syncAllWorks] over the listed works, from the [k]-th
    on; [clock k] is the clock during the pass over the [k]-th work. Each
    pass logs its first line; an error it returns is logged and the loop
    goes on; a panic ends the loop. *)
Fixpoint syncWorks (c : StatusSyncController) (clock : nat → Site → metav1.Time) (k : nat)
    (works : list Work) : Sweep :=
  match works with
  | [] => {| logged := []; completed := []; panicked := None |}
  | work :: works' =>
      match syncWork (atTime c (clock k)) work with
      | inl p =>
          {| logged := [LogInfo ("sync work: " +:+ Work.Name work)];
             completed := [];
             panicked := Some p |}
      | inr o =>
          let rest := syncWorks c clock (S k) works' in
          {| logged :=
               LogInfo ("sync work: " +:+ Work.Name work)
               :: match returned o with
                  | Some err => [LogError err ("unable to sync work " +:+ Work.Name work)]
                  | None => []
                  end
               ++ logged rest;
             completed := o :: completed rest;
             panicked := panicked rest |}
      end
  end.

(** [syncAllWorks]; [listed] is what [c.client.List] gives: the items of
    the list and the error. An error is logged and the items are swept all
    the same. *)
Definition syncAllWorks (c : StatusSyncController) (clock : nat → Site → metav1.Time)
    (listed : list Work * option error) : Sweep :=
  let sweep := syncWorks c clock 0 listed.1 in
  {| logged :=
       LogInfo "Reconciling all Works"
       :: match listed.2 with
          | Some err => [LogError err "unable to list work"]
          | None => []
          end
       ++ (if bool_decide (length listed.1 = 0) then [LogInfo "no work found"] else [])
       ++ logged sweep;
     completed := completed sweep;
     panicked := panicked sweep |}.

End statussync.

(** * Specification-side definitions *)

Module spec.
Import statussync.

(** A condition of type [Available] with the given status. *)
Definition availableWith (status : string) (condition : Condition) : Prop :=
  Condition.Type_ condition = "Available" ∧ Condition.Status condition = status.

Global Instance availableWith_dec status condition : Decision (availableWith status condition).
Proof. unfold availableWith; apply _. Defined.

(** The number of [Available] conditions with the given status among the
    conditions of all manifests. *)
Definition countAvailable (status : string) (manifests : list ManifestCondition) : Z :=
  Z.of_nat (length (filter (availableWith status) (manifests ≫= ManifestCondition.Conditions))).

(** The path resolves, on the content of the object, to these result
    sets: the expression parses and its evaluation succeeds. *)
Definition resolvesTo (J : JSONPathLib) (path : string) (obj : Unstructured)
    (results : list (list Value)) : Prop :=
  ∃ j, Parse J ("{" +:+ path +:+ "}") = inr j
       ∧ FindResults J j (Unstructured.UnstructuredContent obj) = inr results.

(** The runtime types other than [int64], [string] and [bool] (and other
    than a null). *)
Definition unsupported (value : Value) : Prop :=
  match value with
  | VFloat64 _ | VMap _ | VSlice _ => True
  | _ => False
  end.

(** What one path contributes to a rule: its value, when the extraction
    gives one, and its error, when it fails. *)
Definition pathValue (J : JSONPathLib) (obj : Unstructured) (path : JsonPath)
  : option statusfeedback.FeedbackValue :=
  match statusfeedback.getValueByJsonPath J (JsonPath.Name path) (JsonPath.Path path) obj with
  | (Some value, None) => Some value
  | _ => None
  end.

Definition pathError (J : JSONPathLib) (obj : Unstructured) (path : JsonPath) : option error :=
  (statusfeedback.getValueByJsonPath J (JsonPath.Name path) (JsonPath.Path path) obj).2.

(** The path declares a version and the resource has another one. *)
Definition versionMismatch (obj : Unstructured) (path : JsonPath) : Prop :=
  JsonPath.Version path ≠ ""
  ∧ GroupVersionKind.Version (Unstructured.GroupVersionKind obj) ≠ JsonPath.Version path.

Global Instance versionMismatch_dec obj path : Decision (versionMismatch obj path).
Proof. unfold versionMismatch; apply _. Defined.

(** The same for a path of a [JSONPaths] rule, where a version mismatch is
    an error of the path. *)
Definition versionedValue (J : JSONPathLib) (obj : Unstructured) (path : JsonPath)
  : option statusfeedback.FeedbackValue :=
  if decide (versionMismatch obj path) then None else pathValue J obj path.

Definition versionedError (J : JSONPathLib) (obj : Unstructured) (path : JsonPath)
  : option error :=
  if decide (versionMismatch obj path)
  then Some (ErrorString ("version set in the path " +:+ JsonPath.Name path
                            +:+ " is not matched for the related resource"))
  else pathError J obj path.

(** The errors the rules raise and the values they produce, in the order
    of the rules. *)
Definition ruleErrors {Rule Value : Type}
    (GetValuesByRule : Unstructured → Rule → list Value * option error)
    (obj : Unstructured) (rules : list Rule) : list error :=
  omap (λ rule, (GetValuesByRule obj rule).2) rules.

Definition ruleValues {Rule Value : Type}
    (GetValuesByRule : Unstructured → Rule → list Value * option error)
    (obj : Unstructured) (rules : list Rule) : list Value :=
  rules ≫= (λ rule, (GetValuesByRule obj rule).1).

(** The condition set carries the condition: the first entry of its type
    has its status, observed generation, reason and message. *)
Definition carries (conditions : list Condition) (condition : Condition) : Prop :=
  ∃ i existing,
    meta.FindStatusCondition conditions (Condition.Type_ condition) = Some (i, existing)
    ∧ Condition.Status existing = Condition.Status condition
    ∧ Condition.ObservedGeneration existing = Condition.ObservedGeneration condition
    ∧ Condition.Reason existing = Condition.Reason condition
    ∧ Condition.Message existing = Condition.Message condition.

(** What a pass of [syncWork] makes of the manifest condition at
    [index], read off the manifest alone: the availability condition is
    set, and, when the resource was fetched and a configuration is of its
    kind, the sync condition and the values. *)
Definition syncedEntry (c : StatusSyncController) (manifestConfigs : list ManifestConfig)
    (index : nat) (manifest : Manifest) (manifestCondition : ManifestCondition)
  : ManifestCondition :=
  let '(obj, availableStatusCondition, err) := buildAvailableStatusCondition c manifest in
  let available :=
    setCondition (now c (AvailableSite index)) availableStatusCondition manifestCondition in
  match err, obj with
  | None, Some obj =>
      match find (configures (Unstructured.GroupVersionKind obj)) manifestConfigs with
      | None => available
      | Some manifestConfig =>
          let '(values, statusSyncCondition) :=
            getSyncValues (statusReader c) obj (ManifestConfig.StatusSyncRules manifestConfig) in
          setValues values (setCondition (now c (SyncSite index)) statusSyncCondition available)
      end
  | _, _ => available
  end.

(** The manifest conditions after the loop, entry by entry: the entries
    that face a manifest are rewritten, the others are kept. *)
Fixpoint syncedEntries (c : StatusSyncController) (manifestConfigs : list ManifestConfig)
    (index : nat) (manifests : list Manifest) (manifestConditions : list ManifestCondition)
  : list ManifestCondition :=
  match manifests, manifestConditions with
  | manifest :: manifests', manifestCondition :: manifestConditions' =>
      syncedEntry c manifestConfigs index manifest manifestCondition
        :: syncedEntries c manifestConfigs (S index) manifests' manifestConditions'
  | _, _ => manifestConditions
  end.

(** Two controllers face the same resources and rules: they decode and
    fetch alike and their readers agree. *)
Definition sameBacking (c c' : StatusSyncController) : Prop :=
  (∀ manifest, decodeUnstructured c' manifest = decodeUnstructured c manifest)
  ∧ (∀ gvr namespace name,
       spokeDynamicClient_Get c' gvr namespace name = spokeDynamicClient_Get c gvr namespace name)
  ∧ (∀ obj rule, statusReader c' obj rule = statusReader c obj rule).

(** The candidate a pass of [syncWork] builds, read off the work: the
    entries rewritten one by one, and the aggregate set on the work. *)
Definition candidateOf (c : StatusSyncController) (originalWork : Work) : Work :=
  let manifestConditions :=
    syncedEntries c
      (WorkloadConfig.ManifestConfigs (WorkSpec.WorkloadConfig (Work.Spec originalWork)))
      0
      (WorkloadTemplate.Manifests (WorkSpec.Workload (Work.Spec originalWork)))
      (WorkStatus.ManifestConditions (Work.Status originalWork)) in
  Work.mk (Work.Name originalWork) (Work.Generation originalWork) (Work.Spec originalWork)
    (WorkStatus.mk
       (meta.SetStatusCondition (now c WorkSite)
          (WorkStatus.Conditions (Work.Status originalWork))
          (aggregateManifestConditions (Work.Generation originalWork) manifestConditions))
       manifestConditions).

(** The manifest conditions cover the manifests: the precondition of the
    index accesses of [syncWork]. *)
Definition covered (work : Work) : Prop :=
  length (WorkloadTemplate.Manifests (WorkSpec.Workload (Work.Spec work)))
  ≤ length (WorkStatus.ManifestConditions (Work.Status work)).

(** [n] passes in a row, each from the work the one before left on the
    hub, none of which found a change to write. *)
Fixpoint quietPasses (c : StatusSyncController) (n : nat) (work : Work) : Prop :=
  match n with
  | 0 => True
  | S n' =>
      ∃ o, syncWork c work = inr o ∧ written o = None ∧ quietPasses c n' (persisted work o)
  end.

(** The reading of the stop threshold that the configuration documents:
    once as many passes in a row as the threshold says have found nothing
    to write, a pass over the same identities and rules leaves the sync
    result of every manifest as it is. *)
Definition honoursStopThreshold : Prop :=
  ∀ (cfg : ResourceStatusSyncConfiguration) (c c' : StatusSyncController) (work : Work)
    (n index : nat) (entry : ManifestCondition) (o : Outcome),
    (0 < ResourceStatusSyncConfiguration.StopSyncThreshold cfg)%Z →
    Z.to_nat (ResourceStatusSyncConfiguration.StopSyncThreshold cfg) ≤ n →
    quietPasses c n work →
    (∀ manifest, decodeUnstructured c' manifest = decodeUnstructured c manifest) →
    Forall (λ manifestConfig,
              ManifestConfig.StatusSyncRules manifestConfig
              = ResourceStatusSyncConfiguration.Rules cfg)
      (WorkloadConfig.ManifestConfigs (WorkSpec.WorkloadConfig (Work.Spec work))) →
    WorkStatus.ManifestConditions (Work.Status work) !! index = Some entry →
    syncWork c' work = inr o →
    ∃ entry',
      WorkStatus.ManifestConditions (Work.Status (candidate o)) !! index = Some entry'
      ∧ ManifestCondition.StatusSync entry' = ManifestCondition.StatusSync entry.

(** Every condition a pass computes is stamped with the generation of
    the work: the aggregate on the work, and the availability and the sync
    outcome on every manifest. *)
Definition stampsGeneration : Prop :=
  ∀ (c : StatusSyncController) (work : Work) (o : Outcome),
    syncWork c work = inr o →
    (∀ i condition,
       meta.FindStatusCondition (WorkStatus.Conditions (Work.Status (candidate o)))
         resourceAvailableConditionType = Some (i, condition) →
       Condition.ObservedGeneration condition = Work.Generation work)
    ∧ (∀ index manifest entry conditionType i condition,
         WorkloadTemplate.Manifests (WorkSpec.Workload (Work.Spec work)) !! index
           = Some manifest →
         WorkStatus.ManifestConditions (Work.Status (candidate o)) !! index = Some entry →
         conditionType ∈ [resourceAvailableConditionType; statusSyncConditionType] →
         meta.FindStatusCondition (ManifestCondition.Conditions entry) conditionType
           = Some (i, condition) →
         Condition.ObservedGeneration condition = Work.Generation work).

(** The types of the conditions of a set are pairwise distinct. *)
Definition uniqueTypes (conditions : list Condition) : Prop :=
  NoDup (Condition.Type_ <$> conditions).

(** Every condition set of a status has pairwise distinct types. *)
Definition uniqueStatus (status : WorkStatus) : Prop :=
  uniqueTypes (WorkStatus.Conditions status)
  ∧ Forall (λ entry, uniqueTypes (ManifestCondition.Conditions entry))
      (WorkStatus.ManifestConditions status).

(** A feedback value holds the payload of its type and no other. *)
Definition wellFormed (value : statusfeedback.FeedbackValue) : Prop :=
  let fieldValue := statusfeedback.FeedbackValue.Value value in
  (statusfeedback.FieldValue.Type_ fieldValue = ValueType.Integer
   ∧ is_Some (statusfeedback.FieldValue.Integer fieldValue)
   ∧ statusfeedback.FieldValue.String fieldValue = None
   ∧ statusfeedback.FieldValue.Boolean fieldValue = None)
  ∨ (statusfeedback.FieldValue.Type_ fieldValue = ValueType.String
     ∧ statusfeedback.FieldValue.Integer fieldValue = None
     ∧ is_Some (statusfeedback.FieldValue.String fieldValue)
     ∧ statusfeedback.FieldValue.Boolean fieldValue = None)
  ∨ (statusfeedback.FieldValue.Type_ fieldValue = ValueType.Boolean
     ∧ statusfeedback.FieldValue.Integer fieldValue = None
     ∧ statusfeedback.FieldValue.String fieldValue = None
     ∧ is_Some (statusfeedback.FieldValue.Boolean fieldValue)).

(** The kinds the built-in table registers. *)
Definition registeredKinds : list GroupVersionKind :=
  [ GroupVersionKind.mk "apps" "v1" "Deployment";
    GroupVersionKind.mk "batch" "v1" "Job";
    GroupVersionKind.mk "" "v1" "Pod" ].

End spec.

Module fbspec.
Import statusfeedback.

(** The position of the manifest condition that a manifest writes to in
    a pass of [Reconcile]: that of the first condition which names its
    resource, when the manifest has rules and its resource is fetched. *)
Definition target (c : StatusFeedbackReconciler) (manifestConditions : list ManifestCondition)
    (manifest : Manifest) : option nat :=
  match Manifest.StatusFeedbackRules manifest with
  | None => None
  | Some _ =>
      match getResourceObject c manifest with
      | inl _ => None
      | inr resource => fst <$> list_find (identifies resource) manifestConditions
      end
  end.

Definition targets (c : StatusFeedbackReconciler) (manifestConditions : list ManifestCondition)
    (manifests : list Manifest) : list nat :=
  omap (target c manifestConditions) manifests.

(** A manifest with rules whose resource cannot be fetched. *)
Definition fetchFails (c : StatusFeedbackReconciler) (manifests : list Manifest) : Prop :=
  ∃ i manifest statusFeedbackRules err,
    manifests !! i = Some manifest
    ∧ Manifest.StatusFeedbackRules manifest = Some statusFeedbackRules
    ∧ getResourceObject c manifest = inl err.

(** Two reconcilers face the same resources and rules. *)
Definition sameResources (c c' : StatusFeedbackReconciler) : Prop :=
  (∀ manifest, decodeUnstructured c' manifest = decodeUnstructured c manifest)
  ∧ (∀ gvr namespace name,
       spokeDynamicClient_Get c' gvr namespace name = spokeDynamicClient_Get c gvr namespace name)
  ∧ statusReader c' = statusReader c
  ∧ jsonpath c' = jsonpath c.

(** A pass of [Reconcile] over a work that the pass before has already
    brought up to date writes nothing. *)
Definition reconcileIdempotent : Prop :=
  ∀ (c c' : StatusFeedbackReconciler) (work built : Work) (name namespace : string),
    sameResources c c' →
    rebuild c work = Some built →
    client_Get c' name namespace = inr built →
    written (Reconcile c' name namespace) = None.

(** A resource that cannot be fetched does not keep the pass from
    reporting the values of the other manifests. *)
Definition reconcileIsolatesFailures : Prop :=
  ∀ (c : StatusFeedbackReconciler) (work : Work) (j k : nat) (manifest : Manifest)
    (statusFeedbackRules : list StatusFeedbackRule) (resource : Unstructured),
    2 ≤ length (WorkloadTemplate.Manifests (WorkSpec.Workload (Work.Spec work))) →
    fetchFails c (WorkloadTemplate.Manifests (WorkSpec.Workload (Work.Spec work))) →
    WorkloadTemplate.Manifests (WorkSpec.Workload (Work.Spec work)) !! j = Some manifest →
    Manifest.StatusFeedbackRules manifest = Some statusFeedbackRules →
    getResourceObject c manifest = inr resource →
    target c (WorkStatus.ManifestConditions (Work.Status work)) manifest = Some k →
    ∃ built entry,
      rebuild c work = Some built
      ∧ WorkStatus.ManifestConditions (Work.Status built) !! k = Some entry
      ∧ StatusFeedbackResult.Values (ManifestCondition.StatusFeedbacks entry)
        = (getFeedbackValues c resource statusFeedbackRules).1.

End fbspec.

(** * A concrete cluster *)

(** Collaborators small enough to run: a JSONPath evaluator for dotted
    field paths, a spoke cluster with one Deployment and no Job, and works
    over them. The examples below evaluate the controllers on these. *)
Module demo.

Fixpoint field (name : string) (fields : list (string * Value)) : option Value :=
  match fields with
  | [] => None
  | (key, value) :: fields' => if bool_decide (key = name) then Some value else field name fields'
  end.

(** The evaluation of a dotted path; a missing key gives an empty result
    set, as the library does when missing keys are allowed. *)
Fixpoint walk (names : list string) (value : Value) : list (list Value) :=
  match names with
  | [] => [[value]]
  | name :: names' =>
      match value with
      | VMap fields =>
          match field name fields with
          | Some value' => walk names' value'
          | None => [[]]
          end
      | _ => [[]]
      end
  end.

(** The templates the evaluator knows; any other text does not parse. *)
Definition parse (text : string) : error + list string :=
  if bool_decide (text = "{.status.replicas}") then inr ["status"; "replicas"]
  else if bool_decide (text = "{.status.readyReplicas}") then inr ["status"; "readyReplicas"]
  else if bool_decide (text = "{.status.availableReplicas}")
       then inr ["status"; "availableReplicas"]
  else if bool_decide (text = "{.status.phase}") then inr ["status"; "phase"]
  else if bool_decide (text = "{.status.paused}") then inr ["status"; "paused"]
  else if bool_decide (text = "{.status.note}") then inr ["status"; "note"]
  else if bool_decide (text = "{.status}") then inr ["status"]
  else inl (ErrorString "unrecognized character in action").

Definition jsonpath : JSONPathLib :=
  {| JSONPath := list string;
     Parse := parse;
     FindResults := λ names content, inr (walk names content) |}.

Definition deploymentKind : GroupVersionKind := GroupVersionKind.mk "apps" "v1" "Deployment".

(** The Deployment [default/web] with the given number of replicas. *)
Definition deployment (replicas : Z) : Unstructured :=
  Unstructured.mk deploymentKind "default" "web"
    (VMap [("status",
            VMap [("replicas", VInt64 replicas);
                  ("readyReplicas", VInt64 2);
                  ("availableReplicas", VInt64 2);
                  ("phase", VString "Running");
                  ("paused", VBool false);
                  ("note", VNil)])]).

Definition deployments : GroupVersionResource := GroupVersionResource.mk "apps" "v1" "deployments".
Definition jobs : GroupVersionResource := GroupVersionResource.mk "batch" "v1" "jobs".

(** The spoke cluster: the Deployment is there, anything else is not. *)
Definition fetch (replicas : Z) (gvr : GroupVersionResource) (namespace name : string)
  : error + Unstructured :=
  if bool_decide (GroupVersionResource.Resource gvr = "deployments")
     && bool_decide (name = "web")
  then inr (deployment replicas)
  else inl (StatusError "NotFound" (GroupVersionResource.Resource gvr +:+ " " +:+ name
                                      +:+ " not found")).

(** The decoding of a manifest, by its raw text. *)
Definition decode (raw : string) : error + (GroupVersionResource * Unstructured) :=
  if bool_decide (raw = "deployment web")
  then inr (deployments, Unstructured.mk deploymentKind "default" "web" VNil)
  else if bool_decide (raw = "job migrate")
  then inr (jobs, Unstructured.mk (GroupVersionKind.mk "batch" "v1" "Job") "default" "migrate" VNil)
  else inl (ErrorString "no kind is registered for the manifest").

Definition replicasPath : JsonPath := JsonPath.mk "replicas" "" ".status.replicas".

(** A reader for the sync rules: a [JSONPaths] rule is read as the
    status-feedback reader reads it. *)
Definition syncValue (value : statusfeedback.FeedbackValue) : statussync.SyncValue :=
  statussync.SyncValue.mk (statusfeedback.FeedbackValue.Name value)
    (statussync.FieldValue.mk
       (statusfeedback.FieldValue.Type_ (statusfeedback.FeedbackValue.Value value))
       (statusfeedback.FieldValue.Integer (statusfeedback.FeedbackValue.Value value))
       (statusfeedback.FieldValue.String (statusfeedback.FeedbackValue.Value value))
       (statusfeedback.FieldValue.Boolean (statusfeedback.FeedbackValue.Value value))
       None).

Definition reader (obj : Unstructured) (rule : statussync.StatusSyncRule)
  : list statussync.SyncValue * option error :=
  let r := statusfeedback.GetValuesByRule jsonpath statusfeedback.NewStatusReader obj
             (statusfeedback.StatusFeedbackRule.mk (statussync.StatusSyncRule.Type_ rule)
                (statussync.StatusSyncRule.JsonPaths rule)) in
  (syncValue <$> r.1, r.2).

(** The polling controller over the cluster, with the Deployment at the
    given number of replicas and a clock that reads [time]. *)
Definition controller (replicas : Z) (time : Z) : statussync.StatusSyncController :=
  {| statussync.client_Status_Update := λ _, None;
     statussync.decodeUnstructured := λ manifest, decode (statussync.Manifest.Raw manifest);
     statussync.spokeDynamicClient_Get := fetch replicas;
     statussync.statusReader := reader;
     statussync.now := λ _, time |}.

Definition identifier (ordinal : Z) (kind resource name : string) : ResourceIdentifier :=
  ResourceIdentifier.mk ordinal "apps" "v1" kind resource "default" name.

Definition replicasRule : statussync.StatusSyncRule :=
  statussync.StatusSyncRule.mk statussync.StatusSyncRule.JSONPathsType [replicasPath] [].

(** The configuration of the Deployment's sync, with a stop threshold
    of one. *)
Definition syncConfiguration : statussync.ResourceStatusSyncConfiguration :=
  statussync.ResourceStatusSyncConfiguration.mk [replicasRule] 60 1.

Definition workSpec : statussync.WorkSpec.t :=
  statussync.WorkSpec.mk
    (statussync.WorkloadTemplate.mk
       [statussync.Manifest.mk "job migrate"; statussync.Manifest.mk "deployment web"])
    (statussync.WorkloadConfig.mk
       [statussync.ManifestConfig.mk (identifier 0 "Deployment" "deployments" "")
          (statussync.ResourceStatusSyncConfiguration.Rules syncConfiguration)]).

Definition entry (ordinal : Z) (kind resource name : string) : statussync.ManifestCondition :=
  statussync.ManifestCondition.mk (identifier ordinal kind resource name) []
    (statussync.StatusSyncResult.mk []).

(** A work of generation 3 with a Job that is not on the cluster and the
    Deployment, and one manifest condition for each. *)
Definition work : statussync.Work :=
  statussync.Work.mk "demo" 3 workSpec
    (statussync.WorkStatus.mk []
       [entry 0 "Job" "jobs" "migrate"; entry 1 "Deployment" "deployments" "web"]).

(** The same work with a single manifest condition. *)
Definition shortWork : statussync.Work :=
  statussync.Work.mk "demo" 3 workSpec
    (statussync.WorkStatus.mk [] [entry 0 "Job" "jobs" "migrate"]).

(** The work a pass leaves on the hub, and a number of passes in a row. *)
Definition pass (c : statussync.StatusSyncController) (w : statussync.Work) : statussync.Work :=
  match statussync.syncWork c w with
  | inr o => statussync.persisted w o
  | inl _ => w
  end.

(** The status-feedback side: the rules ride on the manifests. *)
Definition commonFields : statusfeedback.StatusFeedbackRule :=
  statusfeedback.StatusFeedbackRule.mk statusfeedback.StatusFeedbackRule.CommonFieldsType [].

Definition wholeStatus : statusfeedback.StatusFeedbackRule :=
  statusfeedback.StatusFeedbackRule.mk statusfeedback.StatusFeedbackRule.JSONPathsType
    [JsonPath.mk "status" "" ".status"].

Definition feedbackEntry : statusfeedback.ManifestCondition :=
  statusfeedback.ManifestCondition.mk
    (ResourceIdentifier.mk 0 "apps" "v1" "Deployment" "deployments" "default" "web") []
    (statusfeedback.StatusFeedbackResult.mk []).

Definition feedbackWorkOf (manifests : list statusfeedback.Manifest) : statusfeedback.Work :=
  statusfeedback.Work.mk "demo" "cluster1" 3
    (statusfeedback.WorkSpec.mk (statusfeedback.WorkloadTemplate.mk manifests))
    (statusfeedback.WorkStatus.mk [] [feedbackEntry]).

(** A Job that is not on the cluster, then the Deployment. *)
Definition feedbackWork : statusfeedback.Work :=
  feedbackWorkOf
    [statusfeedback.Manifest.mk "job migrate" (Some [commonFields]);
     statusfeedback.Manifest.mk "deployment web" (Some [commonFields])].

(** The Deployment twice: once with a rule that fails, once with the
    common fields. *)
Definition twiceWork : statusfeedback.Work :=
  feedbackWorkOf
    [statusfeedback.Manifest.mk "deployment web" (Some [wholeStatus]);
     statusfeedback.Manifest.mk "deployment web" (Some [commonFields])].

(** The reconciler over the cluster; the hub holds [stored], and the
    clock reads [time] plus the position of the manifest. *)
Definition reconciler (stored : statusfeedback.Work) (time : Z)
  : statusfeedback.StatusFeedbackReconciler :=
  {| statusfeedback.client_Get := λ _ _, inr stored;
     statusfeedback.client_Status_Update := λ _, None;
     statusfeedback.decodeUnstructured :=
       λ manifest, decode (statusfeedback.Manifest.Raw manifest);
     statusfeedback.spokeDynamicClient_Get := fetch 3;
     statusfeedback.statusSyncInterval := 30;
     statusfeedback.statusReader := statusfeedback.NewStatusReader;
     statusfeedback.jsonpath := jsonpath;
     statusfeedback.now := λ i, (time + Z.of_nat i)%Z |}.

(** A manifest condition whose [Available] condition has the status. *)
Definition available (status : string) : statussync.ManifestCondition :=
  statussync.ManifestCondition.mk (identifier 0 "Deployment" "deployments" "web")
    [Condition.mk "Available" status 0 0 "" ""]
    (statussync.StatusSyncResult.mk []).

(** A ConfigMap, which the built-in table does not register. *)
Definition configMap : Unstructured :=
  Unstructured.mk (GroupVersionKind.mk "" "v1" "ConfigMap") "default" "settings" (VMap []).

(** The sync value that reports the replicas of the Deployment. *)
Definition replicasValue (replicas : Z) : statussync.SyncValue :=
  statussync.SyncValue.mk "replicas"
    (statussync.FieldValue.mk ValueType.Integer (Some replicas) None None None).

(** The polling controller over a hub that rejects every status
    update. *)
Definition rejecting (replicas : Z) (time : Z) : statussync.StatusSyncController :=
  {| statussync.client_Status_Update :=
       λ _, Some (StatusError "Conflict" "the object has been modified");
     statussync.decodeUnstructured := λ manifest, decode (statussync.Manifest.Raw manifest);
     statussync.spokeDynamicClient_Get := fetch replicas;
     statussync.statusReader := reader;
     statussync.now := λ _, time |}.

(** The clock of a sweep: the [k]-th pass runs at [100 + k]. *)
Definition sweepClock (k : nat) (site : statussync.Site) : metav1.Time :=
  (100 + Z.of_nat k)%Z.

(** A rule of a type the status-feedback reader does not know. *)
Definition scripted : statusfeedback.StatusFeedbackRule :=
  statusfeedback.StatusFeedbackRule.mk "Scripts" [replicasPath].

(** The Deployment with its common fields asked for, in a work that has
    no manifest condition yet. *)
Definition unreportedWork : statusfeedback.Work :=
  statusfeedback.Work.mk "demo" "cluster1" 3
    (statusfeedback.WorkSpec.mk
       (statusfeedback.WorkloadTemplate.mk
          [statusfeedback.Manifest.mk "deployment web" (Some [commonFields])]))
    (statusfeedback.WorkStatus.mk [] []).

End demo.

(** * The condition aggregator *)

Section Aggregator.
Import statussync spec.

Lemma countCondition_counts (conditions : list Condition) (acc : Z * Z * Z) :
  fold_left countCondition conditions acc =
  (acc.1.1 + Z.of_nat (length (filter (availableWith metav1.ConditionTrue) conditions)),
   acc.1.2 + Z.of_nat (length (filter (availableWith metav1.ConditionFalse) conditions)),
   acc.2 + Z.of_nat (length (filter (availableWith metav1.ConditionUnknown) conditions)))%Z.
Proof.
  revert acc. induction conditions as [|c conditions IH]; intros [[a u] k]; simpl.
  - repeat apply (f_equal2 pair); lia.
  - rewrite IH, !filter_cons. unfold countCondition.
    destruct c as [ty st og lt rs ms]; simpl.
    repeat case_bool_decide; repeat case_decide; simpl;
      unfold availableWith, resourceAvailableConditionType,
        metav1.ConditionTrue, metav1.ConditionFalse, metav1.ConditionUnknown in * |-;
      simpl in * |-;
      try (exfalso; by intuition congruence);
      repeat apply (f_equal2 pair); lia.
Qed.

Lemma aggregate_counts (manifests : list ManifestCondition) (acc : Z * Z * Z) :
  fold_left (λ acc manifest, fold_left countCondition (ManifestCondition.Conditions manifest) acc)
    manifests acc =
  (acc.1.1 + countAvailable metav1.ConditionTrue manifests,
   acc.1.2 + countAvailable metav1.ConditionFalse manifests,
   acc.2 + countAvailable metav1.ConditionUnknown manifests)%Z.
Proof.
  unfold countAvailable.
  revert acc. induction manifests as [|m manifests IH]; intros [[a u] k].
  - simpl. repeat apply (f_equal2 pair); lia.
  - cbn [fold_left]. rewrite IH, countCondition_counts, !bind_cons, !filter_app, !length_app.
    cbn [fst snd]. repeat apply (f_equal2 pair); lia.
Qed.

Lemma countAvailable_nonneg status manifests : (0 ≤ countAvailable status manifests)%Z.
Proof. unfold countAvailable. lia. Qed.

Lemma aggregate_unfold (generation : Z) (manifests : list ManifestCondition) :
  aggregateManifestConditions generation manifests =
  let available := countAvailable metav1.ConditionTrue manifests in
  let unavailable := countAvailable metav1.ConditionFalse manifests in
  let unknown := countAvailable metav1.ConditionUnknown manifests in
  let total := pretty (Z.of_nat (length manifests)) in
  if bool_decide (0 < unavailable)%Z then
    Condition.mk "Available" "False" generation 0 "ResourcesNotAvailable"
      (pretty unavailable +:+ " of " +:+ total +:+ " resources are not available")
  else if bool_decide (0 < unknown)%Z then
    Condition.mk "Available" "Unknown" generation 0 "ResourcesStatusUnknown"
      (pretty unknown +:+ " of " +:+ total +:+ " resources have unknown status")
  else if bool_decide (available = 0)%Z then
    Condition.mk "Available" "Unknown" generation 0 "ResourcesStatusUnknown"
      "cannot get any available resource"
  else
    Condition.mk "Available" "True" generation 0 "ResourcesAvailable"
      "All resources are available".
Proof.
  unfold aggregateManifestConditions. rewrite aggregate_counts. cbn [fst snd].
  rewrite !Z.add_0_l. reflexivity.
Qed.

(** C1. For every generation and every list of manifest conditions the
    aggregate is an [Available] condition decided by the numbers of
    [Available] conditions that are [False], [Unknown] and [True], in this
    order: a positive [False] count gives [False], [ResourcesNotAvailable]
    and the message "<falseCount> of <total> resources are not available";
    else a positive [Unknown] count gives [Unknown],
    [ResourcesStatusUnknown] and "<unknownCount> of <total> resources have
    unknown status"; else a zero [True] count (the empty list included)
    gives [Unknown], [ResourcesStatusUnknown] and "cannot get any available
    resource"; else the result is [True] with [ResourcesAvailable]. *)
Theorem aggregate_precedence (generation : Z) (manifests : list ManifestCondition) :
  let falseCount := countAvailable metav1.ConditionFalse manifests in
  let unknownCount := countAvailable metav1.ConditionUnknown manifests in
  let trueCount := countAvailable metav1.ConditionTrue manifests in
  let total := Z.of_nat (length manifests) in
  let result := aggregateManifestConditions generation manifests in
  Condition.Type_ result = "Available"
  ∧ ((0 < falseCount)%Z →
       Condition.Status result = metav1.ConditionFalse
       ∧ Condition.Reason result = "ResourcesNotAvailable"
       ∧ Condition.Message result =
           pretty falseCount +:+ " of " +:+ pretty total +:+ " resources are not available")
  ∧ (falseCount = 0%Z → (0 < unknownCount)%Z →
       Condition.Status result = metav1.ConditionUnknown
       ∧ Condition.Reason result = "ResourcesStatusUnknown"
       ∧ Condition.Message result =
           pretty unknownCount +:+ " of " +:+ pretty total +:+ " resources have unknown status")
  ∧ (falseCount = 0%Z → unknownCount = 0%Z → trueCount = 0%Z →
       Condition.Status result = metav1.ConditionUnknown
       ∧ Condition.Reason result = "ResourcesStatusUnknown"
       ∧ Condition.Message result = "cannot get any available resource")
  ∧ (falseCount = 0%Z → unknownCount = 0%Z → (0 < trueCount)%Z →
       Condition.Status result = metav1.ConditionTrue
       ∧ Condition.Reason result = "ResourcesAvailable")
  ∧ (manifests = [] → falseCount = 0%Z ∧ unknownCount = 0%Z ∧ trueCount = 0%Z).
Proof.
  intros falseCount unknownCount trueCount total result.
  subst result. rewrite aggregate_unfold. cbv zeta.
  fold falseCount unknownCount trueCount total.
  repeat split.
  - repeat case_bool_decide; reflexivity.
  - rewrite bool_decide_true in * by done. reflexivity.
  - rewrite bool_decide_true by done. reflexivity.
  - rewrite bool_decide_true by done. reflexivity.
  - rewrite (bool_decide_false (0 < falseCount)%Z), bool_decide_true by lia. reflexivity.
  - rewrite (bool_decide_false (0 < falseCount)%Z), bool_decide_true by lia. reflexivity.
  - rewrite (bool_decide_false (0 < falseCount)%Z), bool_decide_true by lia. reflexivity.
  - rewrite (bool_decide_false (0 < falseCount)%Z), (bool_decide_false (0 < unknownCount)%Z),
      bool_decide_true by lia. reflexivity.
  - rewrite (bool_decide_false (0 < falseCount)%Z), (bool_decide_false (0 < unknownCount)%Z),
      bool_decide_true by lia. reflexivity.
  - rewrite (bool_decide_false (0 < falseCount)%Z), (bool_decide_false (0 < unknownCount)%Z),
      bool_decide_true by lia. reflexivity.
  - rewrite (bool_decide_false (0 < falseCount)%Z), (bool_decide_false (0 < unknownCount)%Z),
      (bool_decide_false (trueCount = 0)%Z) by lia. reflexivity.
  - rewrite (bool_decide_false (0 < falseCount)%Z), (bool_decide_false (0 < unknownCount)%Z),
      (bool_decide_false (trueCount = 0)%Z) by lia. reflexivity.
  - subst manifests. reflexivity.
  - subst manifests. reflexivity.
  - subst manifests. reflexivity.
Qed.

End Aggregator.

(** * The value extractor *)

Section Extractor.
Import statusfeedback spec.
Variable J : JSONPathLib.

(** C2. Extraction by the runtime type of the resolved value: an [int64],
    a [string] or a [bool] comes back as a [FeedbackValue] with the matching
    discriminant and the value itself as the payload; no result or a null
    gives no value and no error; a value of another type, or an expression
    that does not parse, gives an error and no value. *)
Theorem extract_by_runtime_type (name path : string) (obj : Unstructured) :
  (∀ value rest more, resolvesTo J path obj ((value :: rest) :: more) →
     (∀ i, value = VInt64 i →
        getValueByJsonPath J name path obj =
        (Some (FeedbackValue.mk name (FieldValue.mk ValueType.Integer (Some i) None None)),
         None))
     ∧ (∀ s, value = VString s →
        getValueByJsonPath J name path obj =
        (Some (FeedbackValue.mk name (FieldValue.mk ValueType.String None (Some s) None)),
         None))
     ∧ (∀ b, value = VBool b →
        getValueByJsonPath J name path obj =
        (Some (FeedbackValue.mk name (FieldValue.mk ValueType.Boolean None None (Some b))),
         None))
     ∧ (value = VNil → getValueByJsonPath J name path obj = (None, None))
     ∧ (unsupported value →
        ∃ err, getValueByJsonPath J name path obj = (None, Some err)))
  ∧ (resolvesTo J path obj [] → getValueByJsonPath J name path obj = (None, None))
  ∧ (∀ more, resolvesTo J path obj ([] :: more) →
       getValueByJsonPath J name path obj = (None, None))
  ∧ (∀ parseError, Parse J ("{" +:+ path +:+ "}") = inl parseError →
       ∃ err, getValueByJsonPath J name path obj = (None, Some err)).
Proof.
  unfold resolvesTo, getValueByJsonPath. repeat split.
  - intros i ->. destruct H as (j & -> & ->). reflexivity.
  - intros s ->. destruct H as (j & -> & ->). reflexivity.
  - intros b ->. destruct H as (j & -> & ->). reflexivity.
  - intros ->. destruct H as (j & -> & ->). reflexivity.
  - intros Hty. destruct H as (j & -> & ->).
    destruct value; simpl in Hty; try contradiction; eauto.
  - intros (j & -> & ->). reflexivity.
  - intros more (j & -> & ->). reflexivity.
  - intros parseError ->. eauto.
Qed.

(** The loop over the paths of a rule keeps every value and every error. *)
Lemma readPath_fold (obj : Unstructured) (paths : list JsonPath)
    (acc : list error * list FeedbackValue) :
  fold_left (readPath J obj) paths acc =
  (acc.1 ++ omap (pathError J obj) paths, acc.2 ++ omap (pathValue J obj) paths).
Proof.
  revert acc. induction paths as [|path paths IH]; intros [errs values]; simpl.
  - by rewrite !app_nil_r.
  - rewrite IH. unfold readPath, pathError, pathValue.
    destruct (getValueByJsonPath J (JsonPath.Name path) (JsonPath.Path path) obj)
      as [[value|] [err|]]; simpl; by rewrite <- ?app_assoc.
Qed.

Lemma readVersionedPath_fold (obj : Unstructured) (paths : list JsonPath)
    (acc : list error * list FeedbackValue) :
  fold_left (readVersionedPath J obj) paths acc =
  (acc.1 ++ omap (versionedError J obj) paths, acc.2 ++ omap (versionedValue J obj) paths).
Proof.
  revert acc. induction paths as [|path paths IH]; intros [errs values]; simpl.
  - by rewrite !app_nil_r.
  - rewrite IH. unfold readVersionedPath, versionedError, versionedValue, versionMismatch.
    assert (Hlen : String.length (JsonPath.Version path) ≠ 0 ↔ JsonPath.Version path ≠ "").
    { destruct (JsonPath.Version path); simpl; split; congruence. }
    case_decide as Hm.
    + rewrite !bool_decide_true by (tauto). simpl. by rewrite <- ?app_assoc.
    + replace (bool_decide (String.length (JsonPath.Version path) ≠ 0)
               && bool_decide (GroupVersionKind.Version (Unstructured.GroupVersionKind obj)
                                 ≠ JsonPath.Version path)) with false.
      2:{ symmetry. apply andb_false_iff. rewrite !bool_decide_eq_false.
          destruct (decide (JsonPath.Version path = "")) as [He|Hne].
          - left. intros Hl. apply Hlen in Hl. congruence.
          - right. intros Hv. apply Hm. by split. }
      unfold readPath, pathError, pathValue.
      destruct (getValueByJsonPath J (JsonPath.Name path) (JsonPath.Path path) obj)
        as [[value|] [err|]]; simpl; by rewrite <- ?app_assoc.
Qed.

End Extractor.

(** * The rule resolver and the reader *)

Section Reader.
Import statusfeedback spec.

Lemma GetValuesByRule_JSONPaths (J : JSONPathLib) (s : StatusReader) (obj : Unstructured)
    (rule : StatusFeedbackRule) :
  StatusFeedbackRule.Type_ rule = StatusFeedbackRule.JSONPathsType →
  GetValuesByRule J s obj rule =
  (omap (versionedValue J obj) (StatusFeedbackRule.JsonPaths rule),
   utilerrors.NewAggregate (omap (versionedError J obj) (StatusFeedbackRule.JsonPaths rule))).
Proof.
  intros Hty. unfold GetValuesByRule. rewrite Hty.
  rewrite bool_decide_false by done. rewrite bool_decide_true by done.
  by rewrite readVersionedPath_fold.
Qed.

Lemma GetValuesByRule_CommonFields (J : JSONPathLib) (s : StatusReader) (obj : Unstructured)
    (rule : StatusFeedbackRule) :
  StatusFeedbackRule.Type_ rule = StatusFeedbackRule.CommonFieldsType →
  GetPathsByKind s (Unstructured.GroupVersionKind obj) ≠ [] →
  GetValuesByRule J s obj rule =
  (omap (pathValue J obj) (GetPathsByKind s (Unstructured.GroupVersionKind obj)),
   utilerrors.NewAggregate
     (omap (pathError J obj) (GetPathsByKind s (Unstructured.GroupVersionKind obj)))).
Proof.
  intros Hty Hpaths. unfold GetValuesByRule. rewrite Hty.
  rewrite bool_decide_true by done.
  rewrite bool_decide_false by (by destruct (GetPathsByKind s _)).
  by rewrite readPath_fold.
Qed.

Lemma GetValuesByRule_unregistered (J : JSONPathLib) (s : StatusReader) (obj : Unstructured)
    (rule : StatusFeedbackRule) :
  StatusFeedbackRule.Type_ rule = StatusFeedbackRule.CommonFieldsType →
  GetPathsByKind s (Unstructured.GroupVersionKind obj) = [] →
  GetValuesByRule J s obj rule =
  ([], Some (ErrorString ("cannot find the CommonFields statuses for resrouce with gvk "
                            +:+ GroupVersionKind.String (Unstructured.GroupVersionKind obj)))).
Proof.
  intros Hty Hpaths. unfold GetValuesByRule. rewrite Hty, Hpaths.
  by rewrite !bool_decide_true by done.
Qed.

(** C5. A [CommonFields] rule for a type that the built-in table does not
    register gives an error and no value; for the Deployment type (group
    [apps], version [v1]) the resolver gives the three paths named
    [ReadyReplicas], [Replicas] and [AvailableReplicas], in this order, and
    the reader extracts along exactly these. *)
Theorem common_fields_resolution :
  (∀ (J : JSONPathLib) (obj : Unstructured) (rule : StatusFeedbackRule),
     StatusFeedbackRule.Type_ rule = StatusFeedbackRule.CommonFieldsType →
     rules.rules rules.DefaultCommonFieldsStatusRule !! Unstructured.GroupVersionKind obj = None →
     ∃ err, GetValuesByRule J NewStatusReader obj rule = ([], Some err))
  ∧ GetPathsByKind NewStatusReader (GroupVersionKind.mk "apps" "v1" "Deployment")
    = rules.deploymentRule
  ∧ JsonPath.Name <$> rules.deploymentRule = ["ReadyReplicas"; "Replicas"; "AvailableReplicas"]
  ∧ (∀ (J : JSONPathLib) (obj : Unstructured) (rule : StatusFeedbackRule),
       StatusFeedbackRule.Type_ rule = StatusFeedbackRule.CommonFieldsType →
       Unstructured.GroupVersionKind obj = GroupVersionKind.mk "apps" "v1" "Deployment" →
       GetValuesByRule J NewStatusReader obj rule =
       (omap (pathValue J obj) rules.deploymentRule,
        utilerrors.NewAggregate (omap (pathError J obj) rules.deploymentRule))).
Proof.
  assert (Hdeployment :
    GetPathsByKind NewStatusReader (GroupVersionKind.mk "apps" "v1" "Deployment")
    = rules.deploymentRule) by (by vm_compute).
  split; [|split; [exact Hdeployment|split; [reflexivity|]]].
  - intros J obj rule Hty Hnone. eexists. apply GetValuesByRule_unregistered; [done|].
    unfold GetPathsByKind, NewStatusReader, rules.GetPathsByKind; simpl.
    unfold rules.DefaultCommonFieldsStatusResolver_resolver. by rewrite Hnone.
  - intros J obj rule Hty Hgvk.
    rewrite GetValuesByRule_CommonFields; [|done|].
    + by rewrite Hgvk, Hdeployment.
    + by rewrite Hgvk, Hdeployment.
Qed.

End Reader.

(** * The sync outcome of a manifest *)

Section SyncOutcome.
Import statussync spec.
Context {Rule Value : Type}.
Variable GetValuesByRule : Unstructured → Rule → list Value * option error.

Lemma readRule_fold (obj : Unstructured) (rules : list Rule) (acc : list error * list Value) :
  fold_left (readRule GetValuesByRule obj) rules acc =
  (acc.1 ++ ruleErrors GetValuesByRule obj rules,
   acc.2 ++ ruleValues GetValuesByRule obj rules).
Proof.
  unfold ruleErrors, ruleValues.
  revert acc. induction rules as [|rule rules IH]; intros [errs values].
  - simpl. by rewrite !app_nil_r.
  - cbn [fold_left]. rewrite IH, bind_cons. unfold readRule. cbn [omap list_omap fst snd].
    destruct (GetValuesByRule obj rule) as [valuesByRule [err|]]; cbn [fst snd].
    + case_bool_decide as Hlen.
      * by rewrite <- !app_assoc.
      * destruct valuesByRule; [|simpl in Hlen; lia]. by rewrite <- !app_assoc.
    + case_bool_decide as Hlen.
      * by rewrite <- !app_assoc.
      * destruct valuesByRule; [|simpl in Hlen; lia]. done.
Qed.

Lemma getSyncValues_unfold (obj : Unstructured) (rules : list Rule) :
  getSyncValues GetValuesByRule obj rules =
  let values := ruleValues GetValuesByRule obj rules in
  match utilerrors.NewAggregate (ruleErrors GetValuesByRule obj rules) with
  | Some err =>
      (values, Condition.mk "StatusSynced" "False" 0 0 "StatusSyncFailed"
                 ("Sync status failed with error " +:+ Error err))
  | None =>
      if bool_decide (length values = 0)
      then (values, Condition.mk "StatusSynced" "True" 0 0 "NoStatusSynced" "")
      else (values, Condition.mk "StatusSynced" "True" 0 0 "StatusSynced" "")
  end.
Proof. unfold getSyncValues. rewrite readRule_fold. reflexivity. Qed.

Lemma getSyncValues_outcome (obj : Unstructured) (rules : list Rule) :
  let errs := ruleErrors GetValuesByRule obj rules in
  let produced := ruleValues GetValuesByRule obj rules in
  let result := getSyncValues GetValuesByRule obj rules in
  result.1 = produced
  ∧ Condition.Type_ result.2 = "StatusSynced"
  ∧ (errs ≠ [] →
       Condition.Status result.2 = metav1.ConditionFalse
       ∧ Condition.Reason result.2 = "StatusSyncFailed"
       ∧ Condition.Message result.2
         = "Sync status failed with error " +:+ Error (Aggregate errs))
  ∧ (errs = [] → produced = [] →
       Condition.Status result.2 = metav1.ConditionTrue
       ∧ Condition.Reason result.2 = "NoStatusSynced")
  ∧ (errs = [] → produced ≠ [] →
       Condition.Status result.2 = metav1.ConditionTrue
       ∧ Condition.Reason result.2 = "StatusSynced").
Proof.
  intros errs produced result. subst result. rewrite getSyncValues_unfold. cbv zeta.
  fold errs produced.
  destruct errs as [|e errs'] eqn:Herrs; cbn [utilerrors.NewAggregate].
  - destruct produced as [|v produced'] eqn:Hproduced; cbn [length bool_decide];
      [rewrite bool_decide_true by done|rewrite bool_decide_false by done];
      repeat split; intros; done.
  - repeat split; intros; done.
Qed.

End SyncOutcome.

(** C3. The sync outcome that [getSyncValues] returns beside the values:
    when a rule raised an error, [False] with [StatusSyncFailed] and the
    text of the aggregated errors in the message; with no error and no
    value, [True] with [NoStatusSynced]; with no error and a value, [True]
    with [StatusSynced]. In every case the values of all rules are
    returned, and inside a rule the reader returns the values of all the
    paths that did not fail, with the errors of the others aggregated. *)
Theorem sync_outcome_cases :
  (∀ (Rule Value : Type) (GetValuesByRule : Unstructured → Rule → list Value * option error)
     (obj : Unstructured) (rules : list Rule),
     let errs := spec.ruleErrors GetValuesByRule obj rules in
     let produced := spec.ruleValues GetValuesByRule obj rules in
     let result := statussync.getSyncValues GetValuesByRule obj rules in
     result.1 = produced
     ∧ Condition.Type_ result.2 = "StatusSynced"
     ∧ (errs ≠ [] →
          Condition.Status result.2 = metav1.ConditionFalse
          ∧ Condition.Reason result.2 = "StatusSyncFailed"
          ∧ Condition.Message result.2
            = "Sync status failed with error " +:+ Error (Aggregate errs))
     ∧ (errs = [] → produced = [] →
          Condition.Status result.2 = metav1.ConditionTrue
          ∧ Condition.Reason result.2 = "NoStatusSynced")
     ∧ (errs = [] → produced ≠ [] →
          Condition.Status result.2 = metav1.ConditionTrue
          ∧ Condition.Reason result.2 = "StatusSynced"))
  ∧ (∀ (J : JSONPathLib) (s : statusfeedback.StatusReader) (obj : Unstructured)
       (rule : statusfeedback.StatusFeedbackRule),
       statusfeedback.StatusFeedbackRule.Type_ rule
         = statusfeedback.StatusFeedbackRule.JSONPathsType →
       statusfeedback.GetValuesByRule J s obj rule =
       (omap (spec.versionedValue J obj) (statusfeedback.StatusFeedbackRule.JsonPaths rule),
        utilerrors.NewAggregate
          (omap (spec.versionedError J obj) (statusfeedback.StatusFeedbackRule.JsonPaths rule))))
  ∧ (∀ (J : JSONPathLib) (s : statusfeedback.StatusReader) (obj : Unstructured)
       (rule : statusfeedback.StatusFeedbackRule),
       statusfeedback.StatusFeedbackRule.Type_ rule
         = statusfeedback.StatusFeedbackRule.CommonFieldsType →
       statusfeedback.GetPathsByKind s (Unstructured.GroupVersionKind obj) ≠ [] →
       statusfeedback.GetValuesByRule J s obj rule =
       (omap (spec.pathValue J obj)
          (statusfeedback.GetPathsByKind s (Unstructured.GroupVersionKind obj)),
        utilerrors.NewAggregate
          (omap (spec.pathError J obj)
             (statusfeedback.GetPathsByKind s (Unstructured.GroupVersionKind obj))))).
Proof.
  split; [|split].
  - intros Rule Value GetValuesByRule obj rules. apply getSyncValues_outcome.
  - apply GetValuesByRule_JSONPaths.
  - apply GetValuesByRule_CommonFields.
Qed.

(** * The availability of a manifest *)

Section Availability.
Import statussync.
Variable c : StatusSyncController.

(** Without an error the object is there: the call on it cannot panic. *)
Lemma buildAvailableStatusCondition_object (manifest : Manifest) :
  (buildAvailableStatusCondition c manifest).2 = None →
  ∃ obj, (buildAvailableStatusCondition c manifest).1.1 = Some obj.
Proof.
  unfold buildAvailableStatusCondition.
  destruct (decodeUnstructured c manifest) as [err|[gvr unstructuredObj]]; [done|].
  destruct (spokeDynamicClient_Get c gvr _ _) as [err|obj]; [|by eauto].
  by destruct (errors.IsNotFound err).
Qed.

(** C4. The four outcomes of [buildAvailableStatusCondition]: a manifest
    that cannot be decoded gives [Unknown] with [IncompletedResourceMeta]
    and the error; a fetch that fails with not-found gives [False] with
    [ResourceNotAvailable] and the error; a fetch that fails otherwise gives
    [Unknown] with [FetchingResourceFailed], the error's text in the message,
    and the error; a fetch that succeeds gives [True] with
    [ResourceAvailable], the object and no error. The error is absent exactly
    when the fetch succeeded. *)
Theorem available_condition_outcomes (manifest : Manifest) :
  let result := buildAvailableStatusCondition c manifest in
  let obj := result.1.1 in
  let condition := result.1.2 in
  let err := result.2 in
  Condition.Type_ condition = "Available"
  ∧ (∀ decodeError, decodeUnstructured c manifest = inl decodeError →
       obj = None
       ∧ Condition.Status condition = metav1.ConditionUnknown
       ∧ Condition.Reason condition = "IncompletedResourceMeta"
       ∧ err = Some decodeError)
  ∧ (∀ gvr unstructuredObj fetchError,
       decodeUnstructured c manifest = inr (gvr, unstructuredObj) →
       spokeDynamicClient_Get c gvr (Unstructured.GetNamespace unstructuredObj)
         (Unstructured.GetName unstructuredObj) = inl fetchError →
       (errors.IsNotFound fetchError = true →
          obj = None
          ∧ Condition.Status condition = metav1.ConditionFalse
          ∧ Condition.Reason condition = "ResourceNotAvailable"
          ∧ err = Some fetchError)
       ∧ (errors.IsNotFound fetchError = false →
          obj = None
          ∧ Condition.Status condition = metav1.ConditionUnknown
          ∧ Condition.Reason condition = "FetchingResourceFailed"
          ∧ Condition.Message condition = "Failed to fetch resource: " +:+ Error fetchError
          ∧ err = Some fetchError))
  ∧ (∀ gvr unstructuredObj fetched,
       decodeUnstructured c manifest = inr (gvr, unstructuredObj) →
       spokeDynamicClient_Get c gvr (Unstructured.GetNamespace unstructuredObj)
         (Unstructured.GetName unstructuredObj) = inr fetched →
       obj = Some fetched
       ∧ Condition.Status condition = metav1.ConditionTrue
       ∧ Condition.Reason condition = "ResourceAvailable"
       ∧ err = None)
  ∧ (err = None ↔
     ∃ gvr unstructuredObj fetched,
       decodeUnstructured c manifest = inr (gvr, unstructuredObj)
       ∧ spokeDynamicClient_Get c gvr (Unstructured.GetNamespace unstructuredObj)
           (Unstructured.GetName unstructuredObj) = inr fetched).
Proof.
  cbv zeta. unfold buildAvailableStatusCondition.
  destruct (decodeUnstructured c manifest) as [decodeError|[gvr unstructuredObj]] eqn:Hdecode;
    [|destruct (spokeDynamicClient_Get c gvr (Unstructured.GetNamespace unstructuredObj)
                 (Unstructured.GetName unstructuredObj)) as [fetchError|fetched] eqn:Hget;
      [destruct (errors.IsNotFound fetchError) eqn:Hnf|]];
    cbn [fst snd];
    (split; [reflexivity|]);
    (split; [intros; simplify_eq; done|]);
    (split; [intros ? ? ? ? Hg; simplify_eq; rewrite Hget in Hg; simplify_eq;
             split; intros; first [done | congruence]|]);
    (split; [intros ? ? ? ? Hg; simplify_eq; rewrite Hget in Hg; simplify_eq; done|]);
    (split; [intros; simplify_eq; eauto|]);
    intros (? & ? & ? & ? & Hg); simplify_eq; rewrite Hget in Hg; simplify_eq; done.
Qed.

End Availability.

(** * Condition sets *)

Section Conditions.
Import spec.

Lemma list_find_insert_neutral {A} (P : A → Prop) `{!∀ x, Decision (P x)}
    (l : list A) (j : nat) (x z : A) :
  l !! j = Some z → ¬ P z → ¬ P x → list_find P (<[j:=x]> l) = list_find P l.
Proof.
  revert j. induction l as [|y l IH]; intros [|j] Hj Hz Hx; simplify_eq/=.
  - by rewrite !decide_False by done.
  - case_decide; [done|]. by rewrite (IH j).
Qed.

Lemma SetStatusCondition_type (now : Z) (newCondition : Condition) :
  Condition.Type_
    (if metav1.IsZero (Condition.LastTransitionTime newCondition)
     then Condition.mk (Condition.Type_ newCondition) (Condition.Status newCondition)
            (Condition.ObservedGeneration newCondition) now
            (Condition.Reason newCondition) (Condition.Message newCondition)
     else newCondition) = Condition.Type_ newCondition.
Proof. by destruct (metav1.IsZero _). Qed.

(** Setting a condition leaves the first condition of any other type
    where and what it was. *)
Lemma FindStatusCondition_set_other (now : Z) (conditions : list Condition)
    (newCondition : Condition) (conditionType : string) :
  conditionType ≠ Condition.Type_ newCondition →
  meta.FindStatusCondition (meta.SetStatusCondition now conditions newCondition) conditionType
  = meta.FindStatusCondition conditions conditionType.
Proof.
  intros Hne. unfold meta.SetStatusCondition.
  destruct (meta.FindStatusCondition conditions (Condition.Type_ newCondition))
    as [[i existing]|] eqn:Hfind; unfold meta.FindStatusCondition in *.
  - apply list_find_Some in Hfind as (Hi & Hty & _).
    apply (list_find_insert_neutral _ _ _ _ existing); simpl; congruence.
  - destruct (list_find (λ c, Condition.Type_ c = conditionType) conditions)
      as [[j found]|] eqn:Hother.
    + by apply list_find_app_l.
    + rewrite list_find_app_r by done. simpl.
      rewrite decide_False; [done|]. rewrite SetStatusCondition_type. congruence.
Qed.

(** After it is set, the set carries the condition. *)
Lemma SetStatusCondition_carries (now : Z) (conditions : list Condition)
    (newCondition : Condition) :
  carries (meta.SetStatusCondition now conditions newCondition) newCondition.
Proof.
  unfold carries, meta.SetStatusCondition.
  destruct (meta.FindStatusCondition conditions (Condition.Type_ newCondition))
    as [[i existing]|] eqn:Hfind; unfold meta.FindStatusCondition in *.
  - apply list_find_Some in Hfind as (Hi & Hty & Hleast).
    eexists i, _. split;
      [apply list_find_Some; split_and!;
       [apply list_lookup_insert_eq; by eapply lookup_lt_Some
       |done
       |intros j y Hj Hlt; rewrite list_lookup_insert_ne in Hj by lia; by eapply Hleast]
      |by simpl].
  - eexists _, _. split.
    + rewrite list_find_app_r by done. simpl.
      rewrite decide_True by apply SetStatusCondition_type. reflexivity.
    + by destruct (metav1.IsZero _).
Qed.

(** Setting a condition that the set carries changes nothing: the
    transition time is kept, whatever the clock says. *)
Lemma SetStatusCondition_id (now : Z) (conditions : list Condition)
    (newCondition : Condition) :
  carries conditions newCondition →
  meta.SetStatusCondition now conditions newCondition = conditions.
Proof.
  intros (i & existing & Hfind & Hstatus & Hgen & Hreason & Hmessage).
  unfold meta.SetStatusCondition. rewrite Hfind.
  apply list_find_Some in Hfind as (Hi & Hty & _).
  rewrite bool_decide_true by done. apply list_insert_id.
  rewrite Hi. f_equal. destruct existing; simpl in *; congruence.
Qed.

Lemma SetStatusCondition_other_carries (now : Z) (conditions : list Condition)
    (newCondition condition : Condition) :
  Condition.Type_ condition ≠ Condition.Type_ newCondition →
  carries conditions condition →
  carries (meta.SetStatusCondition now conditions newCondition) condition.
Proof.
  intros Hne (i & existing & Hfind & Hrest). exists i, existing.
  by rewrite FindStatusCondition_set_other.
Qed.

End Conditions.

(** * The loop of syncWork, entry by entry *)

Section SyncLoop.
Import statussync spec.
Variable c : StatusSyncController.
Variable manifestConfigs : list ManifestConfig.

Lemma atIndex_Some (index : nat) (f : ManifestCondition → ManifestCondition)
    (manifestConditions : list ManifestCondition) (manifestCondition : ManifestCondition) :
  manifestConditions !! index = Some manifestCondition →
  atIndex index f manifestConditions = inr (<[ index := f manifestCondition ]> manifestConditions).
Proof. unfold atIndex. by intros ->. Qed.

Lemma atIndex_None (index : nat) (f : ManifestCondition → ManifestCondition)
    (manifestConditions : list ManifestCondition) :
  manifestConditions !! index = None →
  atIndex index f manifestConditions
  = inl (IndexOutOfRange index (length manifestConditions)).
Proof. unfold atIndex. by intros ->. Qed.

(** One turn of the loop rewrites the entry at its index, and panics
    exactly when there is none. *)
Lemma syncManifest_entry (index : nat) (manifest : Manifest)
    (manifestConditions : list ManifestCondition) :
  syncManifest c manifestConfigs index manifest manifestConditions =
  match manifestConditions !! index with
  | None => inl (IndexOutOfRange index (length manifestConditions))
  | Some manifestCondition =>
      inr (<[ index := syncedEntry c manifestConfigs index manifest manifestCondition ]>
             manifestConditions)
  end.
Proof.
  unfold syncManifest, syncedEntry.
  pose proof (buildAvailableStatusCondition_object c manifest) as Hobj.
  destruct (buildAvailableStatusCondition c manifest) as [[obj condition] err].
  cbn [fst snd] in Hobj.
  destruct (manifestConditions !! index) as [manifestCondition|] eqn:Hlookup.
  2:{ by rewrite atIndex_None. }
  assert (Hlt : index < length manifestConditions) by (by eapply lookup_lt_Some).
  rewrite (atIndex_Some _ _ _ _ Hlookup). cbn [mbind panic_bind].
  destruct err as [e|]; [done|].
  destruct Hobj as [o ->]; [done|].
  destruct (find (configures (Unstructured.GroupVersionKind o)) manifestConfigs); [|done].
  destruct (getSyncValues (statusReader c) o _) as [values statusSyncCondition].
  erewrite atIndex_Some by (by apply list_lookup_insert_eq). cbn [mbind panic_bind].
  erewrite atIndex_Some by (apply list_lookup_insert_eq; by rewrite length_insert).
  by rewrite !list_insert_insert_eq.
Qed.

(** The loop, from the entries before [index] on: it rewrites the
    entries facing a manifest, and panics at the end of the list when the
    manifests outnumber them. *)
Lemma syncManifests_entries (manifests : list Manifest)
    (before rest : list ManifestCondition) :
  syncManifests c manifestConfigs (length before) manifests (before ++ rest) =
  if decide (length manifests ≤ length rest)
  then inr (before ++ syncedEntries c manifestConfigs (length before) manifests rest)
  else inl (IndexOutOfRange (length before + length rest) (length before + length rest)).
Proof.
  revert before rest. induction manifests as [|manifest manifests IH]; intros before rest.
  - rewrite decide_True by (simpl; lia). by destruct rest.
  - cbn [syncManifests]. rewrite syncManifest_entry.
    destruct rest as [|manifestCondition rest].
    + rewrite app_nil_r, lookup_ge_None_2 by lia. cbn [mbind panic_bind].
      rewrite decide_False by (simpl; lia). simpl. by rewrite Nat.add_0_r.
    + rewrite list_lookup_middle by done. cbn [mbind panic_bind].
      replace (length before) with (length before + 0) at 2 by lia.
      rewrite insert_app_r. cbn [insert list_insert].
      rewrite (cons_middle _ before rest), app_assoc.
      replace (S (length before)) with (length (before ++
        [syncedEntry c manifestConfigs (length before) manifest manifestCondition]))
        by (rewrite length_app; simpl; lia).
      rewrite IH. rewrite length_app. cbn [length syncedEntries].
      destruct (decide (length manifests ≤ length rest)).
      * rewrite decide_True by lia. rewrite <- app_assoc.
        do 3 f_equal. f_equal. lia.
      * rewrite decide_False by lia. do 2 f_equal; lia.
Qed.

Lemma syncedEntries_length (index : nat) (manifests : list Manifest)
    (manifestConditions : list ManifestCondition) :
  length (syncedEntries c manifestConfigs index manifests manifestConditions)
  = length manifestConditions.
Proof.
  revert index manifestConditions.
  induction manifests as [|m manifests IH]; intros index [|mc rest]; simpl; auto.
Qed.

Lemma syncedEntries_lookup (index j : nat) (manifests : list Manifest)
    (manifestConditions : list ManifestCondition) :
  syncedEntries c manifestConfigs index manifests manifestConditions !! j =
  match manifests !! j, manifestConditions !! j with
  | Some manifest, Some manifestCondition =>
      Some (syncedEntry c manifestConfigs (index + j) manifest manifestCondition)
  | _, other => other
  end.
Proof.
  revert index j manifestConditions.
  induction manifests as [|m manifests IH]; intros index j [|mc rest]; simpl; try done.
  - rewrite lookup_nil. by destruct (_ !! j).
  - destruct j as [|j]; simpl.
    + by rewrite Nat.add_0_r.
    + rewrite IH. replace (S index + j) with (index + S j) by lia. done.
Qed.

End SyncLoop.

(** * One pass of syncWork *)

Section SyncPass.
Import statussync spec.

(** A pass panics exactly when the manifests outnumber the manifest
    conditions, at the first index past their end; otherwise it builds the
    candidate entry by entry. *)
Lemma syncWork_candidate (c : StatusSyncController) (originalWork : Work) :
  syncWork c originalWork =
  if decide (covered originalWork) then
    let work := candidateOf c originalWork in
    if statusEqual (Work.Status originalWork) (Work.Status work)
    then inr {| candidate := work; returned := None; written := None |}
    else inr {| candidate := work; returned := client_Status_Update c work;
                written := Some work |}
  else
    inl (IndexOutOfRange
           (length (WorkStatus.ManifestConditions (Work.Status originalWork)))
           (length (WorkStatus.ManifestConditions (Work.Status originalWork)))).
Proof.
  unfold syncWork, candidateOf, covered.
  pose proof (syncManifests_entries c
    (WorkloadConfig.ManifestConfigs (WorkSpec.WorkloadConfig (Work.Spec originalWork)))
    (WorkloadTemplate.Manifests (WorkSpec.Workload (Work.Spec originalWork)))
    [] (WorkStatus.ManifestConditions (Work.Status originalWork))) as Hloop.
  cbn [length app Nat.add] in Hloop. rewrite Hloop.
  by case_decide.
Qed.

Lemma buildAvailableStatusCondition_type (c : StatusSyncController) (manifest : Manifest) :
  Condition.Type_ (buildAvailableStatusCondition c manifest).1.2 = "Available".
Proof.
  unfold buildAvailableStatusCondition.
  destruct (decodeUnstructured c manifest) as [err|[gvr unstructuredObj]]; [done|].
  destruct (spokeDynamicClient_Get c gvr _ _) as [err|obj]; [|done].
  by destruct (errors.IsNotFound err).
Qed.

Lemma getSyncValues_type {Rule Value : Type}
    (GetValuesByRule : Unstructured → Rule → list Value * option error)
    (obj : Unstructured) (rules : list Rule) :
  Condition.Type_ (getSyncValues GetValuesByRule obj rules).2 = "StatusSynced".
Proof. apply getSyncValues_outcome. Qed.

Lemma buildAvailableStatusCondition_backing (c c' : StatusSyncController) (manifest : Manifest) :
  sameBacking c c' →
  buildAvailableStatusCondition c' manifest = buildAvailableStatusCondition c manifest.
Proof.
  intros (Hdecode & Hget & _). unfold buildAvailableStatusCondition.
  rewrite Hdecode. destruct (decodeUnstructured c manifest) as [err|[gvr unstructuredObj]]; [done|].
  by rewrite Hget.
Qed.

Lemma getSyncValues_backing (c c' : StatusSyncController) (obj : Unstructured)
    (rules : list StatusSyncRule) :
  sameBacking c c' →
  getSyncValues (statusReader c') obj rules = getSyncValues (statusReader c) obj rules.
Proof.
  intros (_ & _ & Hreader). rewrite !getSyncValues_unfold.
  assert (Herrs : ruleErrors (statusReader c') obj rules = ruleErrors (statusReader c) obj rules).
  { unfold ruleErrors. induction rules as [|rule rules IH]; [done|].
    cbn [omap list_omap]. by rewrite Hreader, IH. }
  assert (Hvalues : ruleValues (statusReader c') obj rules
                    = ruleValues (statusReader c) obj rules).
  { clear Herrs. unfold ruleValues. induction rules as [|rule rules IH]; [done|].
    by rewrite !bind_cons, Hreader, IH. }
  by rewrite Herrs, Hvalues.
Qed.

(** An entry that a pass has rewritten is left as it is by another pass
    over the same resources and rules, whatever its clock reads. *)
Lemma syncedEntry_stable (c c' : StatusSyncController) (manifestConfigs : list ManifestConfig)
    (index index' : nat) (manifest : Manifest) (manifestCondition : ManifestCondition) :
  sameBacking c c' →
  syncedEntry c' manifestConfigs index' manifest
    (syncedEntry c manifestConfigs index manifest manifestCondition)
  = syncedEntry c manifestConfigs index manifest manifestCondition.
Proof.
  intros Hsame. unfold syncedEntry.
  rewrite (buildAvailableStatusCondition_backing c c') by done.
  pose proof (buildAvailableStatusCondition_type c manifest) as Havailable.
  destruct (buildAvailableStatusCondition c manifest) as [[obj condition] err].
  cbn [fst snd] in Havailable.
  assert (Hkeep : ∀ now' now'' entry,
    setCondition now' condition (setCondition now'' condition entry)
    = setCondition now'' condition entry).
  { intros now' now'' [identifier conditions sync]. unfold setCondition; cbn.
    f_equal. apply SetStatusCondition_id, SetStatusCondition_carries. }
  destruct err as [e|]; [apply Hkeep|].
  destruct obj as [obj|]; [|apply Hkeep].
  destruct (find (configures (Unstructured.GroupVersionKind obj)) manifestConfigs)
    as [manifestConfig|]; [|apply Hkeep].
  rewrite (getSyncValues_backing c c') by done.
  pose proof (getSyncValues_type (statusReader c) obj
                (ManifestConfig.StatusSyncRules manifestConfig)) as Hsynced.
  destruct (getSyncValues (statusReader c) obj _) as [values statusSyncCondition].
  cbn [fst snd] in Hsynced.
  destruct manifestCondition as [identifier conditions sync].
  unfold setValues, setCondition; cbn. f_equal.
  rewrite (SetStatusCondition_id _ _ condition).
  - apply SetStatusCondition_id, SetStatusCondition_carries.
  - apply SetStatusCondition_other_carries; [congruence|].
    apply SetStatusCondition_carries.
Qed.

Lemma syncedEntries_stable (c c' : StatusSyncController) (manifestConfigs : list ManifestConfig)
    (index index' : nat) (manifests : list Manifest)
    (manifestConditions : list ManifestCondition) :
  sameBacking c c' →
  syncedEntries c' manifestConfigs index' manifests
    (syncedEntries c manifestConfigs index manifests manifestConditions)
  = syncedEntries c manifestConfigs index manifests manifestConditions.
Proof.
  intros Hsame. revert index index' manifestConditions.
  induction manifests as [|manifest manifests IH]; intros index index' [|entry rest];
    cbn [syncedEntries]; try done.
  by rewrite syncedEntry_stable, IH.
Qed.

(** The candidate of a pass is a fixed point of the next pass. *)
Lemma candidateOf_stable (c c' : StatusSyncController) (work : Work) :
  sameBacking c c' → candidateOf c' (candidateOf c work) = candidateOf c work.
Proof.
  intros Hsame. unfold candidateOf. cbn [Work.Spec Work.Status Work.Generation Work.Name
    WorkStatus.Conditions WorkStatus.ManifestConditions].
  rewrite syncedEntries_stable by done.
  by rewrite SetStatusCondition_id by apply SetStatusCondition_carries.
Qed.

Lemma candidateOf_covered (c : StatusSyncController) (work : Work) :
  covered work → covered (candidateOf c work).
Proof.
  unfold covered, candidateOf. cbn. by rewrite syncedEntries_length.
Qed.

Lemma statusEqual_refl (status : WorkStatus) : statusEqual status status = true.
Proof. unfold statusEqual. by rewrite !bool_decide_true. Qed.

Lemma statusEqual_candidate (c : StatusSyncController) (work : Work) :
  statusEqual (Work.Status work) (Work.Status (candidateOf c work)) = true →
  candidateOf c work = work.
Proof.
  unfold statusEqual. intros [Hc Hm]%andb_true_iff.
  apply bool_decide_eq_true in Hc, Hm.
  destruct work as [name generation spec [conditions entries]].
  unfold candidateOf in *. cbn in *. by rewrite <- Hc, <- Hm.
Qed.

(** The work on the hub after a pass whose update, if any, was accepted
    is the candidate of the pass. *)
Lemma persisted_candidate (c : StatusSyncController) (work : Work) (o : Outcome) :
  syncWork c work = inr o → returned o = None →
  persisted work o = candidateOf c work ∧ candidate o = candidateOf c work.
Proof.
  rewrite syncWork_candidate. case_decide; [|done]. cbv zeta.
  destruct (statusEqual _ _) eqn:Hequal; intros [= <-] Hreturned; unfold persisted; cbn.
  - by rewrite statusEqual_candidate.
  - cbn in Hreturned. by rewrite Hreturned.
Qed.

End SyncPass.

(** * One pass of Reconcile *)

Section FeedbackPass.
Import statusfeedback fbspec spec.

(** The first manifest with rules whose resource cannot be fetched ends
    the loop: no candidate is built. *)
Lemma feedbackManifests_fetch_fails (c : StatusFeedbackReconciler) (manifests : list Manifest)
    (i : nat) (manifestConditions : list ManifestCondition) :
  fetchFails c manifests → feedbackManifests c i manifests manifestConditions = None.
Proof.
  intros (j & manifest & statusFeedbackRules & err & Hj & Hrules & Hfetch).
  revert i j manifestConditions Hj.
  induction manifests as [|m manifests IH]; intros i j manifestConditions Hj; [done|].
  cbn [feedbackManifests]. destruct j as [|j]; simplify_eq/=.
  - by rewrite Hrules, Hfetch.
  - destruct (Manifest.StatusFeedbackRules m) as [rules'|]; [|by eapply IH].
    destruct (getResourceObject c m) as [|resource]; [done|].
    destruct (getFeedbackValues c resource rules'). by eapply IH.
Qed.

Lemma recordFeedback_identifiers (now : Z) (resource : Unstructured)
    (values : list FeedbackValue) (condition : Condition)
    (manifestConditions : list ManifestCondition) :
  ManifestCondition.Identifier <$> recordFeedback now resource values condition manifestConditions
  = ManifestCondition.Identifier <$> manifestConditions.
Proof.
  unfold recordFeedback.
  destruct (list_find (identifies resource) manifestConditions) as [[k entry]|] eqn:Hfind; [|done].
  apply list_find_Some in Hfind as (Hk & _).
  rewrite list_fmap_insert. cbn. apply list_insert_id. by rewrite list_lookup_fmap, Hk.
Qed.

(** Which condition names a resource depends on the identifiers alone. *)
Lemma list_find_identifiers (resource : Unstructured) (l l' : list ManifestCondition) :
  ManifestCondition.Identifier <$> l = ManifestCondition.Identifier <$> l' →
  fst <$> list_find (identifies resource) l = fst <$> list_find (identifies resource) l'.
Proof.
  revert l'. induction l as [|x l IH]; intros [|y l'] Hids; simplify_eq/=; [done|].
  assert (identifies resource x ↔ identifies resource y) as Hiff
    by (unfold identifies; by rewrite H).
  destruct (decide (identifies resource x)), (decide (identifies resource y)); try tauto.
  specialize (IH l' H0).
  destruct (list_find _ l) as [[]|], (list_find _ l') as [[]|]; simplify_eq/=; done.
Qed.

Lemma target_identifiers (c : StatusFeedbackReconciler) (l l' : list ManifestCondition)
    (manifest : Manifest) :
  ManifestCondition.Identifier <$> l = ManifestCondition.Identifier <$> l' →
  target c l manifest = target c l' manifest.
Proof.
  intros Hids. unfold target. destruct (Manifest.StatusFeedbackRules manifest); [|done].
  destruct (getResourceObject c manifest); [done|]. by apply list_find_identifiers.
Qed.

Lemma targets_identifiers (c : StatusFeedbackReconciler) (l l' : list ManifestCondition)
    (manifests : list Manifest) :
  ManifestCondition.Identifier <$> l = ManifestCondition.Identifier <$> l' →
  targets c l manifests = targets c l' manifests.
Proof.
  intros Hids. unfold targets. induction manifests as [|m manifests IH]; [done|].
  cbn [omap list_omap]. by rewrite (target_identifiers c l l' m Hids), IH.
Qed.

Lemma feedbackManifests_identifiers (c : StatusFeedbackReconciler) (manifests : list Manifest)
    (i : nat) (start final : list ManifestCondition) :
  feedbackManifests c i manifests start = Some final →
  ManifestCondition.Identifier <$> final = ManifestCondition.Identifier <$> start.
Proof.
  revert i start. induction manifests as [|m manifests IH]; intros i start Hrun;
    cbn [feedbackManifests] in Hrun; [by simplify_eq|].
  destruct (Manifest.StatusFeedbackRules m) as [rules'|]; [|by eapply IH].
  destruct (getResourceObject c m) as [|resource]; [done|].
  destruct (getFeedbackValues c resource rules') as [values condition].
  apply IH in Hrun. by rewrite Hrun, recordFeedback_identifiers.
Qed.

(** The loop leaves alone every condition that no manifest writes to. *)
Lemma feedbackManifests_untouched (c : StatusFeedbackReconciler) (manifests : list Manifest)
    (i k : nat) (start final : list ManifestCondition) :
  feedbackManifests c i manifests start = Some final →
  k ∉ targets c start manifests →
  final !! k = start !! k.
Proof.
  revert i start. induction manifests as [|m manifests IH]; intros i start Hrun Hk;
    cbn [feedbackManifests] in Hrun; [by simplify_eq|].
  unfold targets in Hk. cbn [omap list_omap] in Hk. unfold target at 1 in Hk.
  fold (targets c start manifests) in Hk.
  destruct (Manifest.StatusFeedbackRules m) as [rules'|]; [|by eapply IH].
  destruct (getResourceObject c m) as [|resource]; [done|].
  destruct (getFeedbackValues c resource rules') as [values condition].
  pose proof (recordFeedback_identifiers (now c i) resource values condition start) as Hids.
  erewrite IH; [|exact Hrun|].
  - unfold recordFeedback.
    destruct (list_find (identifies resource) start) as [[j entry]|]; [|done].
    cbn in Hk. apply list_lookup_insert_ne. set_solver.
  - rewrite (targets_identifiers c _ start) by done.
    destruct (list_find (identifies resource) start) as [[j entry]|]; cbn in Hk; set_solver.
Qed.

Lemma getResourceObject_backing (c c' : StatusFeedbackReconciler) (manifest : Manifest) :
  sameResources c c' → getResourceObject c' manifest = getResourceObject c manifest.
Proof.
  intros (Hdecode & Hget & _). unfold getResourceObject. rewrite Hdecode.
  by destruct (decodeUnstructured c manifest) as [|[]].
Qed.

Lemma getFeedbackValues_backing (c c' : StatusFeedbackReconciler) (obj : Unstructured)
    (statusFeedbackRules : list StatusFeedbackRule) :
  sameResources c c' →
  getFeedbackValues c' obj statusFeedbackRules = getFeedbackValues c obj statusFeedbackRules.
Proof. intros (_ & _ & Hreader & Hpath). unfold getFeedbackValues. by rewrite Hreader, Hpath. Qed.

(** When no two manifests write to the same condition, the state a pass
    ends in is a fixed point of the next pass: every condition it would
    write already carries what it would write. *)
Lemma feedbackManifests_fixed (c c' : StatusFeedbackReconciler) (manifests : list Manifest)
    (i i' : nat) (start final held : list ManifestCondition) :
  sameResources c c' →
  feedbackManifests c i manifests start = Some final →
  NoDup (targets c start manifests) →
  ManifestCondition.Identifier <$> held = ManifestCondition.Identifier <$> start →
  (∀ k, k ∈ targets c start manifests → held !! k = final !! k) →
  feedbackManifests c' i' manifests held = Some held.
Proof.
  intros Hsame. revert i i' start.
  induction manifests as [|m manifests IH]; intros i i' start Hrun Hdup Hids Hheld; [done|].
  cbn [feedbackManifests] in *. unfold targets in Hdup, Hheld.
  cbn [omap list_omap] in Hdup, Hheld. unfold target at 1 in Hdup. unfold target at 1 in Hheld.
  fold (targets c start manifests) in Hdup, Hheld.
  rewrite (getResourceObject_backing c c') by done.
  destruct (Manifest.StatusFeedbackRules m) as [statusFeedbackRules|]; [|by eapply IH].
  destruct (getResourceObject c m) as [|resource]; [done|].
  rewrite (getFeedbackValues_backing c c') by done.
  destruct (getFeedbackValues c resource statusFeedbackRules) as [values condition].
  pose proof (recordFeedback_identifiers (now c i) resource values condition start) as Hstep.
  pose proof (list_find_identifiers resource held start Hids) as Hsame_index.
  assert (Hfixed : recordFeedback (now c' i') resource values condition held = held).
  { unfold recordFeedback at 1.
    destruct (list_find (identifies resource) held) as [[k entry]|] eqn:Hfind; [|done].
    destruct (list_find (identifies resource) start) as [[k0 entry0]|] eqn:Hfind0;
      simplify_eq/=.
    apply NoDup_cons in Hdup as [Hfresh _].
    rewrite <- (targets_identifiers c _ start) in Hfresh by exact Hstep.
    pose proof (feedbackManifests_untouched _ _ _ _ _ _ Hrun Hfresh) as Hkept.
    apply list_find_Some in Hfind as (Hk & _).
    assert (Hentry : final !! k0 = Some entry) by (rewrite <- Hheld; [done|set_solver]).
    rewrite Hkept in Hentry. unfold recordFeedback in Hentry. rewrite Hfind0 in Hentry.
    apply list_find_Some in Hfind0 as (Hk0 & _).
    rewrite list_lookup_insert_eq in Hentry by (by eapply lookup_lt_Some).
    simplify_eq/=. apply list_insert_id. rewrite Hk. do 2 f_equal.
    symmetry. apply SetStatusCondition_id, SetStatusCondition_carries. }
  rewrite Hfixed. eapply IH; [exact Hrun|..].
  - rewrite (targets_identifiers c _ start) by done.
    destruct (list_find (identifies resource) start) as [[]|]; cbn in Hdup; [|done].
    by apply NoDup_cons in Hdup as [_ ?].
  - by rewrite Hstep.
  - intros k Hk. apply Hheld.
    rewrite (targets_identifiers c _ start) in Hk by done.
    destruct (list_find (identifies resource) start) as [[]|]; cbn; set_solver.
Qed.

End FeedbackPass.

(** * What a pass leaves on each entry *)

Section Entries.
Import statussync spec.
Variable c : StatusSyncController.
Variable manifestConfigs : list ManifestConfig.

(** Every rewritten entry carries the availability of its manifest. *)
Lemma syncedEntry_available (index : nat) (manifest : Manifest) (entry : ManifestCondition) :
  carries (ManifestCondition.Conditions (syncedEntry c manifestConfigs index manifest entry))
    (buildAvailableStatusCondition c manifest).1.2.
Proof.
  unfold syncedEntry.
  pose proof (buildAvailableStatusCondition_type c manifest) as Havailable.
  destruct (buildAvailableStatusCondition c manifest) as [[obj condition] err].
  cbn [fst snd] in *.
  assert (Hset : carries (ManifestCondition.Conditions
                   (setCondition (now c (AvailableSite index)) condition entry)) condition)
    by apply SetStatusCondition_carries.
  destruct err as [e|]; [done|]. destruct obj as [obj|]; [|done].
  destruct (find _ manifestConfigs) as [manifestConfig|]; [|done].
  pose proof (getSyncValues_type (statusReader c) obj
                (ManifestConfig.StatusSyncRules manifestConfig)) as Hsynced.
  destruct (getSyncValues (statusReader c) obj _) as [values statusSyncCondition].
  cbn [fst snd] in Hsynced. cbn.
  apply SetStatusCondition_other_carries; [congruence|done].
Qed.

(** A fetched resource with a configuration of its kind has its rules
    extracted: the entry holds exactly the values and carries the outcome. *)
Lemma syncedEntry_synced (index : nat) (manifest : Manifest) (entry : ManifestCondition)
    (obj : Unstructured) (manifestConfig : ManifestConfig) :
  (buildAvailableStatusCondition c manifest).1.1 = Some obj →
  (buildAvailableStatusCondition c manifest).2 = None →
  find (configures (Unstructured.GroupVersionKind obj)) manifestConfigs = Some manifestConfig →
  let extracted :=
    getSyncValues (statusReader c) obj (ManifestConfig.StatusSyncRules manifestConfig) in
  ManifestCondition.StatusSync (syncedEntry c manifestConfigs index manifest entry)
  = StatusSyncResult.mk extracted.1
  ∧ carries (ManifestCondition.Conditions (syncedEntry c manifestConfigs index manifest entry))
      extracted.2.
Proof.
  unfold syncedEntry.
  destruct (buildAvailableStatusCondition c manifest) as [[obj' condition] err].
  cbn [fst snd]. intros -> -> ->.
  destruct (getSyncValues (statusReader c) obj _) as [values statusSyncCondition].
  cbn. split; [done|]. apply SetStatusCondition_carries.
Qed.

(** A manifest whose resource is not fetched keeps its sync result. *)
Lemma syncedEntry_failed (index : nat) (manifest : Manifest) (entry : ManifestCondition)
    (err : error) :
  (buildAvailableStatusCondition c manifest).2 = Some err →
  ManifestCondition.StatusSync (syncedEntry c manifestConfigs index manifest entry)
  = ManifestCondition.StatusSync entry
  ∧ ∀ conditionType, conditionType ≠ resourceAvailableConditionType →
      meta.FindStatusCondition
        (ManifestCondition.Conditions (syncedEntry c manifestConfigs index manifest entry))
        conditionType
      = meta.FindStatusCondition (ManifestCondition.Conditions entry) conditionType.
Proof.
  unfold syncedEntry.
  pose proof (buildAvailableStatusCondition_type c manifest) as Havailable.
  destruct (buildAvailableStatusCondition c manifest) as [[obj condition] e].
  cbn [fst snd] in *. intros ->. cbn. split; [done|].
  intros conditionType Hne. apply FindStatusCondition_set_other.
  unfold resourceAvailableConditionType in Hne. congruence.
Qed.

End Entries.

Section PassFacts.
Import statussync spec.

Lemma syncWork_covered (c : StatusSyncController) (work : Work) :
  covered work →
  ∃ o, syncWork c work = inr o ∧ candidate o = candidateOf c work.
Proof.
  intros Hcovered. rewrite syncWork_candidate, decide_True by done. cbv zeta.
  destruct (statusEqual _ _); eauto.
Qed.

Lemma syncWork_inr (c : StatusSyncController) (work : Work) (o : Outcome) :
  syncWork c work = inr o → covered work ∧ candidate o = candidateOf c work.
Proof.
  rewrite syncWork_candidate. case_decide; [|done]. cbv zeta.
  destruct (statusEqual _ _); intros [= <-]; done.
Qed.

(** The entry of the candidate that faces a manifest. *)
Lemma candidateOf_entry (c : StatusSyncController) (work : Work) (index : nat)
    (manifest : Manifest) (entry : ManifestCondition) :
  WorkloadTemplate.Manifests (WorkSpec.Workload (Work.Spec work)) !! index = Some manifest →
  WorkStatus.ManifestConditions (Work.Status work) !! index = Some entry →
  WorkStatus.ManifestConditions (Work.Status (candidateOf c work)) !! index
  = Some (syncedEntry c
            (WorkloadConfig.ManifestConfigs (WorkSpec.WorkloadConfig (Work.Spec work)))
            index manifest entry).
Proof.
  intros Hmanifest Hentry. unfold candidateOf. cbn.
  by rewrite syncedEntries_lookup, Hmanifest, Hentry.
Qed.

(** A second pass over the same resources and rules, from the work the
    first pass left on the hub, rebuilds the same candidate and writes
    nothing. *)
Lemma syncWork_second_pass (c c' : StatusSyncController) (work : Work) (o : Outcome) :
  sameBacking c c' → syncWork c work = inr o → returned o = None →
  syncWork c' (persisted work o)
  = inr {| candidate := candidate o; returned := None; written := None |}.
Proof.
  intros Hsame Hpass Hreturned.
  destruct (persisted_candidate c work o Hpass Hreturned) as [-> ->].
  apply syncWork_inr in Hpass as [Hcovered _].
  rewrite syncWork_candidate, decide_True by (by apply candidateOf_covered). cbv zeta.
  rewrite candidateOf_stable by done. by rewrite statusEqual_refl.
Qed.

Lemma sameBacking_refl (c : StatusSyncController) : sameBacking c c.
Proof. by repeat split. Qed.

(** After a pass whose update was accepted, any number of passes in a
    row find nothing to write. *)
Lemma quietPasses_after (c c' : StatusSyncController) (work : Work) (o : Outcome) (n : nat) :
  sameBacking c c' → syncWork c work = inr o → returned o = None →
  quietPasses c' n (persisted work o).
Proof.
  intros Hsame Hpass Hreturned.
  pose proof (syncWork_second_pass c c' work o Hsame Hpass Hreturned) as Hsecond.
  assert (Hfix : persisted (persisted work o)
                   {| candidate := candidate o; returned := None; written := None |}
                 = persisted work o) by done.
  induction n as [|n IH]; [done|].
  cbn [quietPasses]. eexists. split; [exact Hsecond|]. split; [done|]. by rewrite Hfix.
Qed.

End PassFacts.

(** * The reconciliation loop *)

Section Loop.
Import statussync spec.

(** C10. The index accesses of [syncWork]: when the manifest conditions
    cover the manifests the pass does not panic; when they do not, it
    panics with an index out of range, at the first index past the end of
    the manifest conditions; and there is such a work. *)
Theorem index_access_bounds :
  (∀ (c : StatusSyncController) (work : Work),
     length (WorkloadTemplate.Manifests (WorkSpec.Workload (Work.Spec work)))
     ≤ length (WorkStatus.ManifestConditions (Work.Status work)) →
     ∃ o, syncWork c work = inr o)
  ∧ (∀ (c : StatusSyncController) (work : Work),
       length (WorkStatus.ManifestConditions (Work.Status work))
       < length (WorkloadTemplate.Manifests (WorkSpec.Workload (Work.Spec work))) →
       syncWork c work
       = inl (IndexOutOfRange
                (length (WorkStatus.ManifestConditions (Work.Status work)))
                (length (WorkStatus.ManifestConditions (Work.Status work)))))
  ∧ (∃ work : Work,
       length (WorkStatus.ManifestConditions (Work.Status work))
       < length (WorkloadTemplate.Manifests (WorkSpec.Workload (Work.Spec work)))
       ∧ ∀ c : StatusSyncController, ∃ index len,
           syncWork c work = inl (IndexOutOfRange index len) ∧ len ≤ index).
Proof.
  assert (Hshort : ∀ (c : StatusSyncController) (work : Work),
    length (WorkStatus.ManifestConditions (Work.Status work))
    < length (WorkloadTemplate.Manifests (WorkSpec.Workload (Work.Spec work))) →
    syncWork c work
    = inl (IndexOutOfRange
             (length (WorkStatus.ManifestConditions (Work.Status work)))
             (length (WorkStatus.ManifestConditions (Work.Status work))))).
  { intros c work Hlt. rewrite syncWork_candidate, decide_False; [done|].
    unfold covered. lia. }
  split; [|split; [exact Hshort|]].
  - intros c work Hcovered. destruct (syncWork_covered c work Hcovered) as (o & Ho & _).
    eauto.
  - exists demo.shortWork. split; [cbn; lia|].
    intros c. eexists _, _. split; [apply Hshort; cbn; lia|done].
Qed.

(** C7, as the code has it. In [syncWork] a resource that cannot be
    fetched (not found or otherwise) does not touch the other manifests:
    the pass completes, every other entry carries the availability of its
    own manifest and, where its resource is fetched and a configuration is
    of its kind, holds the extracted values and carries their outcome; the
    entry of the failing manifest carries its availability and keeps its
    sync result. In [Reconcile] such a resource ends the pass: nothing is
    written and the request is requeued. *)
Theorem failure_isolation :
  (∀ (c : StatusSyncController) (work : Work) (i : nat) (failing : Manifest) (err : error),
     covered work →
     WorkloadTemplate.Manifests (WorkSpec.Workload (Work.Spec work)) !! i = Some failing →
     (buildAvailableStatusCondition c failing).2 = Some err →
     ∃ o, syncWork c work = inr o
       ∧ (∀ j manifest entry,
            j ≠ i →
            WorkloadTemplate.Manifests (WorkSpec.Workload (Work.Spec work)) !! j
              = Some manifest →
            WorkStatus.ManifestConditions (Work.Status work) !! j = Some entry →
            ∃ entry',
              WorkStatus.ManifestConditions (Work.Status (candidate o)) !! j = Some entry'
              ∧ carries (ManifestCondition.Conditions entry')
                  (buildAvailableStatusCondition c manifest).1.2
              ∧ ∀ obj manifestConfig,
                  (buildAvailableStatusCondition c manifest).1.1 = Some obj →
                  (buildAvailableStatusCondition c manifest).2 = None →
                  find (configures (Unstructured.GroupVersionKind obj))
                    (WorkloadConfig.ManifestConfigs (WorkSpec.WorkloadConfig (Work.Spec work)))
                    = Some manifestConfig →
                  ManifestCondition.StatusSync entry'
                  = StatusSyncResult.mk
                      (getSyncValues (statusReader c) obj
                         (ManifestConfig.StatusSyncRules manifestConfig)).1
                  ∧ carries (ManifestCondition.Conditions entry')
                      (getSyncValues (statusReader c) obj
                         (ManifestConfig.StatusSyncRules manifestConfig)).2)
       ∧ (∀ entry,
            WorkStatus.ManifestConditions (Work.Status work) !! i = Some entry →
            ∃ entry',
              WorkStatus.ManifestConditions (Work.Status (candidate o)) !! i = Some entry'
              ∧ carries (ManifestCondition.Conditions entry')
                  (buildAvailableStatusCondition c failing).1.2
              ∧ ManifestCondition.StatusSync entry' = ManifestCondition.StatusSync entry))
  ∧ (∀ (c : statusfeedback.StatusFeedbackReconciler) (name namespace : string)
       (work : statusfeedback.Work),
       statusfeedback.client_Get c name namespace = inr work →
       fbspec.fetchFails c
         (statusfeedback.WorkloadTemplate.Manifests
            (statusfeedback.WorkSpec.Workload (statusfeedback.Work.Spec work))) →
       statusfeedback.Reconcile c name namespace
       = {| statusfeedback.RequeueAfter := statusfeedback.statusSyncInterval c;
            statusfeedback.returned := None;
            statusfeedback.written := None |}).
Proof.
  split.
  - intros c work i failing err Hcovered Hfailing Herr.
    destruct (syncWork_covered c work Hcovered) as (o & Ho & Hcandidate).
    exists o. rewrite Hcandidate. split; [done|]. split.
    + intros j manifest entry _ Hmanifest Hentry. eexists.
      split; [by apply candidateOf_entry|].
      split; [apply syncedEntry_available|].
      intros obj manifestConfig Hobj Hnone Hfind. by apply syncedEntry_synced.
    + intros entry Hentry. eexists.
      split; [by apply candidateOf_entry|].
      split; [apply syncedEntry_available|].
      by eapply syncedEntry_failed.
  - intros c name namespace work Hget Hfails.
    unfold statusfeedback.Reconcile, statusfeedback.rebuild. rewrite Hget.
    by rewrite feedbackManifests_fetch_fails.
Qed.

(** C6, as the code has it. A pass is idempotent with respect to writes.
    For [syncWork]: a second pass over the same resources and rules, from the
    work the first pass left on the hub (its update accepted, or nothing to
    update), rebuilds the candidate of the first pass, finds the status
    unchanged and issues no update. For [Reconcile] the same holds when no
    two manifests of the work write to the same manifest condition. *)
Theorem pass_idempotent :
  (∀ (c c' : StatusSyncController) (work : Work) (o : Outcome),
     sameBacking c c' →
     syncWork c work = inr o →
     returned o = None →
     syncWork c' (persisted work o)
     = inr {| candidate := candidate o; returned := None; written := None |}
     ∧ statusEqual (Work.Status (persisted work o)) (Work.Status (candidate o)) = true)
  ∧ (∀ (c c' : statusfeedback.StatusFeedbackReconciler) (work built : statusfeedback.Work)
       (name namespace : string),
       fbspec.sameResources c c' →
       statusfeedback.rebuild c work = Some built →
       NoDup (fbspec.targets c
                (statusfeedback.WorkStatus.ManifestConditions (statusfeedback.Work.Status work))
                (statusfeedback.WorkloadTemplate.Manifests
                   (statusfeedback.WorkSpec.Workload (statusfeedback.Work.Spec work)))) →
       statusfeedback.client_Get c' name namespace = inr built →
       statusfeedback.rebuild c' built = Some built
       ∧ statusfeedback.Reconcile c' name namespace
         = {| statusfeedback.RequeueAfter := statusfeedback.statusSyncInterval c';
              statusfeedback.returned := None;
              statusfeedback.written := None |}).
Proof.
  split.
  - intros c c' work o Hsame Hpass Hreturned.
    split; [by apply (syncWork_second_pass c c')|].
    destruct (persisted_candidate c work o Hpass Hreturned) as [-> ->].
    apply statusEqual_refl.
  - intros c c' work built name namespace Hsame Hbuilt Hdup Hget.
    unfold statusfeedback.rebuild in Hbuilt.
    destruct (statusfeedback.feedbackManifests c 0 _ _) as [final|] eqn:Hrun; [|done].
    injection Hbuilt as <-.
    assert (Hagain : statusfeedback.rebuild c'
      (statusfeedback.Work.mk (statusfeedback.Work.Name work)
         (statusfeedback.Work.Namespace work) (statusfeedback.Work.Generation work)
         (statusfeedback.Work.Spec work)
         (statusfeedback.WorkStatus.mk
            (statusfeedback.WorkStatus.Conditions (statusfeedback.Work.Status work)) final))
      = Some (statusfeedback.Work.mk (statusfeedback.Work.Name work)
         (statusfeedback.Work.Namespace work) (statusfeedback.Work.Generation work)
         (statusfeedback.Work.Spec work)
         (statusfeedback.WorkStatus.mk
            (statusfeedback.WorkStatus.Conditions (statusfeedback.Work.Status work)) final))).
    { unfold statusfeedback.rebuild. cbn.
      erewrite (feedbackManifests_fixed c c'); [done|done|exact Hrun|done|..].
      - by eapply feedbackManifests_identifiers.
      - done. }
    split; [exact Hagain|].
    unfold statusfeedback.Reconcile. rewrite Hget, Hagain.
    unfold statusfeedback.statusEqual. by rewrite !bool_decide_true.
Qed.

(** C8, at the failing input. The configuration of the Deployment has
    a stop threshold of one, and the work is the one a first pass left on
    the hub while the Deployment had three replicas; two passes in a row
    then find nothing to write, which reaches the threshold. The resource
    is the same and so are the rules, but the Deployment now has four
    replicas: the next pass of [syncWork] extracts again, replaces the
    recorded value by the new one and issues an update. *)
Theorem stop_threshold_ignored :
  let c := demo.controller 3 100 in
  let c' := demo.controller 4 200 in
  let work := demo.pass c demo.work in
  ResourceStatusSyncConfiguration.StopSyncThreshold demo.syncConfiguration = 1%Z
  ∧ ManifestConfig.StatusSyncRules
      <$> WorkloadConfig.ManifestConfigs (WorkSpec.WorkloadConfig (Work.Spec work))
    = [ResourceStatusSyncConfiguration.Rules demo.syncConfiguration]
  ∧ quietPasses c 2 work
  ∧ (∀ manifest, decodeUnstructured c' manifest = decodeUnstructured c manifest)
  ∧ ∃ entry o entry',
      WorkStatus.ManifestConditions (Work.Status work) !! 1 = Some entry
      ∧ ManifestCondition.StatusSync entry = StatusSyncResult.mk [demo.replicasValue 3]
      ∧ syncWork c' work = inr o
      ∧ WorkStatus.ManifestConditions (Work.Status (candidate o)) !! 1 = Some entry'
      ∧ ManifestCondition.StatusSync entry' = StatusSyncResult.mk [demo.replicasValue 4]
      ∧ written o = Some (candidate o).
Proof.
  cbv zeta. split_and!; [reflexivity|reflexivity| |done|].
  - unfold demo.pass.
    destruct (syncWork (demo.controller 3 100) demo.work) as [|o] eqn:Hpass;
      [by vm_compute in Hpass|].
    apply (quietPasses_after (demo.controller 3 100)); [by repeat split|done|].
    vm_compute in Hpass. by injection Hpass as <-.
  - destruct (WorkStatus.ManifestConditions
                (Work.Status (demo.pass (demo.controller 3 100) demo.work)) !! 1)
      as [entry|] eqn:Hentry; [|by vm_compute in Hentry].
    destruct (syncWork (demo.controller 4 200) (demo.pass (demo.controller 3 100) demo.work))
      as [|o] eqn:Hpass; [by vm_compute in Hpass|].
    destruct (WorkStatus.ManifestConditions (Work.Status (candidate o)) !! 1)
      as [entry'|] eqn:Hentry';
      [|vm_compute in Hpass; injection Hpass as <-; by vm_compute in Hentry'].
    exists entry, o, entry'.
    vm_compute in Hentry. injection Hentry as <-.
    vm_compute in Hpass. injection Hpass as <-.
    vm_compute in Hentry'. injection Hentry' as <-.
    split_and!; try done; by vm_compute.
Qed.

(** The first condition of a type is the one the set carries. *)
Lemma carries_found (conditions : list Condition) (condition found : Condition) (i : nat) :
  carries conditions condition →
  meta.FindStatusCondition conditions (Condition.Type_ condition) = Some (i, found) →
  Condition.ObservedGeneration found = Condition.ObservedGeneration condition.
Proof. intros (j & existing & Hfind & _ & Hgen & _) Hfound. congruence. Qed.

(** C9, as the code has it. Only the aggregate is stamped: it is built
    with the generation of the work, and after a pass the [Available]
    condition of the work has it. The availability of a manifest and its
    sync outcome are built with observed generation 0, and after a pass the
    [Available] condition of every manifest, and the [StatusSynced]
    condition of every manifest whose values were extracted, have 0. *)
Theorem observed_generation_stamps :
  (∀ (generation : Z) (manifests : list ManifestCondition),
     Condition.ObservedGeneration (aggregateManifestConditions generation manifests)
     = generation)
  ∧ (∀ (c : StatusSyncController) (manifest : Manifest),
       Condition.ObservedGeneration (buildAvailableStatusCondition c manifest).1.2 = 0%Z)
  ∧ (∀ (Rule Value : Type) (GetValuesByRule : Unstructured → Rule → list Value * option error)
       (obj : Unstructured) (rules : list Rule),
       Condition.ObservedGeneration (getSyncValues GetValuesByRule obj rules).2 = 0%Z)
  ∧ (∀ (c : StatusSyncController) (work : Work) (o : Outcome),
       syncWork c work = inr o →
       (∀ i condition,
          meta.FindStatusCondition (WorkStatus.Conditions (Work.Status (candidate o)))
            resourceAvailableConditionType = Some (i, condition) →
          Condition.ObservedGeneration condition = Work.Generation work)
       ∧ (∀ index manifest entry i condition,
            WorkloadTemplate.Manifests (WorkSpec.Workload (Work.Spec work)) !! index
              = Some manifest →
            WorkStatus.ManifestConditions (Work.Status (candidate o)) !! index = Some entry →
            meta.FindStatusCondition (ManifestCondition.Conditions entry)
              resourceAvailableConditionType = Some (i, condition) →
            Condition.ObservedGeneration condition = 0%Z)
       ∧ (∀ index manifest entry obj manifestConfig i condition,
            WorkloadTemplate.Manifests (WorkSpec.Workload (Work.Spec work)) !! index
              = Some manifest →
            WorkStatus.ManifestConditions (Work.Status (candidate o)) !! index = Some entry →
            (buildAvailableStatusCondition c manifest).1.1 = Some obj →
            (buildAvailableStatusCondition c manifest).2 = None →
            find (configures (Unstructured.GroupVersionKind obj))
              (WorkloadConfig.ManifestConfigs (WorkSpec.WorkloadConfig (Work.Spec work)))
              = Some manifestConfig →
            meta.FindStatusCondition (ManifestCondition.Conditions entry)
              statusSyncConditionType = Some (i, condition) →
            Condition.ObservedGeneration condition = 0%Z)).
Proof.
  assert (Haggregate : ∀ generation manifests,
    Condition.ObservedGeneration (aggregateManifestConditions generation manifests)
    = generation).
  { intros. rewrite aggregate_unfold. cbv zeta. by repeat case_bool_decide. }
  assert (Hbuild : ∀ c manifest,
    Condition.ObservedGeneration (buildAvailableStatusCondition c manifest).1.2 = 0%Z).
  { intros. unfold buildAvailableStatusCondition.
    destruct (decodeUnstructured c manifest) as [err|[gvr unstructuredObj]]; [done|].
    destruct (spokeDynamicClient_Get c gvr _ _) as [err|obj]; [|done].
    by destruct (errors.IsNotFound err). }
  assert (Hsync : ∀ (Rule Value : Type)
    (GetValuesByRule : Unstructured → Rule → list Value * option error) obj rules,
    Condition.ObservedGeneration (getSyncValues GetValuesByRule obj rules).2 = 0%Z).
  { intros. rewrite getSyncValues_unfold. cbv zeta.
    destruct (utilerrors.NewAggregate _); [done|]. by case_bool_decide. }
  split; [exact Haggregate|]. split; [exact Hbuild|]. split; [exact Hsync|].
  intros c work o Hpass. apply syncWork_inr in Hpass as [Hcovered ->].
  split; [|split].
  - intros i condition Hfound.
    erewrite (carries_found _
      (aggregateManifestConditions (Work.Generation work) _) condition i).
    + apply Haggregate.
    + unfold candidateOf. cbn. apply SetStatusCondition_carries.
    + replace (Condition.Type_ (aggregateManifestConditions (Work.Generation work) _))
        with resourceAvailableConditionType; [exact Hfound|].
      rewrite aggregate_unfold. cbv zeta. by repeat case_bool_decide.
  - intros index manifest entry i condition Hmanifest Hentry Hfound.
    destruct (lookup_lt_is_Some_2 (WorkStatus.ManifestConditions (Work.Status work)) index)
      as [before Hbefore].
    { apply lookup_lt_Some in Hmanifest. unfold covered in Hcovered. lia. }
    rewrite (candidateOf_entry c work index manifest before) in Hentry by done.
    injection Hentry as <-.
    erewrite (carries_found _ (buildAvailableStatusCondition c manifest).1.2 condition i).
    + apply Hbuild.
    + apply syncedEntry_available.
    + by rewrite buildAvailableStatusCondition_type.
  - intros index manifest entry obj manifestConfig i condition
      Hmanifest Hentry Hobj Hnone Hfind Hfound.
    destruct (lookup_lt_is_Some_2 (WorkStatus.ManifestConditions (Work.Status work)) index)
      as [before Hbefore].
    { apply lookup_lt_Some in Hmanifest. unfold covered in Hcovered. lia. }
    rewrite (candidateOf_entry c work index manifest before) in Hentry by done.
    injection Hentry as <-.
    erewrite (carries_found _
      (getSyncValues (statusReader c) obj (ManifestConfig.StatusSyncRules manifestConfig)).2
      condition i).
    + apply Hsync.
    + by apply syncedEntry_synced.
    + by rewrite getSyncValues_type.
Qed.

End Loop.

(** * The theorems on the concrete cluster *)

Section Examples.
Import statussync spec.

Lemma aggregate_precedence_witness :
  Condition.Message
    (aggregateManifestConditions 3
       [demo.available "False"; demo.available "True"; demo.available "Unknown"])
  = "1 of 3 resources are not available".
Proof.
  destruct (aggregate_precedence 3
    [demo.available "False"; demo.available "True"; demo.available "Unknown"])
    as (_ & Hfalse & _).
  destruct Hfalse as (_ & _ & ->); by vm_compute.
Defined.

Lemma extract_by_runtime_type_witness :
  statusfeedback.getValueByJsonPath demo.jsonpath "phase" ".status.phase" (demo.deployment 3)
  = (Some (statusfeedback.FeedbackValue.mk "phase"
             (statusfeedback.FieldValue.mk ValueType.String None (Some "Running") None)),
     None).
Proof.
  destruct (extract_by_runtime_type demo.jsonpath "phase" ".status.phase" (demo.deployment 3))
    as (Hvalue & _).
  destruct (Hvalue (VString "Running") [] []) as (_ & Hstring & _).
  - exists ["status"; "phase"]. split; reflexivity.
  - exact (Hstring "Running" eq_refl).
Defined.

Lemma sync_outcome_cases_witness :
  Condition.Status
    (getSyncValues demo.reader (demo.deployment 3) [demo.replicasRule]).2
  = metav1.ConditionTrue
  ∧ Condition.Reason
      (getSyncValues demo.reader (demo.deployment 3) [demo.replicasRule]).2
    = "StatusSynced".
Proof.
  destruct sync_outcome_cases as (Hgeneral & _).
  destruct (Hgeneral _ _ demo.reader (demo.deployment 3) [demo.replicasRule])
    as (_ & _ & _ & _ & Hsynced).
  apply Hsynced; by vm_compute.
Defined.

Lemma available_condition_outcomes_witness :
  Condition.Status
    (buildAvailableStatusCondition (demo.controller 3 100) (Manifest.mk "job migrate")).1.2
  = metav1.ConditionFalse
  ∧ (buildAvailableStatusCondition (demo.controller 3 100) (Manifest.mk "job migrate")).2
    = Some (StatusError "NotFound" "jobs migrate not found").
Proof.
  destruct (available_condition_outcomes (demo.controller 3 100) (Manifest.mk "job migrate"))
    as (_ & _ & Hfetch & _).
  destruct (Hfetch demo.jobs
              (Unstructured.mk (GroupVersionKind.mk "batch" "v1" "Job") "default" "migrate" VNil)
              (StatusError "NotFound" "jobs migrate not found")) as [Hnotfound _];
    [reflexivity..|].
  destruct Hnotfound as (_ & Hstatus & _ & Herr); [reflexivity|]. by split.
Defined.

Lemma common_fields_resolution_witness :
  ∃ err, statusfeedback.GetValuesByRule demo.jsonpath statusfeedback.NewStatusReader
           demo.configMap demo.commonFields = ([], Some err).
Proof.
  destruct common_fields_resolution as (Hunregistered & _).
  apply Hunregistered; [reflexivity|by vm_compute].
Defined.

Lemma index_access_bounds_witness :
  (∃ o, syncWork (demo.controller 3 100) demo.work = inr o)
  ∧ syncWork (demo.controller 3 100) demo.shortWork = inl (IndexOutOfRange 1 1).
Proof.
  destruct index_access_bounds as (Hcovered & Hshort & _). split.
  - apply Hcovered. cbn. lia.
  - apply (Hshort (demo.controller 3 100) demo.shortWork). cbn. lia.
Defined.

Lemma pass_idempotent_witness :
  ∃ o, syncWork (demo.controller 3 100) demo.work = inr o
       ∧ syncWork (demo.controller 3 200) (persisted demo.work o)
         = inr {| candidate := candidate o; returned := None; written := None |}.
Proof.
  destruct pass_idempotent as (Hsync & _).
  destruct (syncWork (demo.controller 3 100) demo.work) as [|o] eqn:Hpass;
    [by vm_compute in Hpass|].
  exists o. split; [done|].
  apply (Hsync (demo.controller 3 100) (demo.controller 3 200) demo.work o).
  - by repeat split.
  - done.
  - vm_compute in Hpass. by injection Hpass as <-.
Defined.

Lemma failure_isolation_witness :
  ∃ o entry',
    syncWork (demo.controller 3 100) demo.work = inr o
    ∧ WorkStatus.ManifestConditions (Work.Status (candidate o)) !! 1 = Some entry'
    ∧ ManifestCondition.StatusSync entry'
      = StatusSyncResult.mk
          (getSyncValues demo.reader (demo.deployment 3) [demo.replicasRule]).1.
Proof.
  destruct failure_isolation as (Hsync & _).
  destruct (Hsync (demo.controller 3 100) demo.work 0 (Manifest.mk "job migrate")
              (StatusError "NotFound" "jobs migrate not found"))
    as (o & Hpass & Hsiblings & _); [unfold covered; cbn; lia|reflexivity|reflexivity|].
  destruct (Hsiblings 1 (Manifest.mk "deployment web")
              (demo.entry 1 "Deployment" "deployments" "web"))
    as (entry' & Hentry & _ & Hextracted); [done|reflexivity|reflexivity|].
  destruct (Hextracted (demo.deployment 3)
              (ManifestConfig.mk (demo.identifier 0 "Deployment" "deployments" "")
                 [demo.replicasRule])) as [Hvalues _]; [reflexivity..|].
  by exists o, entry'.
Defined.

Lemma observed_generation_stamps_witness :
  Condition.ObservedGeneration
    (aggregateManifestConditions 3 [demo.available "True"]) = 3%Z
  ∧ Condition.ObservedGeneration
      (buildAvailableStatusCondition (demo.controller 3 100) (Manifest.mk "deployment web")).1.2
    = 0%Z.
Proof.
  destruct observed_generation_stamps as (Haggregate & Hbuild & _).
  split; [apply Haggregate|apply Hbuild].
Defined.

(** The status-feedback reconciler stops at the Job that is not on the
    cluster: the Deployment behind it is fetched but never reported. *)
Lemma reconcile_stops_at_failure : ¬ fbspec.reconcileIsolatesFailures.
Proof.
  intros Hclaim.
  destruct (Hclaim (demo.reconciler demo.feedbackWork 100) demo.feedbackWork 1 0
              (statusfeedback.Manifest.mk "deployment web" (Some [demo.commonFields]))
              [demo.commonFields] (demo.deployment 3))
    as (built & entry & Hbuilt & _).
  - cbn. lia.
  - exists 0, (statusfeedback.Manifest.mk "job migrate" (Some [demo.commonFields])),
      [demo.commonFields], (StatusError "NotFound" "jobs migrate not found").
    by split_and!.
  - reflexivity.
  - reflexivity.
  - reflexivity.
  - by vm_compute.
  - by vm_compute in Hbuilt.
Qed.

(** The Deployment listed twice, with a rule that fails and a rule that
    succeeds: both manifests write to the one manifest condition, its status
    flips twice in every pass, the transition time is stamped anew, and the
    second pass writes again. *)
Lemma reconcile_not_idempotent : ¬ fbspec.reconcileIdempotent.
Proof.
  intros Hclaim.
  destruct (statusfeedback.rebuild (demo.reconciler demo.twiceWork 100) demo.twiceWork)
    as [built|] eqn:Hbuilt; [|by vm_compute in Hbuilt].
  pose proof (Hclaim (demo.reconciler demo.twiceWork 100) (demo.reconciler built 200)
                demo.twiceWork built "demo" "cluster1") as Hquiet.
  vm_compute in Hbuilt. injection Hbuilt as <-.
  specialize (Hquiet ltac:(by repeat split) eq_refl eq_refl).
  by vm_compute in Hquiet.
Qed.

(** With a stop threshold of one and two passes in a row that found
    nothing to write, a change of the Deployment's replicas is still
    extracted by the next pass. *)
Lemma stop_threshold_not_honoured : ¬ honoursStopThreshold.
Proof.
  intros Hclaim.
  set (c := demo.controller 3 100). set (c' := demo.controller 4 200).
  set (work := demo.pass c demo.work).
  destruct (syncWork c' work) as [|o] eqn:Hpass; [by vm_compute in Hpass|].
  destruct (WorkStatus.ManifestConditions (Work.Status work) !! 1) as [entry|] eqn:Hentry;
    [|by vm_compute in Hentry].
  destruct (Hclaim demo.syncConfiguration c c' work 2 1 entry o)
    as (entry' & Hentry' & Hsame).
  - by vm_compute.
  - vm_compute. lia.
  - subst work. unfold demo.pass.
    destruct (syncWork c demo.work) as [|o1] eqn:Hfirst; [by vm_compute in Hfirst|].
    apply (quietPasses_after c); [by repeat split|done|].
    vm_compute in Hfirst. by injection Hfirst as <-.
  - done.
  - vm_compute. by repeat constructor.
  - done.
  - done.
  - vm_compute in Hpass. injection Hpass as <-.
    vm_compute in Hentry. injection Hentry as <-.
    vm_compute in Hentry'. injection Hentry' as <-.
    by vm_compute in Hsame.
Qed.

(** A work of generation 3: after a pass the [Available] condition of
    its first manifest has observed generation 0. *)
Lemma manifest_conditions_not_stamped : ¬ stampsGeneration.
Proof.
  intros Hclaim.
  destruct (syncWork (demo.controller 3 100) demo.work) as [|o] eqn:Hpass;
    [by vm_compute in Hpass|].
  destruct (Hclaim (demo.controller 3 100) demo.work o Hpass) as [_ Hmanifests].
  destruct (WorkStatus.ManifestConditions (Work.Status (candidate o)) !! 0)
    as [entry|] eqn:Hentry;
    [|vm_compute in Hpass; injection Hpass as <-; by vm_compute in Hentry].
  destruct (meta.FindStatusCondition (ManifestCondition.Conditions entry)
              resourceAvailableConditionType) as [[i condition]|] eqn:Hfound;
    [|vm_compute in Hpass; injection Hpass as <-;
      vm_compute in Hentry; injection Hentry as <-; by vm_compute in Hfound].
  pose proof (Hmanifests 0 (Manifest.mk "job migrate") entry resourceAvailableConditionType
                i condition eq_refl Hentry ltac:(by left) Hfound) as Hstamp.
  vm_compute in Hpass. injection Hpass as <-.
  vm_compute in Hentry. injection Hentry as <-.
  vm_compute in Hfound. injection Hfound as <- <-.
  by vm_compute in Hstamp.
Qed.

End Examples.

(** * Further properties of the aggregator *)

Section AggregatorFacts.
Import statussync spec.

(** X1. The aggregate does not depend on the order of the manifests. *)
Theorem aggregate_permutation (generation : Z) (manifests manifests' : list ManifestCondition) :
  manifests ≡ₚ manifests' →
  aggregateManifestConditions generation manifests
  = aggregateManifestConditions generation manifests'.
Proof.
  intros Hperm. rewrite !aggregate_unfold.
  assert (Hcount : ∀ status, countAvailable status manifests = countAvailable status manifests').
  { intros status. unfold countAvailable. f_equal. apply Permutation_length.
    apply filter_Permutation. by apply bind_Permutation. }
  by rewrite !Hcount, (Permutation_length Hperm).
Qed.

(** The statuses of the aggregate, read backwards from the counts. *)
Lemma aggregate_status (generation : Z) (manifests : list ManifestCondition) :
  let falseCount := countAvailable metav1.ConditionFalse manifests in
  let unknownCount := countAvailable metav1.ConditionUnknown manifests in
  let trueCount := countAvailable metav1.ConditionTrue manifests in
  let result := aggregateManifestConditions generation manifests in
  (Condition.Status result = metav1.ConditionFalse ↔ (0 < falseCount)%Z)
  ∧ (Condition.Status result = metav1.ConditionTrue ↔
     falseCount = 0%Z ∧ unknownCount = 0%Z ∧ (0 < trueCount)%Z)
  ∧ (Condition.Status result = metav1.ConditionUnknown ↔
     falseCount = 0%Z ∧ ((0 < unknownCount)%Z ∨ trueCount = 0%Z)).
Proof.
  cbv zeta. rewrite aggregate_unfold. cbv zeta.
  pose proof (countAvailable_nonneg metav1.ConditionFalse manifests) as Hfalse.
  pose proof (countAvailable_nonneg metav1.ConditionUnknown manifests) as Hunknown.
  pose proof (countAvailable_nonneg metav1.ConditionTrue manifests) as Htrue.
  revert Hfalse Hunknown Htrue.
  generalize (countAvailable metav1.ConditionFalse manifests).
  generalize (countAvailable metav1.ConditionUnknown manifests).
  generalize (countAvailable metav1.ConditionTrue manifests).
  intros trueCount unknownCount falseCount Hfalse Hunknown Htrue.
  unfold metav1.ConditionFalse, metav1.ConditionTrue, metav1.ConditionUnknown.
  repeat case_bool_decide; cbn; (split; [|split]); split; intros Hcase;
    first [discriminate | done | lia | (split; [lia|]); first [lia | split; lia | left; lia
                                                            | right; lia ] ].
Qed.

Lemma filter_type_unique (conditionType : string) (conditions : list Condition) :
  uniqueTypes conditions →
  length (filter (λ c, Condition.Type_ c = conditionType) conditions) ≤ 1.
Proof.
  unfold uniqueTypes. induction conditions as [|c conditions IH]; [simpl; lia|].
  rewrite fmap_cons, NoDup_cons. intros [Hfresh Hdup]. rewrite filter_cons.
  case_decide as Hty; [|by apply IH]. simpl.
  destruct (filter (λ c, Condition.Type_ c = conditionType) conditions) as [|c' rest] eqn:Hrest;
    [simpl; lia|].
  exfalso. assert (Hin : c' ∈ filter (λ c, Condition.Type_ c = conditionType) conditions)
    by (rewrite Hrest; by left).
  apply list_elem_of_filter in Hin as [Hc' Hin].
  apply Hfresh, list_elem_of_fmap. exists c'. split; [congruence|done].
Qed.

Lemma availableWith_split (conditions : list Condition) :
  length (filter (availableWith metav1.ConditionTrue) conditions)
  + length (filter (availableWith metav1.ConditionFalse) conditions)
  + length (filter (availableWith metav1.ConditionUnknown) conditions)
  ≤ length (filter (λ c, Condition.Type_ c = "Available") conditions).
Proof.
  induction conditions as [|c conditions IH]; [simpl; lia|].
  rewrite !filter_cons.
  unfold metav1.ConditionTrue, metav1.ConditionFalse, metav1.ConditionUnknown in *.
  repeat case_decide; simpl;
    repeat match goal with
           | H : context [availableWith _ c] |- _ => unfold availableWith in H
           end;
    try lia; exfalso; intuition congruence.
Qed.

Lemma countAvailable_bounded (manifests : list ManifestCondition) :
  Forall (λ entry, uniqueTypes (ManifestCondition.Conditions entry)) manifests →
  (countAvailable metav1.ConditionTrue manifests
   + countAvailable metav1.ConditionFalse manifests
   + countAvailable metav1.ConditionUnknown manifests
   ≤ Z.of_nat (length manifests))%Z.
Proof.
  unfold countAvailable. induction 1 as [|entry manifests Hunique _ IH]; [simpl; lia|].
  rewrite !bind_cons, !filter_app, !length_app. cbn [length].
  pose proof (availableWith_split (ManifestCondition.Conditions entry)).
  pose proof (filter_type_unique "Available" _ Hunique). lia.
Qed.

(** X2. When the condition types of every manifest are pairwise distinct,
    the message of [aggregateManifestConditions] never counts more resources
    than there are: an aggregate that is [False] says "<n> of <total>
    resources are not available" with [n] the number of unavailable
    resources and [0 < n ≤ total]; one that is [Unknown] says either "cannot
    get any available resource" or "<n> of <total> resources have unknown
    status" with [0 < n ≤ total]; and one that is [True] stands for at least
    one manifest and at most [total] available ones. *)
Theorem aggregate_counts_bounded (generation : Z) (manifests : list ManifestCondition) :
  Forall (λ entry, uniqueTypes (ManifestCondition.Conditions entry)) manifests →
  let result := aggregateManifestConditions generation manifests in
  let total := Z.of_nat (length manifests) in
  (Condition.Status result = metav1.ConditionFalse →
     ∃ n, n = countAvailable metav1.ConditionFalse manifests
          ∧ (0 < n ≤ total)%Z
          ∧ Condition.Message result
            = pretty n +:+ " of " +:+ pretty total +:+ " resources are not available")
  ∧ (Condition.Status result = metav1.ConditionUnknown →
       Condition.Message result = "cannot get any available resource"
       ∨ ∃ n, n = countAvailable metav1.ConditionUnknown manifests
              ∧ (0 < n ≤ total)%Z
              ∧ Condition.Message result
                = pretty n +:+ " of " +:+ pretty total +:+ " resources have unknown status")
  ∧ (Condition.Status result = metav1.ConditionTrue →
       (0 < countAvailable metav1.ConditionTrue manifests ≤ total)%Z
       ∧ Condition.Message result = "All resources are available").
Proof.
  intros Hunique. cbv zeta. rewrite aggregate_unfold. cbv zeta.
  pose proof (countAvailable_bounded manifests Hunique) as Hbound.
  pose proof (countAvailable_nonneg metav1.ConditionFalse manifests) as Hfalse.
  pose proof (countAvailable_nonneg metav1.ConditionUnknown manifests) as Hunknown.
  pose proof (countAvailable_nonneg metav1.ConditionTrue manifests) as Htrue.
  unfold metav1.ConditionFalse, metav1.ConditionTrue, metav1.ConditionUnknown in *.
  repeat case_bool_decide; cbn; split_and!; intros Hstatus; try discriminate.
  - eexists. split; [reflexivity|]. split; [lia|done].
  - right. eexists. split; [reflexivity|]. split; [lia|done].
  - by left.
  - split; [lia|done].
Qed.

End AggregatorFacts.

(** * Further properties of the reader *)

Section ReaderFacts.
Import statusfeedback spec.

(** X3. [getValueByJsonPath] returns a value or an error, never both, and a
    value it returns bears the name it was asked for and holds the payload
    of its type and no other. *)
Theorem getValueByJsonPath_shape (J : JSONPathLib) (name path : string) (obj : Unstructured) :
  let result := getValueByJsonPath J name path obj in
  (result.1 = None ∨ result.2 = None)
  ∧ ∀ value, result.1 = Some value →
      FeedbackValue.Name value = name ∧ wellFormed value.
Proof.
  cbv zeta. unfold getValueByJsonPath, wellFormed.
  destruct (Parse J _) as [err|j]; [by split; [left|]|].
  destruct (FindResults J j _) as [err|[|[|value row] results]];
    try (by split; [left|]).
  destruct value; cbn; (split; [by (left + right)|]); intros v [= <-]; cbn;
    (split; [done|]); eauto 10.
Qed.

Lemma pathValue_name (J : JSONPathLib) (obj : Unstructured) (path : JsonPath)
    (value : FeedbackValue) :
  pathValue J obj path = Some value → FeedbackValue.Name value = JsonPath.Name path.
Proof.
  unfold pathValue, getValueByJsonPath.
  destruct (Parse J _) as [err|j]; [done|].
  destruct (FindResults J j _) as [err|[|[|found row] results]]; try done.
  by destruct found; intros [= <-].
Qed.

Lemma versionedValue_name (J : JSONPathLib) (obj : Unstructured) (path : JsonPath)
    (value : FeedbackValue) :
  versionedValue J obj path = Some value → FeedbackValue.Name value = JsonPath.Name path.
Proof. unfold versionedValue. case_decide; [done|]. apply pathValue_name. Qed.

Lemma omap_names (f : JsonPath → option FeedbackValue) (paths : list JsonPath) :
  (∀ path value, f path = Some value → FeedbackValue.Name value = JsonPath.Name path) →
  FeedbackValue.Name <$> omap f paths `sublist_of` JsonPath.Name <$> paths.
Proof.
  intros Hname. induction paths as [|path paths IH]; [done|].
  cbn [omap list_omap]. destruct (f path) as [value|] eqn:Hf.
  - rewrite !fmap_cons, (Hname path value Hf). by constructor.
  - rewrite fmap_cons. by constructor.
Qed.

Lemma GetValuesByRule_sublist (J : JSONPathLib) (s : StatusReader) (obj : Unstructured)
    (rule : StatusFeedbackRule) :
  FeedbackValue.Name <$> (GetValuesByRule J s obj rule).1
    `sublist_of` JsonPath.Name <$>
      (if bool_decide (StatusFeedbackRule.Type_ rule = StatusFeedbackRule.CommonFieldsType)
       then GetPathsByKind s (Unstructured.GroupVersionKind obj)
       else StatusFeedbackRule.JsonPaths rule).
Proof.
  case_bool_decide as Hcommon.
  - destruct (GetPathsByKind s (Unstructured.GroupVersionKind obj)) as [|path paths] eqn:Hpaths.
    + by rewrite GetValuesByRule_unregistered.
    + rewrite GetValuesByRule_CommonFields, Hpaths by (done || by rewrite Hpaths).
      apply omap_names, pathValue_name.
  - destruct (decide (StatusFeedbackRule.Type_ rule = StatusFeedbackRule.JSONPathsType))
      as [Hjson|Hother].
    + rewrite GetValuesByRule_JSONPaths by done. apply omap_names, versionedValue_name.
    + unfold GetValuesByRule. rewrite !bool_decide_false by done. apply sublist_nil_l.
Qed.

(** X4. The values of a rule come in the order of its paths and bear their
    names: the names of the values are a sublist of the names of the paths,
    so a rule never yields more values than it has paths, and a rule of an
    unknown type yields none. *)
Theorem GetValuesByRule_names (J : JSONPathLib) (s : StatusReader) (obj : Unstructured)
    (rule : StatusFeedbackRule) :
  let paths :=
    if bool_decide (StatusFeedbackRule.Type_ rule = StatusFeedbackRule.CommonFieldsType)
    then GetPathsByKind s (Unstructured.GroupVersionKind obj)
    else StatusFeedbackRule.JsonPaths rule in
  FeedbackValue.Name <$> (GetValuesByRule J s obj rule).1
    `sublist_of` JsonPath.Name <$> paths
  ∧ length (GetValuesByRule J s obj rule).1 ≤ length paths.
Proof.
  cbv zeta. pose proof (GetValuesByRule_sublist J s obj rule) as Hsub.
  split; [exact Hsub|].
  apply sublist_length in Hsub. by rewrite !length_fmap in Hsub.
Qed.

(** The built-in table registers the Deployment of [apps/v1], the Job of
    [batch/v1] and the Pod of [v1], and nothing else. *)
Lemma GetPathsByKind_registered (gvk : GroupVersionKind) :
  GetPathsByKind NewStatusReader gvk ≠ [] ↔ gvk ∈ registeredKinds.
Proof.
  unfold GetPathsByKind, NewStatusReader, rules.GetPathsByKind,
    rules.DefaultCommonFieldsStatusResolver_resolver, registeredKinds; cbn.
  rewrite !lookup_insert, lookup_empty.
  repeat case_decide; subst; cbn; split; intros Hin; try done.
  - by left.
  - by right; left.
  - by right; right; left.
  - exfalso. repeat (apply elem_of_cons in Hin as [Hin|Hin]; [congruence|]).
    by apply elem_of_nil in Hin.
Qed.

(** X5. A [CommonFields] rule fails exactly on the kinds the table does not
    register: the group and the version count, not only the kind. *)
Theorem common_fields_registered (J : JSONPathLib) (obj : Unstructured)
    (rule : StatusFeedbackRule) :
  StatusFeedbackRule.Type_ rule = StatusFeedbackRule.CommonFieldsType →
  (Unstructured.GroupVersionKind obj ∉ registeredKinds ↔
   GetValuesByRule J NewStatusReader obj rule
   = ([], Some (ErrorString
                  ("cannot find the CommonFields statuses for resrouce with gvk "
                     +:+ GroupVersionKind.String (Unstructured.GroupVersionKind obj))))).
Proof.
  intros Hty. rewrite <- GetPathsByKind_registered. split.
  - intros Hnone. apply GetValuesByRule_unregistered; [done|].
    by destruct (GetPathsByKind NewStatusReader _); [|destruct Hnone].
  - intros Hresult Hpaths.
    rewrite GetValuesByRule_CommonFields in Hresult by done.
    injection Hresult as _ Herr.
    destruct (omap _ _); [done|]. cbn in Herr. by injection Herr.
Qed.

(** X6. The values a [CommonFields] rule yields bear pairwise distinct
    names, as the list of values requires, which is keyed by name. *)
Theorem common_fields_distinct_names (J : JSONPathLib) (obj : Unstructured)
    (rule : StatusFeedbackRule) :
  StatusFeedbackRule.Type_ rule = StatusFeedbackRule.CommonFieldsType →
  NoDup (FeedbackValue.Name <$> (GetValuesByRule J NewStatusReader obj rule).1).
Proof.
  intros Hty.
  pose proof (GetValuesByRule_sublist J NewStatusReader obj rule) as Hsub.
  rewrite Hty, bool_decide_true in Hsub by done.
  eapply sublist_NoDup; [|exact Hsub].
  destruct (decide (Unstructured.GroupVersionKind obj ∈ registeredKinds)) as [Hin|Hout].
  - unfold registeredKinds in Hin.
    apply elem_of_cons in Hin as [->|Hin]; [apply (bool_decide_unpack _); by vm_compute|].
    apply elem_of_cons in Hin as [->|Hin]; [apply (bool_decide_unpack _); by vm_compute|].
    apply elem_of_cons in Hin as [->|Hin]; [apply (bool_decide_unpack _); by vm_compute|].
    by apply elem_of_nil in Hin.
  - destruct (GetPathsByKind NewStatusReader (Unstructured.GroupVersionKind obj)) eqn:Hpaths;
      [constructor|].
    exfalso. apply Hout, GetPathsByKind_registered. by rewrite Hpaths.
Qed.

End ReaderFacts.

(** * Further properties of the status-feedback reconciler *)

Section ReconcilerFacts.
Import statusfeedback fbspec spec.

Lemma getFeedbackValues_fold (c : StatusFeedbackReconciler) (obj : Unstructured)
    (statusFeedbackRules : list StatusFeedbackRule) (acc : list error * list FeedbackValue) :
  fold_left
    (λ (acc : list error * list FeedbackValue) rule,
       let r := GetValuesByRule (jsonpath c) (statusReader c) obj rule in
       (match r.2 with Some err => acc.1 ++ [err] | None => acc.1 end,
        if bool_decide (0 < length r.1) then acc.2 ++ r.1 else acc.2))
    statusFeedbackRules acc
  = fold_left (statussync.readRule (GetValuesByRule (jsonpath c) (statusReader c)) obj)
      statusFeedbackRules acc.
Proof.
  revert acc. induction statusFeedbackRules as [|rule rules IH]; intros acc; [done|].
  cbn [fold_left]. rewrite IH. f_equal. unfold statussync.readRule.
  by destruct (GetValuesByRule (jsonpath c) (statusReader c) obj rule).
Qed.

Lemma getFeedbackValues_unfold (c : StatusFeedbackReconciler) (obj : Unstructured)
    (statusFeedbackRules : list StatusFeedbackRule) :
  getFeedbackValues c obj statusFeedbackRules =
  let reader := GetValuesByRule (jsonpath c) (statusReader c) in
  let values := ruleValues reader obj statusFeedbackRules in
  match utilerrors.NewAggregate (ruleErrors reader obj statusFeedbackRules) with
  | Some err =>
      (values, Condition.mk "StatusFeedbackSynced" "False" 0 0 "StatusFeedbackSyncFailed"
                 ("Sync status feedback failed with error " +:+ Error err))
  | None =>
      if bool_decide (length values = 0)
      then (values, Condition.mk "StatusFeedbackSynced" "True" 0 0 "NoStatusFeedbackSynced" "")
      else (values, Condition.mk "StatusFeedbackSynced" "True" 0 0 "StatusFeedbackSynced" "")
  end.
Proof.
  unfold getFeedbackValues. rewrite getFeedbackValues_fold, readRule_fold. reflexivity.
Qed.

(** X7. The outcome of [getFeedbackValues], case by case, and its agreement
    with [getSyncValues] over the same reader: the same values and the same
    status, under the condition type and the reasons of its generation. *)
Theorem feedback_outcome_cases (c : StatusFeedbackReconciler) (obj : Unstructured)
    (statusFeedbackRules : list StatusFeedbackRule) :
  let reader := GetValuesByRule (jsonpath c) (statusReader c) in
  let errs := ruleErrors reader obj statusFeedbackRules in
  let produced := ruleValues reader obj statusFeedbackRules in
  let result := getFeedbackValues c obj statusFeedbackRules in
  result.1 = produced
  ∧ Condition.Type_ result.2 = "StatusFeedbackSynced"
  ∧ (errs ≠ [] →
       Condition.Status result.2 = metav1.ConditionFalse
       ∧ Condition.Reason result.2 = "StatusFeedbackSyncFailed"
       ∧ Condition.Message result.2
         = "Sync status feedback failed with error " +:+ Error (Aggregate errs))
  ∧ (errs = [] → produced = [] →
       Condition.Status result.2 = metav1.ConditionTrue
       ∧ Condition.Reason result.2 = "NoStatusFeedbackSynced")
  ∧ (errs = [] → produced ≠ [] →
       Condition.Status result.2 = metav1.ConditionTrue
       ∧ Condition.Reason result.2 = "StatusFeedbackSynced")
  ∧ result.1 = (statussync.getSyncValues reader obj statusFeedbackRules).1
  ∧ Condition.Status result.2
    = Condition.Status (statussync.getSyncValues reader obj statusFeedbackRules).2.
Proof.
  cbv zeta. rewrite getFeedbackValues_unfold, getSyncValues_unfold. cbv zeta.
  destruct (ruleErrors _ obj statusFeedbackRules) as [|e errs];
    cbn [utilerrors.NewAggregate].
  - destruct (ruleValues _ obj statusFeedbackRules) as [|v produced]; cbn;
      repeat split; intros; done.
  - repeat split; intros; done.
Qed.

(** X8. Rules of a type the reader does not know are passed over in
    silence: with such rules only (or with none) the outcome is a success
    with no value. *)
Theorem unknown_rule_types_ignored (c : StatusFeedbackReconciler) (obj : Unstructured)
    (statusFeedbackRules : list StatusFeedbackRule) :
  Forall (λ rule,
            StatusFeedbackRule.Type_ rule ≠ StatusFeedbackRule.CommonFieldsType
            ∧ StatusFeedbackRule.Type_ rule ≠ StatusFeedbackRule.JSONPathsType)
    statusFeedbackRules →
  getFeedbackValues c obj statusFeedbackRules
  = ([], Condition.mk "StatusFeedbackSynced" "True" 0 0 "NoStatusFeedbackSynced" "").
Proof.
  intros Hunknown. rewrite getFeedbackValues_unfold. cbv zeta.
  assert (Hnone : ∀ rule,
    StatusFeedbackRule.Type_ rule ≠ StatusFeedbackRule.CommonFieldsType →
    StatusFeedbackRule.Type_ rule ≠ StatusFeedbackRule.JSONPathsType →
    GetValuesByRule (jsonpath c) (statusReader c) obj rule = ([], None)).
  { intros rule Hcommon Hjson. unfold GetValuesByRule.
    by rewrite !bool_decide_false by done. }
  assert (ruleErrors (GetValuesByRule (jsonpath c) (statusReader c)) obj statusFeedbackRules
          = []) as ->.
  { unfold ruleErrors. induction Hunknown as [|rule rules [Hcommon Hjson] _ IH]; [done|].
    cbn [omap list_omap]. by rewrite Hnone, IH. }
  assert (ruleValues (GetValuesByRule (jsonpath c) (statusReader c)) obj statusFeedbackRules
          = []) as ->.
  { unfold ruleValues. induction Hunknown as [|rule rules [Hcommon Hjson] _ IH]; [done|].
    by rewrite bind_cons, Hnone, IH. }
  reflexivity.
Qed.

(** X9. What [Reconcile] rebuilds keeps the name, the generation and the
    spec of the work, its work-level conditions, and the identifiers of its
    manifest conditions; it rewrites only the manifest conditions that some
    manifest writes to. *)
Theorem rebuild_frame (c : StatusFeedbackReconciler) (work built : Work) :
  rebuild c work = Some built →
  Work.Name built = Work.Name work
  ∧ Work.Namespace built = Work.Namespace work
  ∧ Work.Generation built = Work.Generation work
  ∧ Work.Spec built = Work.Spec work
  ∧ WorkStatus.Conditions (Work.Status built) = WorkStatus.Conditions (Work.Status work)
  ∧ ManifestCondition.Identifier <$> WorkStatus.ManifestConditions (Work.Status built)
    = ManifestCondition.Identifier <$> WorkStatus.ManifestConditions (Work.Status work)
  ∧ ∀ k,
      k ∉ targets c (WorkStatus.ManifestConditions (Work.Status work))
            (WorkloadTemplate.Manifests (WorkSpec.Workload (Work.Spec work))) →
      WorkStatus.ManifestConditions (Work.Status built) !! k
      = WorkStatus.ManifestConditions (Work.Status work) !! k.
Proof.
  unfold rebuild.
  destruct (feedbackManifests c 0 _ _) as [final|] eqn:Hrun; [|done].
  intros [= <-]. cbn. split_and!; try done.
  - by eapply feedbackManifests_identifiers.
  - intros k Hk. by eapply feedbackManifests_untouched.
Qed.

(** X10. What [Reconcile] returns and writes comes from the hub alone. An
    error it returns is the error of reading the work, other than not-found,
    or the error of the status update; a resource that cannot be fetched and
    a rule that fails never surface as one. It writes only a work it rebuilt
    whose status differs from the one it read, and it requeues after the
    sync interval whenever it could read the work. *)
Theorem reconcile_errors_from_hub (c : StatusFeedbackReconciler) (name namespace : string) :
  let o := Reconcile c name namespace in
  (∀ err, returned o = Some err →
     (client_Get c name namespace = inl err ∧ errors.IsNotFound err = false
      ∧ written o = None)
     ∨ (∃ work', written o = Some work' ∧ client_Status_Update c work' = Some err))
  ∧ (∀ work', written o = Some work' →
       ∃ work, client_Get c name namespace = inr work
               ∧ rebuild c work = Some work'
               ∧ Work.Status work' ≠ Work.Status work)
  ∧ (∀ work, client_Get c name namespace = inr work →
       RequeueAfter o = statusSyncInterval c)
  ∧ (∀ err, client_Get c name namespace = inl err →
       RequeueAfter o = 0%Z ∧ written o = None).
Proof.
  cbv zeta. unfold Reconcile.
  destruct (client_Get c name namespace) as [err|work].
  - destruct (errors.IsNotFound err) eqn:Hnotfound; cbn; split_and!; try done.
    intros err' [= <-]. by left.
  - destruct (rebuild c work) as [work'|] eqn:Hrebuild; [|by cbn].
    destruct (statusEqual (Work.Status work) (Work.Status work')) eqn:Hequal; cbn;
      split_and!; try done.
    + intros err Hreturned. right. by exists work'.
    + intros ? [= <-]. exists work. split_and!; [done..|].
      intros Hstatus. rewrite Hstatus in Hequal. unfold statusEqual in Hequal.
      by rewrite !bool_decide_true in Hequal.
Qed.

Lemma feedbackManifests_no_target (c : StatusFeedbackReconciler) (manifests : list Manifest)
    (i : nat) (manifestConditions : list ManifestCondition) :
  ¬ fetchFails c manifests →
  targets c manifestConditions manifests = [] →
  feedbackManifests c i manifests manifestConditions = Some manifestConditions.
Proof.
  revert i. induction manifests as [|m manifests IH]; intros i Hfetch Htargets; [done|].
  cbn [feedbackManifests]. unfold targets in Htargets. cbn [omap list_omap] in Htargets.
  unfold target at 1 in Htargets. fold (targets c manifestConditions manifests) in Htargets.
  assert (Hrest : ¬ fetchFails c manifests).
  { intros (j & manifest & rules' & err & Hj & Hrules & Herr). apply Hfetch.
    by exists (S j), manifest, rules', err. }
  destruct (Manifest.StatusFeedbackRules m) as [rules'|] eqn:Hrules; [|by apply IH].
  destruct (getResourceObject c m) as [err|resource] eqn:Hget.
  { exfalso. apply Hfetch. by exists 0, m, rules', err. }
  destruct (getFeedbackValues c resource rules') as [values condition].
  unfold recordFeedback.
  destruct (list_find (identifies resource) manifestConditions) as [[k entry]|];
    [done|by apply IH].
Qed.

(** X11. When no manifest has a manifest condition to write to (the work has
    no feedback rules, or no condition names the fetched resources), a pass
    of [Reconcile] writes nothing and requeues: values with no condition to
    hold them are dropped. *)
Theorem reconcile_nothing_to_report (c : StatusFeedbackReconciler) (name namespace : string)
    (work : Work) :
  client_Get c name namespace = inr work →
  ¬ fetchFails c (WorkloadTemplate.Manifests (WorkSpec.Workload (Work.Spec work))) →
  targets c (WorkStatus.ManifestConditions (Work.Status work))
    (WorkloadTemplate.Manifests (WorkSpec.Workload (Work.Spec work))) = [] →
  rebuild c work = Some work
  ∧ Reconcile c name namespace
    = {| RequeueAfter := statusSyncInterval c; returned := None; written := None |}.
Proof.
  intros Hget Hfetch Htargets.
  assert (Hsame : rebuild c work = Some work).
  { unfold rebuild. rewrite feedbackManifests_no_target by done.
    by destruct work as [? ? ? ? []]. }
  split; [done|]. unfold Reconcile. rewrite Hget, Hsame.
  unfold statusEqual. by rewrite !bool_decide_true.
Qed.

End ReconcilerFacts.

(** * Further properties of a pass of syncWork *)

Section ConditionTypes.
Import spec.

Lemma SetStatusCondition_types (now : Z) (conditions : list Condition)
    (newCondition : Condition) :
  Condition.Type_ <$> meta.SetStatusCondition now conditions newCondition
  = match meta.FindStatusCondition conditions (Condition.Type_ newCondition) with
    | Some _ => Condition.Type_ <$> conditions
    | None => (Condition.Type_ <$> conditions) ++ [Condition.Type_ newCondition]
    end.
Proof.
  unfold meta.SetStatusCondition.
  destruct (meta.FindStatusCondition conditions (Condition.Type_ newCondition))
    as [[i existing]|] eqn:Hfind.
  - unfold meta.FindStatusCondition in Hfind.
    apply list_find_Some in Hfind as (Hi & Hty & _).
    rewrite list_fmap_insert. cbn [Condition.Type_]. apply list_insert_id.
    by rewrite list_lookup_fmap, Hi.
  - by rewrite fmap_app, fmap_cons, SetStatusCondition_type.
Qed.

(** Setting a condition keeps the types of a set pairwise distinct. *)
Lemma SetStatusCondition_unique (now : Z) (conditions : list Condition)
    (newCondition : Condition) :
  uniqueTypes conditions →
  uniqueTypes (meta.SetStatusCondition now conditions newCondition).
Proof.
  unfold uniqueTypes. intros Hunique. rewrite SetStatusCondition_types.
  destruct (meta.FindStatusCondition conditions (Condition.Type_ newCondition))
    as [[i existing]|] eqn:Hfind; [done|].
  unfold meta.FindStatusCondition in Hfind. apply list_find_None in Hfind.
  apply NoDup_app. split_and!; [done| |apply NoDup_singleton].
  intros ty Hin Hnew. apply list_elem_of_singleton in Hnew as ->.
  apply list_elem_of_fmap in Hin as (condition & Hty & Hin).
  rewrite Forall_forall in Hfind. by apply (Hfind condition).
Qed.

Lemma filter_availableWith_none (status : string) (conditions : list Condition) :
  "Available" ∉ Condition.Type_ <$> conditions →
  filter (availableWith status) conditions = [].
Proof.
  induction conditions as [|x conditions IH]; [done|].
  rewrite fmap_cons, not_elem_of_cons. intros [Hx Hrest].
  rewrite filter_cons, decide_False; [by apply IH|].
  unfold availableWith. intros [Hty _]. congruence.
Qed.

(** In a set of pairwise distinct types the [Available] condition is the
    only one that is counted. *)
Lemma filter_availableWith_unique (status : string) (conditions : list Condition)
    (i : nat) (existing : Condition) :
  uniqueTypes conditions →
  conditions !! i = Some existing →
  Condition.Type_ existing = "Available" →
  length (filter (availableWith status) conditions)
  = if decide (Condition.Status existing = status) then 1 else 0.
Proof.
  unfold uniqueTypes. revert i.
  induction conditions as [|x conditions IH]; intros i Hunique Hi Hty; [done|].
  rewrite fmap_cons, NoDup_cons in Hunique. destruct Hunique as [Hfresh Hunique].
  rewrite filter_cons. destruct i as [|i]; simplify_eq/=.
  - rewrite filter_availableWith_none by congruence.
    unfold availableWith. repeat case_decide; simpl; first [done | exfalso; tauto].
  - assert (Hx : Condition.Type_ x ≠ "Available").
    { intros Hx. apply Hfresh, list_elem_of_fmap. exists existing.
      split; [congruence|by eapply list_elem_of_lookup_2]. }
    rewrite decide_False by (unfold availableWith; tauto). by eapply IH.
Qed.

Lemma carries_counted (status : string) (conditions : list Condition) (condition : Condition) :
  uniqueTypes conditions →
  Condition.Type_ condition = "Available" →
  carries conditions condition →
  length (filter (availableWith status) conditions)
  = if decide (Condition.Status condition = status) then 1 else 0.
Proof.
  intros Hunique Hty (i & existing & Hfind & Hstatus & _).
  unfold meta.FindStatusCondition in Hfind.
  apply list_find_Some in Hfind as (Hi & Hexisting & _).
  rewrite <- Hstatus. eapply filter_availableWith_unique; [done..|congruence].
Qed.

End ConditionTypes.

Section EntryFacts.
Import statussync spec.
Variable c : StatusSyncController.
Variable manifestConfigs : list ManifestConfig.

Lemma syncedEntry_identifier (index : nat) (manifest : Manifest) (entry : ManifestCondition) :
  ManifestCondition.Identifier (syncedEntry c manifestConfigs index manifest entry)
  = ManifestCondition.Identifier entry.
Proof.
  unfold syncedEntry.
  destruct (buildAvailableStatusCondition c manifest) as [[obj condition] err].
  destruct err as [e|]; [done|]. destruct obj as [obj|]; [|done].
  destruct (find _ manifestConfigs) as [manifestConfig|]; [|done].
  by destruct (getSyncValues (statusReader c) obj _) as [values statusSyncCondition].
Qed.

Lemma syncedEntry_unique (index : nat) (manifest : Manifest) (entry : ManifestCondition) :
  uniqueTypes (ManifestCondition.Conditions entry) →
  uniqueTypes (ManifestCondition.Conditions (syncedEntry c manifestConfigs index manifest entry)).
Proof.
  intros Hunique. unfold syncedEntry.
  destruct (buildAvailableStatusCondition c manifest) as [[obj condition] err].
  pose proof (SetStatusCondition_unique (now c (AvailableSite index)) _ condition Hunique)
    as Havailable.
  destruct err as [e|]; [done|]. destruct obj as [obj|]; [|done].
  destruct (find _ manifestConfigs) as [manifestConfig|]; [|done].
  destruct (getSyncValues (statusReader c) obj _) as [values statusSyncCondition].
  cbn. by apply SetStatusCondition_unique.
Qed.

Lemma syncedEntries_identifiers (index : nat) (manifests : list Manifest)
    (manifestConditions : list ManifestCondition) :
  ManifestCondition.Identifier <$> syncedEntries c manifestConfigs index manifests manifestConditions
  = ManifestCondition.Identifier <$> manifestConditions.
Proof.
  revert index manifestConditions.
  induction manifests as [|m manifests IH]; intros index [|entry rest]; try done.
  cbn [syncedEntries]. by rewrite !fmap_cons, syncedEntry_identifier, IH.
Qed.

Lemma syncedEntries_unique (index : nat) (manifests : list Manifest)
    (manifestConditions : list ManifestCondition) :
  Forall (λ entry, uniqueTypes (ManifestCondition.Conditions entry)) manifestConditions →
  Forall (λ entry, uniqueTypes (ManifestCondition.Conditions entry))
    (syncedEntries c manifestConfigs index manifests manifestConditions).
Proof.
  intros Hunique. revert index manifests.
  induction Hunique as [|entry rest Hentry Hrest IH]; intros index [|m manifests];
    cbn [syncedEntries]; try done.
  - by constructor.
  - constructor; [by apply syncedEntry_unique|apply IH].
Qed.

(** With one manifest condition per manifest and pairwise distinct
    types in each, the aggregator counts, after the loop, one condition per
    manifest: the one the availability check of the manifest gave. *)
Lemma countAvailable_synced (status : string) (index : nat) (manifests : list Manifest)
    (manifestConditions : list ManifestCondition) :
  length manifests = length manifestConditions →
  Forall (λ entry, uniqueTypes (ManifestCondition.Conditions entry)) manifestConditions →
  countAvailable status (syncedEntries c manifestConfigs index manifests manifestConditions)
  = Z.of_nat (length (filter
      (λ manifest, Condition.Status (buildAvailableStatusCondition c manifest).1.2 = status)
      manifests)).
Proof.
  unfold countAvailable. intros Hlength Hunique. f_equal. revert index manifests Hlength.
  induction Hunique as [|entry rest Hentry _ IH]; intros index [|m manifests] Hlength;
    try done.
  cbn [syncedEntries]. rewrite bind_cons, filter_app, length_app, filter_cons.
  rewrite (IH (S index) manifests) by (simpl in Hlength; lia).
  rewrite (carries_counted status _ (buildAvailableStatusCondition c m).1.2).
  - by case_decide.
  - by apply syncedEntry_unique.
  - apply buildAvailableStatusCondition_type.
  - apply syncedEntry_available.
Qed.

Lemma buildAvailableStatusCondition_status (manifest : Manifest) :
  Condition.Status (buildAvailableStatusCondition c manifest).1.2 = metav1.ConditionTrue
  ∨ Condition.Status (buildAvailableStatusCondition c manifest).1.2 = metav1.ConditionFalse
  ∨ Condition.Status (buildAvailableStatusCondition c manifest).1.2 = metav1.ConditionUnknown.
Proof.
  unfold buildAvailableStatusCondition.
  destruct (decodeUnstructured c manifest) as [err|[gvr unstructuredObj]]; [by right; right|].
  destruct (spokeDynamicClient_Get c gvr _ _) as [err|obj]; [|by left].
  destruct (errors.IsNotFound err); [by right; left|by right; right].
Qed.

Lemma availability_counts (manifests : list Manifest) :
  let count status :=
    length (filter
      (λ manifest, Condition.Status (buildAvailableStatusCondition c manifest).1.2 = status)
      manifests) in
  count metav1.ConditionTrue + count metav1.ConditionFalse + count metav1.ConditionUnknown
  = length manifests
  ∧ (0 < count metav1.ConditionFalse ↔
     Exists (λ manifest,
               Condition.Status (buildAvailableStatusCondition c manifest).1.2
               = metav1.ConditionFalse) manifests)
  ∧ (count metav1.ConditionTrue = length manifests ↔
     Forall (λ manifest,
               Condition.Status (buildAvailableStatusCondition c manifest).1.2
               = metav1.ConditionTrue) manifests).
Proof.
  cbv zeta. induction manifests as [|m manifests (Hsum & Hfalse & Htrue)].
  { cbn. split_and!; [done|split; [lia|by intros ?%Exists_nil]|done]. }
  rewrite !filter_cons, Exists_cons, Forall_cons.
  pose proof (length_filter
    (λ manifest, Condition.Status (buildAvailableStatusCondition c manifest).1.2
                 = metav1.ConditionTrue) manifests) as Hbound.
  destruct (buildAvailableStatusCondition_status m) as [Hm|[Hm|Hm]]; rewrite Hm;
    unfold metav1.ConditionTrue, metav1.ConditionFalse, metav1.ConditionUnknown in *;
    repeat (case_decide; try done); cbn [length];
    (split_and!; [lia| |]); split; intros Hcase;
    first [ lia
          | by left
          | right; apply Hfalse; lia
          | destruct Hcase as [Hcase|Hcase]; [discriminate|apply Hfalse in Hcase; lia]
          | split; [done|apply Htrue; lia]
          | destruct Hcase as [_ Hcase]; apply Htrue in Hcase; lia
          | destruct Hcase as [Hcase _]; discriminate ].
Qed.

End EntryFacts.

Section PassProperties.
Import statussync spec.

(** X12. A pass of [syncWork] touches the status only where it reports: the
    candidate keeps the name, the generation and the spec of the work, the
    identifiers of all manifest conditions, the manifest conditions past the
    last manifest, and every work-level condition of a type other than
    [Available]. What it writes, if it writes, is the candidate; and it
    writes nothing only when the candidate's status is the work's. *)
Theorem syncWork_frame (c : StatusSyncController) (work : Work) (o : Outcome) :
  syncWork c work = inr o →
  Work.Name (candidate o) = Work.Name work
  ∧ Work.Generation (candidate o) = Work.Generation work
  ∧ Work.Spec (candidate o) = Work.Spec work
  ∧ ManifestCondition.Identifier <$> WorkStatus.ManifestConditions (Work.Status (candidate o))
    = ManifestCondition.Identifier <$> WorkStatus.ManifestConditions (Work.Status work)
  ∧ (∀ k, length (WorkloadTemplate.Manifests (WorkSpec.Workload (Work.Spec work))) ≤ k →
       WorkStatus.ManifestConditions (Work.Status (candidate o)) !! k
       = WorkStatus.ManifestConditions (Work.Status work) !! k)
  ∧ (∀ conditionType, conditionType ≠ resourceAvailableConditionType →
       meta.FindStatusCondition (WorkStatus.Conditions (Work.Status (candidate o))) conditionType
       = meta.FindStatusCondition (WorkStatus.Conditions (Work.Status work)) conditionType)
  ∧ (∀ work', written o = Some work' →
       work' = candidate o
       ∧ Work.Status work' ≠ Work.Status work
       ∧ returned o = client_Status_Update c work')
  ∧ (written o = None → returned o = None ∧ Work.Status (candidate o) = Work.Status work).
Proof.
  intros Hpass.
  assert (Hwritten : (∀ work', written o = Some work' →
                        work' = candidate o
                        ∧ Work.Status work' ≠ Work.Status work
                        ∧ returned o = client_Status_Update c work')
                     ∧ (written o = None →
                        returned o = None ∧ Work.Status (candidate o) = Work.Status work)).
  { revert Hpass. rewrite syncWork_candidate. case_decide; [|done]. cbv zeta.
    destruct (statusEqual _ _) eqn:Hequal; intros [= <-]; cbn [candidate written returned];
      split; try done.
    - intros _. split; [done|]. by rewrite statusEqual_candidate.
    - intros work' [= <-]. split_and!; [done| |done].
      intros Hstatus. by rewrite Hstatus, statusEqual_refl in Hequal. }
  destruct Hwritten as [Hsome Hnone].
  apply syncWork_inr in Hpass as [Hcovered Hcandidate].
  rewrite Hcandidate in Hsome, Hnone |- *. unfold candidateOf. cbn.
  split_and!; try done.
  - apply syncedEntries_identifiers.
  - intros k Hk. rewrite syncedEntries_lookup.
    by rewrite (lookup_ge_None_2 (WorkloadTemplate.Manifests _) k) by done.
  - intros conditionType Hne. apply FindStatusCondition_set_other.
    by rewrite aggregate_unfold; cbv zeta; repeat case_bool_decide.
Qed.

(** X13. A pass keeps the condition types of every set of the status pairwise
    distinct: it never adds a second condition of a type. *)
Theorem syncWork_unique (c : StatusSyncController) (work : Work) (o : Outcome) :
  uniqueStatus (Work.Status work) →
  syncWork c work = inr o →
  uniqueStatus (Work.Status (candidate o)).
Proof.
  intros [Hwork Hentries] Hpass. apply syncWork_inr in Hpass as [_ ->].
  unfold candidateOf, uniqueStatus. cbn. split.
  - by apply SetStatusCondition_unique.
  - by apply syncedEntries_unique.
Qed.

(** X14. An update the hub rejects is not lost: the work stays as it was, and
    the next pass over the same resources and rules issues an update again. *)
Theorem rejected_update_retried (c c' : StatusSyncController) (work : Work) (o : Outcome)
    (err : error) :
  sameBacking c c' →
  syncWork c work = inr o →
  returned o = Some err →
  persisted work o = work
  ∧ ∃ o' work', syncWork c' (persisted work o) = inr o' ∧ written o' = Some work'
      ∧ Work.Status work' ≠ Work.Status work.
Proof.
  intros Hsame Hpass Hreturned.
  assert (Hkept : persisted work o = work).
  { unfold persisted. rewrite Hreturned. by destruct (written o). }
  split; [done|]. rewrite Hkept.
  revert Hpass. rewrite !syncWork_candidate. case_decide as Hcovered; [|done]. cbv zeta.
  destruct (statusEqual (Work.Status work) (Work.Status (candidateOf c work))) eqn:Hequal;
    intros [= <-]; [done|].
  destruct (statusEqual (Work.Status work) (Work.Status (candidateOf c' work))) eqn:Hequal'.
  - exfalso. apply statusEqual_candidate in Hequal'.
    assert (Hsame' : sameBacking c' c).
    { destruct Hsame as (Hdecode & Hget & Hread). by repeat split. }
    pose proof (candidateOf_stable c' c work Hsame') as Hstable.
    rewrite Hequal' in Hstable. rewrite Hstable, statusEqual_refl in Hequal. done.
  - eexists _, _. split_and!; [done..|]. intros Hstatus.
    rewrite Hstatus, statusEqual_refl in Hequal'. done.
Qed.

(** X15. What a pass reports on the work, end to end. With one manifest
    condition per manifest and pairwise distinct condition types in each,
    the work-level [Available] condition after the pass carries the work's
    generation, is [True] exactly when there is a manifest and every
    manifest is available, and is [False] exactly when some manifest is
    unavailable. *)
Theorem work_availability (c : StatusSyncController) (work : Work) (o : Outcome) :
  let manifests := WorkloadTemplate.Manifests (WorkSpec.Workload (Work.Spec work)) in
  let availability manifest := Condition.Status (buildAvailableStatusCondition c manifest).1.2 in
  length manifests = length (WorkStatus.ManifestConditions (Work.Status work)) →
  Forall (λ entry, uniqueTypes (ManifestCondition.Conditions entry))
    (WorkStatus.ManifestConditions (Work.Status work)) →
  syncWork c work = inr o →
  ∃ i condition,
    meta.FindStatusCondition (WorkStatus.Conditions (Work.Status (candidate o)))
      resourceAvailableConditionType = Some (i, condition)
    ∧ Condition.ObservedGeneration condition = Work.Generation work
    ∧ (Condition.Status condition = metav1.ConditionTrue ↔
       manifests ≠ []
       ∧ Forall (λ manifest, availability manifest = metav1.ConditionTrue) manifests)
    ∧ (Condition.Status condition = metav1.ConditionFalse ↔
       Exists (λ manifest, availability manifest = metav1.ConditionFalse) manifests).
Proof.
  cbv zeta. intros Hlength Hunique Hpass. apply syncWork_inr in Hpass as [_ ->].
  unfold candidateOf. cbn.
  set (entries := syncedEntries c _ 0 _ _).
  destruct (SetStatusCondition_carries (now c WorkSite)
              (WorkStatus.Conditions (Work.Status work))
              (aggregateManifestConditions (Work.Generation work) entries))
    as (i & condition & Hfind & Hstatus & Hgeneration & _).
  destruct (aggregate_status (Work.Generation work) entries) as (Hfalse & Htrue & _).
  revert Hfind Hstatus Hgeneration Hfalse Htrue.
  replace (Condition.Type_ (aggregateManifestConditions (Work.Generation work) entries))
    with resourceAvailableConditionType
    by (by rewrite aggregate_unfold; cbv zeta; repeat case_bool_decide).
  replace (Condition.ObservedGeneration
             (aggregateManifestConditions (Work.Generation work) entries))
    with (Work.Generation work)
    by (by rewrite aggregate_unfold; cbv zeta; repeat case_bool_decide).
  intros Hfind Hstatus Hgeneration Hfalse Htrue.
  exists i, condition. split_and!; [done..| |]; rewrite Hstatus.
  - rewrite Htrue. unfold entries. rewrite !countAvailable_synced by done.
    destruct (availability_counts c
                (WorkloadTemplate.Manifests (WorkSpec.Workload (Work.Spec work))))
      as (Hsum & _ & Hall).
    rewrite <- Hall.
    destruct (WorkloadTemplate.Manifests (WorkSpec.Workload (Work.Spec work)))
      as [|m manifests] eqn:Hmanifests.
    + cbn. split; [lia|]. by intros [? _].
    + assert (0 < length (m :: manifests)) by (cbn [length]; lia).
      split; [intros (? & ? & ?); split; [done|lia] | intros [_ Hcount]; lia].
  - rewrite Hfalse. unfold entries. rewrite countAvailable_synced by done.
    destruct (availability_counts c
                (WorkloadTemplate.Manifests (WorkSpec.Workload (Work.Spec work))))
      as (_ & Hsome & _).
    rewrite <- Hsome. lia.
Qed.

End PassProperties.

(** * The sweep over all works *)

Section SweepFacts.
Import statussync spec.
Variable c : StatusSyncController.
Variable clock : nat → Site → metav1.Time.

Lemma syncWorks_covered (k : nat) (works : list Work) :
  Forall covered works →
  panicked (syncWorks c clock k works) = None
  ∧ length (completed (syncWorks c clock k works)) = length works
  ∧ ∀ j work, works !! j = Some work →
      ∃ o, syncWork (atTime c (clock (k + j))) work = inr o
           ∧ completed (syncWorks c clock k works) !! j = Some o
           ∧ LogInfo ("sync work: " +:+ Work.Name work) ∈ logged (syncWorks c clock k works)
           ∧ ∀ err, returned o = Some err →
               LogError err ("unable to sync work " +:+ Work.Name work)
               ∈ logged (syncWorks c clock k works).
Proof.
  intros Hcovered. revert k.
  induction Hcovered as [|work works Hwork _ IH]; intros k; [done|].
  cbn [syncWorks].
  destruct (syncWork_covered (atTime c (clock k)) work Hwork) as (o & Hpass & _).
  rewrite Hpass. cbn [logged completed panicked].
  destruct (IH (S k)) as (Hpanic & Hlength & Heach).
  split_and!; [done|by cbn [length]; rewrite Hlength|].
  intros [|j] work' Hj; simplify_eq/=.
  - exists o. rewrite Nat.add_0_r. split_and!; [done|done|by left|].
    intros err ->. right. by left.
  - destruct (Heach j work' Hj) as (o' & Hpass' & Hdone & Hinfo & Herror).
    exists o'. replace (k + S j) with (S k + j) by lia.
    split_and!; [done|done| |].
    + right. apply elem_of_app. by right.
    + intros err Hreturned. right. apply elem_of_app. right. by apply Herror.
Qed.

(** X16. A sweep passes over every listed work whatever the passes before
    returned: when the manifest conditions of every work cover its manifests,
    no pass panics, every work is synced once, in order and at its own time,
    and every error, of the listing or of an update, is logged and stops
    nothing. *)
Theorem sweep_isolates_errors (items : list Work) (listError : option error) :
  Forall covered items →
  let sweep := syncAllWorks c clock (items, listError) in
  panicked sweep = None
  ∧ length (completed sweep) = length items
  ∧ (∀ k work, items !! k = Some work →
       ∃ o, syncWork (atTime c (clock k)) work = inr o
            ∧ completed sweep !! k = Some o
            ∧ LogInfo ("sync work: " +:+ Work.Name work) ∈ logged sweep
            ∧ ∀ err, returned o = Some err →
                LogError err ("unable to sync work " +:+ Work.Name work) ∈ logged sweep)
  ∧ (∀ err, listError = Some err → LogError err "unable to list work" ∈ logged sweep)
  ∧ (items = [] → LogInfo "no work found" ∈ logged sweep).
Proof.
  intros Hcovered. cbv zeta. unfold syncAllWorks. cbn [fst snd logged completed panicked].
  destruct (syncWorks_covered 0 items Hcovered) as (Hpanic & Hlength & Heach).
  split_and!; [done|done| | |].
  - intros k work Hk. destruct (Heach k work Hk) as (o & Hpass & Hdone & Hinfo & Herror).
    exists o. split_and!; [done|done| |].
    + right. apply elem_of_app. right. apply elem_of_app. by right.
    + intros err Hreturned. right. apply elem_of_app. right. apply elem_of_app.
      right. by apply Herror.
  - intros err ->. right. by left.
  - intros ->. right. apply elem_of_app. right. by left.
Qed.

Lemma syncWorks_panics (k : nat) (before after : list Work) (work : Work) :
  Forall covered before →
  ¬ covered work →
  let sweep := syncWorks c clock k (before ++ work :: after) in
  panicked sweep
  = Some (IndexOutOfRange (length (WorkStatus.ManifestConditions (Work.Status work)))
            (length (WorkStatus.ManifestConditions (Work.Status work))))
  ∧ length (completed sweep) = length before
  ∧ last (logged sweep) = Some (LogInfo ("sync work: " +:+ Work.Name work)).
Proof.
  intros Hcovered Hwork. cbv zeta. revert k.
  induction Hcovered as [|work' before Hwork' _ IH]; intros k.
  - cbn [app syncWorks]. rewrite syncWork_candidate, decide_False by done. done.
  - cbn [app syncWorks].
    destruct (syncWork_covered (atTime c (clock k)) work' Hwork') as (o & Hpass & _).
    rewrite Hpass. cbn [logged completed panicked length].
    destruct (IH (S k)) as (Hpanic & Hlength & Hlast).
    split_and!; [done|by rewrite Hlength|].
    rewrite last_cons, last_app, Hlast. done.
Qed.

(** X17. A work with more manifests than manifest conditions ends the sweep:
    the pass over it panics on its index access, right after its first log
    line, and no work listed after it is synced in this sweep. *)
Theorem sweep_stops_at_panic (before after : list Work) (work : Work)
    (listError : option error) :
  Forall covered before →
  ¬ covered work →
  let sweep := syncAllWorks c clock (before ++ work :: after, listError) in
  panicked sweep
  = Some (IndexOutOfRange (length (WorkStatus.ManifestConditions (Work.Status work)))
            (length (WorkStatus.ManifestConditions (Work.Status work))))
  ∧ length (completed sweep) = length before
  ∧ last (logged sweep) = Some (LogInfo ("sync work: " +:+ Work.Name work)).
Proof.
  intros Hcovered Hwork. cbv zeta. unfold syncAllWorks. cbn [fst snd logged completed panicked].
  destruct (syncWorks_panics 0 before after work Hcovered Hwork) as (Hpanic & Hlength & Hlast).
  split_and!; [done..|].
  rewrite last_cons, !last_app, Hlast. done.
Qed.

End SweepFacts.

(** * Further examples *)

Section FurtherExamples.
Import statussync spec.

Lemma aggregate_permutation_witness :
  aggregateManifestConditions 3 [demo.available "False"; demo.available "True"]
  = aggregateManifestConditions 3 [demo.available "True"; demo.available "False"].
Proof. apply aggregate_permutation, perm_swap. Defined.

Lemma aggregate_counts_bounded_witness :
  ∃ n, n = countAvailable metav1.ConditionFalse [demo.available "False"; demo.available "True"]
       ∧ (0 < n ≤ 2)%Z
       ∧ Condition.Message
           (aggregateManifestConditions 3 [demo.available "False"; demo.available "True"])
         = pretty n +:+ " of " +:+ pretty 2%Z +:+ " resources are not available".
Proof.
  destruct (aggregate_counts_bounded 3 [demo.available "False"; demo.available "True"])
    as (Hfalse & _).
  - repeat (apply Forall_cons; split; [apply NoDup_singleton|]). apply Forall_nil_2.
  - apply Hfalse. by vm_compute.
Defined.

Lemma common_fields_registered_witness :
  (Unstructured.GroupVersionKind demo.configMap ∉ registeredKinds)
  ∧ statusfeedback.GetValuesByRule demo.jsonpath statusfeedback.NewStatusReader
      demo.configMap demo.commonFields
    = ([], Some (ErrorString
                   ("cannot find the CommonFields statuses for resrouce with gvk "
                      +:+ GroupVersionKind.String (Unstructured.GroupVersionKind demo.configMap)))).
Proof.
  assert (Hout : Unstructured.GroupVersionKind demo.configMap ∉ registeredKinds)
    by (apply (bool_decide_unpack _); by vm_compute).
  split; [done|].
  by apply (common_fields_registered demo.jsonpath demo.configMap demo.commonFields).
Defined.

Lemma common_fields_distinct_names_witness :
  NoDup (statusfeedback.FeedbackValue.Name
           <$> (statusfeedback.GetValuesByRule demo.jsonpath statusfeedback.NewStatusReader
                  (demo.deployment 3) demo.commonFields).1).
Proof. by apply common_fields_distinct_names. Defined.

Lemma unknown_rule_types_ignored_witness :
  statusfeedback.getFeedbackValues (demo.reconciler demo.feedbackWork 100) (demo.deployment 3)
    [demo.scripted]
  = ([], Condition.mk "StatusFeedbackSynced" "True" 0 0 "NoStatusFeedbackSynced" "").
Proof.
  apply unknown_rule_types_ignored. repeat constructor; by cbn.
Defined.

Lemma rebuild_frame_witness :
  ∃ built,
    statusfeedback.rebuild (demo.reconciler demo.twiceWork 100) demo.twiceWork = Some built
    ∧ statusfeedback.Work.Spec built = statusfeedback.Work.Spec demo.twiceWork
    ∧ statusfeedback.ManifestCondition.Identifier
        <$> statusfeedback.WorkStatus.ManifestConditions (statusfeedback.Work.Status built)
      = [statusfeedback.ManifestCondition.Identifier demo.feedbackEntry].
Proof.
  destruct (statusfeedback.rebuild (demo.reconciler demo.twiceWork 100) demo.twiceWork)
    as [built|] eqn:Hrebuild; [|by vm_compute in Hrebuild].
  exists built. split; [done|].
  destruct (rebuild_frame _ _ _ Hrebuild) as (_ & _ & _ & Hspec & _ & Hidentifiers & _).
  by split.
Defined.

Lemma reconcile_nothing_to_report_witness :
  statusfeedback.Reconcile (demo.reconciler demo.unreportedWork 100) "demo" "cluster1"
  = {| statusfeedback.RequeueAfter := 30;
       statusfeedback.returned := None;
       statusfeedback.written := None |}.
Proof.
  apply (reconcile_nothing_to_report (demo.reconciler demo.unreportedWork 100)
           "demo" "cluster1" demo.unreportedWork).
  - reflexivity.
  - intros (j & manifest & rules' & err & Hj & Hrules & Herr).
    destruct j as [|j]; [|done]. injection Hj as <-. by vm_compute in Herr.
  - reflexivity.
Defined.

Lemma syncWork_frame_witness :
  ∃ o, syncWork (demo.controller 3 100) demo.work = inr o
       ∧ Work.Spec (candidate o) = demo.workSpec
       ∧ written o = Some (candidate o).
Proof.
  destruct (syncWork (demo.controller 3 100) demo.work) as [|o] eqn:Hpass;
    [by vm_compute in Hpass|].
  exists o. split; [done|].
  destruct (syncWork_frame _ _ _ Hpass) as (_ & _ & Hspec & _ & _ & _ & Hwritten & _).
  split; [done|].
  destruct (written o) as [work'|] eqn:Hwork;
    [by destruct (Hwritten work' eq_refl) as [-> _]|].
  vm_compute in Hpass. injection Hpass as <-. done.
Defined.

Lemma syncWork_unique_witness :
  ∃ o, syncWork (demo.controller 3 100) demo.work = inr o
       ∧ uniqueStatus (Work.Status (candidate o)).
Proof.
  destruct (syncWork (demo.controller 3 100) demo.work) as [|o] eqn:Hpass;
    [by vm_compute in Hpass|].
  exists o. split; [done|].
  apply (syncWork_unique (demo.controller 3 100) demo.work o); [|done].
  split; [apply NoDup_nil_2|repeat constructor].
Defined.

Lemma rejected_update_retried_witness :
  ∃ o, syncWork (demo.rejecting 3 100) demo.work = inr o
       ∧ persisted demo.work o = demo.work
       ∧ ∃ o' work', syncWork (demo.rejecting 3 200) (persisted demo.work o) = inr o'
                     ∧ written o' = Some work'
                     ∧ Work.Status work' ≠ Work.Status demo.work.
Proof.
  destruct (syncWork (demo.rejecting 3 100) demo.work) as [|o] eqn:Hpass;
    [by vm_compute in Hpass|].
  exists o. split; [done|].
  apply (rejected_update_retried (demo.rejecting 3 100) (demo.rejecting 3 200) demo.work o
           (StatusError "Conflict" "the object has been modified")).
  - by repeat split.
  - done.
  - vm_compute in Hpass. by injection Hpass as <-.
Defined.

Lemma work_availability_witness :
  ∃ o i condition,
    syncWork (demo.controller 3 100) demo.work = inr o
    ∧ meta.FindStatusCondition (WorkStatus.Conditions (Work.Status (candidate o)))
        resourceAvailableConditionType = Some (i, condition)
    ∧ Condition.ObservedGeneration condition = 3%Z
    ∧ Condition.Status condition = metav1.ConditionFalse.
Proof.
  destruct (syncWork (demo.controller 3 100) demo.work) as [|o] eqn:Hpass;
    [by vm_compute in Hpass|].
  pose proof (work_availability (demo.controller 3 100) demo.work o) as Hreport.
  cbv zeta in Hreport.
  destruct Hreport as (i & condition & Hfind & Hgeneration & _ & Hfalse);
    [reflexivity|repeat constructor|done|].
  exists o, i, condition. split_and!; [done..|].
  apply Hfalse. by left.
Defined.

Lemma sweep_isolates_errors_witness :
  panicked (syncAllWorks (demo.rejecting 3 100) demo.sweepClock ([demo.work; demo.work], None))
  = None
  ∧ length (completed (syncAllWorks (demo.rejecting 3 100) demo.sweepClock
                         ([demo.work; demo.work], None))) = 2.
Proof.
  destruct (sweep_isolates_errors (demo.rejecting 3 100) demo.sweepClock
              [demo.work; demo.work] None) as (Hpanic & Hlength & _).
  - repeat constructor; unfold covered; cbn; lia.
  - by split.
Defined.

Lemma sweep_stops_at_panic_witness :
  panicked (syncAllWorks (demo.controller 3 100) demo.sweepClock
              ([demo.work; demo.shortWork; demo.work], None))
  = Some (IndexOutOfRange 1 1)
  ∧ length (completed (syncAllWorks (demo.controller 3 100) demo.sweepClock
                         ([demo.work; demo.shortWork; demo.work], None))) = 1.
Proof.
  destruct (sweep_stops_at_panic (demo.controller 3 100) demo.sweepClock
              [demo.work] [demo.work] demo.shortWork None) as (Hpanic & Hlength & _).
  - repeat constructor; unfold covered; cbn; lia.
  - unfold covered. cbn. lia.
  - by split.
Defined.

End FurtherExamples.
